(** * Course / student / review management application

    A shallow embedding of [main/models.py], [main/forms.py] and
    [main/views.py]: the four tables, the ORM calls the views make, the
    validators, the REST permission class with its view sets, and the page
    handlers.  Every view is a computation in a state-and-exception monad
    over the database, so that "the row is unchanged" and "the request ends
    in a server error" are statements about what the view returns. *)

From stdpp Require Import base option list gmap fin_maps strings.
From Stdlib Require Import Ascii ZArith Lia.

Local Open Scope Z_scope.

(** ** Primitive data *)

(** A [uuid4()] value, read as a 128-bit number; the primary key of every
    model of the application ([UUIDMixin]). *)
Abbreviation UUID := N.

(** [datetime.date], as its proleptic ordinal ([date.toordinal()]): Python
    compares dates the way it compares these ordinals. *)
Abbreviation date := Z.

(** [django.contrib.auth.models.User], reduced to what the views read.  Two
    users are equal when their primary keys are. *)
Record User := mkUser {
  user_pk : N;
  username : string;
  is_staff : bool
}.

(** [request.user]: an authenticated [User] or [AnonymousUser]. *)
Inductive RequestUser :=
| AnonymousUser
| Authenticated (u : User).

Definition is_authenticated (ru : RequestUser) : bool :=
  match ru with AnonymousUser => false | Authenticated _ => true end.

(** [request.user.is_staff]; [AnonymousUser.is_staff] is [False]. *)
Definition user_is_staff (ru : RequestUser) : bool :=
  match ru with AnonymousUser => false | Authenticated u => is_staff u end.

(** [request.user == obj.user], with [obj.user] given by its key. *)
Definition user_eq (ru : RequestUser) (owner : N) : bool :=
  match ru with
  | AnonymousUser => false
  | Authenticated u => bool_decide (user_pk u = owner)
  end.

(** ** Models (models.py) *)

Definition MAX_LENGTH : Z := 30.
Definition MAX_LENGTH_DESCRIPTION : Z := 1000.

(** The text attributes hold [None] when a view assigned the result of a
    missing [request.POST.get(...)]; [save()] then fails on the NOT NULL
    column. *)
Record Course := mkCourse {
  Course_user : N;
  title : option string;
  description : option string
}.

Record Student := mkStudent {
  Student_user : N;
  first_name : option string;
  last_name : option string;
  date_of_receipt : date
}.

Record CourseToStudent := mkCourseToStudent {
  cts_course : UUID;
  cts_student : UUID
}.

Record Review := mkReview {
  review_course : UUID;
  review_student : UUID;
  review_text : option string;
  grade : Z
}.

#[global] Instance Course_eq_dec : EqDecision Course.
Proof. solve_decision. Defined.
#[global] Instance Student_eq_dec : EqDecision Student.
Proof. solve_decision. Defined.
#[global] Instance CourseToStudent_eq_dec : EqDecision CourseToStudent.
Proof. solve_decision. Defined.
#[global] Instance Review_eq_dec : EqDecision Review.
Proof. solve_decision. Defined.

(** The database: one table per model, keyed by primary key.  The
    [auth_user] table is outside the model; a user is known by its key. *)
Record DB := mkDB {
  courses : gmap N Course;
  students : gmap N Student;
  coursetostudents : gmap N CourseToStudent;
  reviews : gmap N Review
}.

Definition empty_db : DB := mkDB ∅ ∅ ∅ ∅.

(** ** Exceptions and the view monad *)

Inductive Model := MCourse | MStudent | MCourseToStudent | MReview.

Inductive exn :=
| DoesNotExist (m : Model)
| MultipleObjectsReturned (m : Model)
| IntegrityError
| ValidationError
| ValueError
| TypeError
| AttributeError
| Http404
| NotAuthenticated
| PermissionDenied
| APIValidationError.

#[global] Instance Model_eq_dec : EqDecision Model.
Proof. solve_decision. Defined.
#[global] Instance exn_eq_dec : EqDecision exn.
Proof. solve_decision. Defined.

Inductive result (A : Type) :=
| Ok (a : A)
| Raise (e : exn).
Arguments Ok {A} a.
Arguments Raise {A} e.

(** A computation reads and writes the database and returns or raises. *)
Definition M (A : Type) : Type := DB -> result A * DB.

Definition ret {A} (a : A) : M A := fun db => (Ok a, db).
Definition raise {A} (e : exn) : M A := fun db => (Raise e, db).
Definition bind {A B} (m : M A) (k : A -> M B) : M B :=
  fun db => match m db with
            | (Ok a, db') => k a db'
            | (Raise e, db') => (Raise e, db')
            end.
Definition get_db : M DB := fun db => (Ok db, db).
Definition lift {A} (r : result A) : M A := fun db => (r, db).

#[global] Instance M_ret : MRet M := @ret.
#[global] Instance M_bind : MBind M := fun A B k m => bind m k.

(** ** The ORM calls the views make

    A model instance in a view is the pair of its primary key and its
    row. *)

(** [Model.objects.filter(...)], as the list of matching instances. *)
Definition objects_filter {A} (P : A -> bool) (t : gmap N A) : list (N * A) :=
  filter (fun kv : N * A => P kv.2) (map_to_list t).

(** [Model.objects.filter(...).exists()]. *)
Definition objects_exists {A} (P : A -> bool) (t : gmap N A) : bool :=
  match objects_filter P t with [] => false | _ :: _ => true end.

(** [Model.objects.get(...)] on a non-key condition: exactly one match, or
    [DoesNotExist], or [MultipleObjectsReturned]. *)
Definition objects_get {A} (model : Model) (P : A -> bool) (t : gmap N A)
  : result (N * A) :=
  match objects_filter P t with
  | [] => Raise (DoesNotExist model)
  | [x] => Ok x
  | _ :: _ :: _ => Raise (MultipleObjectsReturned model)
  end.

(** [Model.objects.get(id=pk)]. *)
Definition objects_get_id {A} (model : Model) (pk : N) (t : gmap N A)
  : result (N * A) :=
  match t !! pk with
  | Some row => Ok (pk, row)
  | None => Raise (DoesNotExist model)
  end.

(** [get_object_or_404(Model, id=pk)]. *)
Definition get_object_or_404 {A} (pk : N) (t : gmap N A) : result (N * A) :=
  match t !! pk with
  | Some row => Ok (pk, row)
  | None => Raise Http404
  end.

(** A query with [user=request.user]: the ORM cannot turn [AnonymousUser]
    into a key and raises [TypeError]. *)
Definition user_lookup_value (ru : RequestUser) : result N :=
  match ru with
  | AnonymousUser => Raise TypeError
  | Authenticated u => Ok (user_pk u)
  end.

(** [Student.objects.get(user=request.user)]. *)
Definition Student_objects_get_user (ru : RequestUser) : M (N * Student) :=
  fun db =>
    match user_lookup_value ru with
    | Raise e => (Raise e, db)
    | Ok k =>
        (objects_get MStudent (fun s => bool_decide (Student_user s = k))
           (students db), db)
    end.

(** [Student.objects.filter(user=request.user).exists()]. *)
Definition Student_objects_filter_user_exists (ru : RequestUser) : M bool :=
  fun db =>
    match user_lookup_value ru with
    | Raise e => (Raise e, db)
    | Ok k =>
        (Ok (objects_exists (fun s => bool_decide (Student_user s = k))
               (students db)), db)
    end.

(** [CourseToStudent.objects.filter(student=s, course=c)]: the condition. *)
Definition enrolls (student_pk course_pk : N) (r : CourseToStudent) : bool :=
  bool_decide (cts_student r = student_pk) && bool_decide (cts_course r = course_pk).

(** [check_student_in_course] (views.py), also inlined in [enroll_course]. *)
Definition check_student_in_course (student_pk course_pk : N) : M bool :=
  fun db => (Ok (objects_exists (enrolls student_pk course_pk)
                   (coursetostudents db)), db).

(** *** Writes

    [save()] and [objects.create()] run no validator: only the constraints
    of the database apply (primary key, NOT NULL, foreign keys, and the
    [unique_together] of [CourseToStudent.Meta]). *)

Definition with_courses (f : gmap N Course -> gmap N Course) (db : DB) : DB :=
  mkDB (f (courses db)) (students db) (coursetostudents db) (reviews db).
Definition with_students (f : gmap N Student -> gmap N Student) (db : DB) : DB :=
  mkDB (courses db) (f (students db)) (coursetostudents db) (reviews db).
Definition with_coursetostudents
    (f : gmap N CourseToStudent -> gmap N CourseToStudent) (db : DB) : DB :=
  mkDB (courses db) (students db) (f (coursetostudents db)) (reviews db).
Definition with_reviews (f : gmap N Review -> gmap N Review) (db : DB) : DB :=
  mkDB (courses db) (students db) (coursetostudents db) (f (reviews db)).

Definition Course_not_null (c : Course) : bool :=
  bool_decide (is_Some (title c)) && bool_decide (is_Some (description c)).

Definition Student_not_null (s : Student) : bool :=
  bool_decide (is_Some (first_name s)) && bool_decide (is_Some (last_name s)).

(** [save()] of an instance that was built in the view (INSERT); a key
    that is taken makes the insert fail. *)
Definition Course_save_new (pk : N) (c : Course) : M unit :=
  fun db =>
    if negb (Course_not_null c) then (Raise IntegrityError, db)
    else if bool_decide (is_Some (courses db !! pk)) then (Raise IntegrityError, db)
    else (Ok tt, with_courses (insert pk c) db).

(** [save()] of an instance that was read from the table (UPDATE). *)
Definition Course_save (pk : N) (c : Course) : M unit :=
  fun db =>
    if negb (Course_not_null c) then (Raise IntegrityError, db)
    else (Ok tt, with_courses (insert pk c) db).

Definition Student_save_new (pk : N) (s : Student) : M unit :=
  fun db =>
    if negb (Student_not_null s) then (Raise IntegrityError, db)
    else if bool_decide (is_Some (students db !! pk)) then (Raise IntegrityError, db)
    else (Ok tt, with_students (insert pk s) db).

Definition Student_save (pk : N) (s : Student) : M unit :=
  fun db =>
    if negb (Student_not_null s) then (Raise IntegrityError, db)
    else (Ok tt, with_students (insert pk s) db).

(** [on_delete=models.CASCADE]: the rows that point to a deleted course or
    student go with it. *)
Definition Course_delete (pk : N) : M unit :=
  fun db =>
    (Ok tt,
     mkDB (delete pk (courses db))
          (students db)
          (filter (fun kv : N * CourseToStudent => cts_course kv.2 <> pk)
             (coursetostudents db))
          (filter (fun kv : N * Review => review_course kv.2 <> pk)
             (reviews db))).

Definition Student_delete (pk : N) : M unit :=
  fun db =>
    (Ok tt,
     mkDB (courses db)
          (delete pk (students db))
          (filter (fun kv : N * CourseToStudent => cts_student kv.2 <> pk)
             (coursetostudents db))
          (filter (fun kv : N * Review => review_student kv.2 <> pk)
             (reviews db))).

(** [Meta.unique_together = ('course', 'student')] of [CourseToStudent]: the
    database refuses a second row with the same pair. *)
Definition unique_together_violated (pk : N) (r : CourseToStudent) (db : DB) : bool :=
  objects_exists (fun r' => enrolls (cts_student r) (cts_course r) r')
    (delete pk (coursetostudents db)).

Definition foreign_keys_ok (course_pk student_pk : N) (db : DB) : bool :=
  bool_decide (is_Some (courses db !! course_pk))
  && bool_decide (is_Some (students db !! student_pk)).

(** [CourseToStudent.objects.create(student=s, course=c)]. *)
Definition CourseToStudent_objects_create (pk : N) (r : CourseToStudent) : M unit :=
  fun db =>
    if bool_decide (is_Some (coursetostudents db !! pk)) then (Raise IntegrityError, db)
    else if negb (foreign_keys_ok (cts_course r) (cts_student r) db)
    then (Raise IntegrityError, db)
    else if unique_together_violated pk r db then (Raise IntegrityError, db)
    else (Ok tt, with_coursetostudents (insert pk r) db).

(** [save()] of a [CourseToStudent] read from the table. *)
Definition CourseToStudent_save (pk : N) (r : CourseToStudent) : M unit :=
  fun db =>
    if negb (foreign_keys_ok (cts_course r) (cts_student r) db)
    then (Raise IntegrityError, db)
    else if unique_together_violated pk r db then (Raise IntegrityError, db)
    else (Ok tt, with_coursetostudents (insert pk r) db).

Definition CourseToStudent_delete (pk : N) : M unit :=
  fun db => (Ok tt, with_coursetostudents (delete pk) db).

Definition Review_save_new (pk : N) (r : Review) : M unit :=
  fun db =>
    if bool_decide (is_Some (reviews db !! pk)) then (Raise IntegrityError, db)
    else if negb (foreign_keys_ok (review_course r) (review_student r) db)
    then (Raise IntegrityError, db)
    else (Ok tt, with_reviews (insert pk r) db).

Definition Review_save (pk : N) (r : Review) : M unit :=
  fun db =>
    if negb (foreign_keys_ok (review_course r) (review_student r) db)
    then (Raise IntegrityError, db)
    else (Ok tt, with_reviews (insert pk r) db).

Definition Review_delete (pk : N) : M unit :=
  fun db => (Ok tt, with_reviews (delete pk) db).

(** ** The environment of a request *)

(** What a request draws from outside the database: the clock
    ([date.today()]) and the random key [uuid4()] gives a new instance. *)
Record Env := mkEnv {
  today : date;
  uuid4 : UUID
}.

(** What the views take from Python, Django and the REST framework as
    given: the conversions of submitted text, each yielding [None] where the
    library call raises, and the range of an integer column of the
    configured database. *)
Record Framework := mkFramework {
  (** [connection.ops.integer_field_range('IntegerField')] *)
  integer_field_range : option Z * option Z;
  (** [datetime.strptime(s, '%Y-%m-%d').date()] *)
  strptime_Ymd : string -> option date;
  (** [forms.IntegerField.to_python]; [None] also for an empty value *)
  forms_IntegerField_to_python : string -> option Z;
  (** [forms.CharField.to_python]: the stripped text *)
  forms_CharField_to_python : string -> string;
  (** [serializers.CharField.run_validation], given [allow_blank] *)
  rest_CharField : bool -> string -> option string;
  (** [serializers.DateField.to_internal_value] *)
  rest_DateField : string -> option date;
  (** [serializers.IntegerField.to_internal_value] *)
  rest_IntegerField : string -> option Z;
  (** the key a [PrimaryKeyRelatedField] reads *)
  rest_UUIDField : string -> option UUID
}.

(** ** Validators and fields (models.py) *)

(** [validate_future_date]: raises when the date is after [date.today()]. *)
Definition validate_future_date (today : date) (date_value : date) : result unit :=
  if date_value >? today then Raise ValidationError else Ok tt.

Definition MinValueValidator (limit : Z) (v : Z) : result unit :=
  if v <? limit then Raise ValidationError else Ok tt.
Definition MaxValueValidator (limit : Z) (v : Z) : result unit :=
  if v >? limit then Raise ValidationError else Ok tt.

(** [Field.run_validators]: any failing validator fails the value. *)
Fixpoint run_validators {A} (vs : list (A -> result unit)) (v : A) : result unit :=
  match vs with
  | [] => Ok tt
  | f :: vs' =>
      match f v with
      | Ok _ => run_validators vs' v
      | Raise e => Raise e
      end
  end.

(** What the application uses of an integer model field: the validators of
    model validation, and the bounds its [formfield()] gives the form
    field. *)
Record IntegerField := mkIntegerField {
  validators : list (Z -> result unit);
  formfield_min_value : option Z;
  formfield_max_value : option Z;
  field_default : option Z
}.

(** [models.IntegerField]: validates against the range of the column,
    where the database has one. *)
Definition models_IntegerField (fw : Framework) (dflt : option Z) : IntegerField :=
  mkIntegerField
    (match (integer_field_range fw).1 with
     | Some lo => [MinValueValidator lo]
     | None => []
     end
     ++ match (integer_field_range fw).2 with
        | Some hi => [MaxValueValidator hi]
        | None => []
        end)
    None None dflt.

(** [MinMaxIntegerField]: overrides [formfield] only, passing
    [min_value=1, max_value=5] to the form field. *)
Definition MinMaxIntegerField (fw : Framework) (dflt : option Z) : IntegerField :=
  let super := models_IntegerField fw dflt in
  mkIntegerField (validators super) (Some 1) (Some 5) (field_default super).

(** [Review.grade = MinMaxIntegerField(default=5)]. *)
Definition Review_grade (fw : Framework) : IntegerField :=
  MinMaxIntegerField fw (Some 5).

(** [Student.date_of_receipt = models.DateField(validators=[validate_future_date])]. *)
Definition Student_date_of_receipt_validators (today : date)
  : list (date -> result unit) :=
  [validate_future_date today].

Definition not_blank (v : option string) : result unit :=
  match v with
  | None => Raise ValidationError
  | Some s => if bool_decide (s = EmptyString) then Raise ValidationError else Ok tt
  end.

(** Model validation ([full_clean]) of a row: the storage-layer validation.
    No view calls it directly; it runs inside model forms. *)
Definition Student_full_clean (today : date) (s : Student) : result unit :=
  match not_blank (first_name s), not_blank (last_name s) with
  | Ok _, Ok _ =>
      run_validators (Student_date_of_receipt_validators today) (date_of_receipt s)
  | _, _ => Raise ValidationError
  end.

Definition Review_full_clean (fw : Framework) (r : Review) : result unit :=
  run_validators (validators (Review_grade fw)) (grade r).

(** ** Requests and responses *)

(** [request.method] is the method name as a string; [request.POST] and the
    REST [request.data] map field names to the submitted text. *)
Record HttpRequest := mkRequest {
  method : string;
  request_user : RequestUser;
  POST : gmap string string;
  data : gmap string string
}.

(** A value of a template context; a model instance stands for its key. *)
Inductive ctx_value :=
| CtxStr (s : string)
| CtxBool (b : bool)
| CtxInstance (model : Model) (pk : N)
| CtxQuerySet (model : Model) (pks : list N)
| CtxForm (bound_data : option (gmap string string)) (instance : option N).

Inductive HttpResponse :=
| render (template : string) (context : list (string * ctx_value))
| redirect (to : string)
| redirect_to_login (login_url : option string)
| Response (status : Z).

Definition HTTP_STATUS_OK : Z := 200.
Definition HTTP_STATUS_CREATED : Z := 201.
Definition HTTP_STATUS_NO_CONTENT : Z := 204.
Definition HTTP_STATUS_FOUND : Z := 302.

(** The status the client sees.  The REST framework turns its own
    exceptions into 4xx answers; whether a request without credentials
    gets 401 or 403 depends on the configured authenticators, so
    [NotAuthenticated] is listed with both.  Every other exception leaves
    the view unhandled: a server error. *)
Definition status_codes (r : result HttpResponse) : list Z :=
  match r with
  | Ok (render _ _) => [HTTP_STATUS_OK]
  | Ok (redirect _) => [HTTP_STATUS_FOUND]
  | Ok (redirect_to_login _) => [HTTP_STATUS_FOUND]
  | Ok (Response st) => [st]
  | Raise Http404 => [404]
  | Raise PermissionDenied => [403]
  | Raise NotAuthenticated => [401; 403]
  | Raise APIValidationError => [400]
  | Raise _ => [500]
  end.

Definition server_error (r : result HttpResponse) : Prop :=
  status_codes r = [500].

(** The inline error of a rendered page: the ['error'] entry of its
    context. *)
Fixpoint context_get (key : string) (ctx : list (string * ctx_value))
  : option ctx_value :=
  match ctx with
  | [] => None
  | (k, v) :: ctx' => if String.eqb k key then Some v else context_get key ctx'
  end.

Definition inline_error (r : result HttpResponse) : option string :=
  match r with
  | Ok (render _ ctx) =>
      match context_get "error" ctx with
      | Some (CtxStr msg) => Some msg
      | _ => None
      end
  | _ => None
  end.

(** ** Forms (forms.py) *)

(** [len(s)] of a Python [str]: the number of its code points.  A string
    here holds the UTF-8 encoding of the text, in which every byte but the
    continuation bytes ([10xxxxxx]) starts a code point. *)
Definition starts_code_point (c : ascii) : bool :=
  negb ((128 <=? nat_of_ascii c)%nat && (nat_of_ascii c <? 192)%nat).

Fixpoint len (s : string) : Z :=
  match s with
  | EmptyString => 0
  | String c s' => (if starts_code_point c then 1 else 0) + len s'
  end.

(** ['\x00' in s], what [ProhibitNullCharactersValidator] looks for. *)
Fixpoint has_null_character (s : string) : bool :=
  match s with
  | EmptyString => false
  | String c s' => Ascii.eqb c Ascii.zero || has_null_character s'
  end.

(** The form field [Review.review_text] gives ([forms.CharField], not
    required, [max_length=100]): the stripped text, with no null character
    and at most 100 characters.  A missing or empty value is cleaned to the
    empty text, never to [None]; the form stores what it has cleaned. *)
Definition ReviewForm_clean_review_text (fw : Framework)
    (post : gmap string string) : result (option string) :=
  let v := match post !! "review_text" with
           | None => EmptyString
           | Some raw => forms_CharField_to_python fw raw
           end in
  if has_null_character v then Raise ValidationError
  else if 100 <? len v then Raise ValidationError
  else Ok (Some v).

(** The form field an integer model field gives through [formfield()]:
    required, within [min_value] and [max_value] when these are set. *)
Definition formfield_clean (fw : Framework) (f : IntegerField)
    (raw : option string) : result Z :=
  match raw with
  | None => Raise ValidationError
  | Some text =>
      match forms_IntegerField_to_python fw text with
      | None => Raise ValidationError
      | Some v =>
          match formfield_min_value f with
          | Some lo => if v <? lo then Raise ValidationError
                       else match formfield_max_value f with
                            | Some hi => if v >? hi then Raise ValidationError else Ok v
                            | None => Ok v
                            end
          | None => match formfield_max_value f with
                    | Some hi => if v >? hi then Raise ValidationError else Ok v
                    | None => Ok v
                    end
          end
      end
  end.

(** [ReviewForm(data).is_valid()] with [Meta.fields = ['review_text',
    'grade']]: the cleaned values, or the failure.  After the form fields,
    a model form runs the model validation of the same fields. *)
Definition ReviewForm_clean (fw : Framework) (post : gmap string string)
  : result (option string * Z) :=
  match ReviewForm_clean_review_text fw post,
        formfield_clean fw (Review_grade fw) (post !! "grade") with
  | Ok text, Ok g =>
      match run_validators (validators (Review_grade fw)) g with
      | Ok _ => Ok (text, g)
      | Raise e => Raise e
      end
  | _, _ => Raise ValidationError
  end.

Definition ReviewForm_is_valid (fw : Framework) (post : gmap string string) : bool :=
  match ReviewForm_clean fw post with Ok _ => true | Raise _ => false end.

(** ** Page handlers (views.py) *)

Definition Course_objects_get_id (pk : N) : M (N * Course) :=
  fun db => (objects_get_id MCourse pk (courses db), db).
Definition Student_objects_get_id (pk : N) : M (N * Student) :=
  fun db => (objects_get_id MStudent pk (students db), db).
Definition Review_objects_get_id (pk : N) : M (N * Review) :=
  fun db => (objects_get_id MReview pk (reviews db), db).
Definition CourseToStudent_objects_get (student_pk course_pk : N)
  : M (N * CourseToStudent) :=
  fun db => (objects_get MCourseToStudent (enrolls student_pk course_pk)
               (coursetostudents db), db).

(** [try: x = m  except E: return h] followed by [k x]. *)
Definition try_except_return {A B} (m : M A) (catches : exn -> bool)
    (h : M B) (k : A -> M B) : M B :=
  fun db => match m db with
            | (Ok a, db') => k a db'
            | (Raise e, db') => if catches e then h db' else (Raise e, db')
            end.

(** [obj.user = request.user]: only a [User] can be assigned. *)
Definition assign_user (ru : RequestUser) : result N :=
  match ru with
  | AnonymousUser => Raise ValueError
  | Authenticated u => Ok (user_pk u)
  end.

(** [@login_required(login_url=...)]. *)
Definition login_required (login_url : option string) (request : HttpRequest)
    (view : M HttpResponse) : M HttpResponse :=
  if is_authenticated (request_user request) then view
  else ret (redirect_to_login login_url).

(** [request.user == obj.user or request.user.is_staff]. *)
Definition owner_or_staff (request : HttpRequest) (owner : N) : bool :=
  user_eq (request_user request) owner || user_is_staff (request_user request).

(** [datetime.strptime(request.POST.get('date_of_receipt'), '%Y-%m-%d').date()]. *)
Definition parse_date_of_receipt (fw : Framework) (request : HttpRequest)
  : result date :=
  match POST request !! "date_of_receipt" with
  | None => Raise TypeError
  | Some date_of_receipt_str =>
      match strptime_Ymd fw date_of_receipt_str with
      | None => Raise ValueError
      | Some d => Ok d
      end
  end.

Definition err_student_exists : string := "Вы уже создали студента!".
Definition err_future_date : string := "Дата поступления не может быть в будущем!".
Definition err_edit_student : string := "Вы можете редактировать только своего студента!".
Definition err_delete_student : string := "Вы можете удалять только своего студента!".
Definition err_edit_course : string := "Вы можете редактировать только свой курс!".
Definition err_delete_course : string := "Вы можете удалять только свой курс!".
Definition err_edit_review : string := "Вы можете редактировать только свой отзыв!".
Definition err_delete_review : string := "Вы можете удалять только свои отзывы!".
Definition err_not_student : string :=
  "Вы должны быть зарегистрированы как студент, чтобы поступить на курс".
Definition err_already_enrolled : string := "Вы уже поступили на этот курс".
Definition err_already_left : string := "Вы уже покинули этот курс".

Definition create_student (fw : Framework) (env : Env) (request : HttpRequest)
  : M HttpResponse :=
  login_required (Some "login") request (
    if String.eqb (method request) "POST" then
      already ← Student_objects_filter_user_exists (request_user request);
      if (already : bool) then
        ret (render "create_student.html" [("error", CtxStr err_student_exists)])
      else
        d ← lift (parse_date_of_receipt fw request);
        if d >? today env then
          ret (render "create_student.html" [("error", CtxStr err_future_date)])
        else
          owner ← lift (assign_user (request_user request));
          Student_save_new (uuid4 env)
            (mkStudent owner (POST request !! "first_name")
               (POST request !! "last_name") d);;
          ret (redirect "students")
    else ret (render "create_student.html" [])).

Definition edit_student (fw : Framework) (env : Env) (request : HttpRequest)
    (student_id : N) : M HttpResponse :=
  '(pk, student_obj) ← Student_objects_get_id student_id;
  if String.eqb (method request) "POST" then
    if owner_or_staff request (Student_user student_obj) then
      d ← lift (parse_date_of_receipt fw request);
      if d >? today env then
        ret (render "edit_student.html"
               [("error", CtxStr err_future_date); ("student", CtxInstance MStudent pk)])
      else
        Student_save pk
          (mkStudent (Student_user student_obj) (POST request !! "first_name")
             (POST request !! "last_name") d);;
        ret (redirect "students")
    else ret (render "edit_student.html" [("error", CtxStr err_edit_student)])
  else if owner_or_staff request (Student_user student_obj) then
    ret (render "edit_student.html" [("student", CtxInstance MStudent pk)])
  else ret (render "edit_student.html" [("error", CtxStr err_edit_student)]).

Definition delete_student (request : HttpRequest) (student_id : N)
  : M HttpResponse :=
  '(pk, student_obj) ← Student_objects_get_id student_id;
  if owner_or_staff request (Student_user student_obj) then
    Student_delete pk;;
    ret (redirect "students")
  else ret (render "delete_student.html" [("error", CtxStr err_delete_student)]).

Definition create_course (env : Env) (request : HttpRequest) : M HttpResponse :=
  login_required (Some "login") request (
    if String.eqb (method request) "POST" then
      owner ← lift (assign_user (request_user request));
      Course_save_new (uuid4 env)
        (mkCourse owner (POST request !! "title") (POST request !! "description"));;
      ret (redirect "courses")
    else ret (render "create_course.html" [])).

Definition edit_course (request : HttpRequest) (course_id : N) : M HttpResponse :=
  '(pk, course_obj) ← Course_objects_get_id course_id;
  if String.eqb (method request) "POST" then
    if owner_or_staff request (Course_user course_obj) then
      Course_save pk
        (mkCourse (Course_user course_obj) (POST request !! "title")
           (POST request !! "description"));;
      ret (redirect "courses")
    else ret (render "edit_course.html" [("error", CtxStr err_edit_course)])
  else ret (render "edit_course.html" [("course", CtxInstance MCourse pk)]).

Definition delete_course (request : HttpRequest) (course_id : N) : M HttpResponse :=
  '(pk, course_obj) ← Course_objects_get_id course_id;
  if owner_or_staff request (Course_user course_obj) then
    Course_delete pk;;
    ret (redirect "courses")
  else ret (render "delete_course.html" [("error", CtxStr err_delete_course)]).

(** The page [create_review] renders when it does not redirect.  The flash
    message of an invalid form ([messages.error]) lives in the session,
    outside the database, and is not modelled. *)
Definition create_review_page (request : HttpRequest) (course_pk : N)
    (form : ctx_value) : M HttpResponse :=
  db ← get_db;
  let students_obj :=
    match request_user request with
    | Authenticated u =>
        (objects_filter (fun s => bool_decide (Student_user s = user_pk u))
           (students db)).*1
    | AnonymousUser => []
    end in
  ret (render "create_review.html"
         [("form", form); ("course", CtxInstance MCourse course_pk);
          ("students", CtxQuerySet MStudent students_obj);
          ("courses", CtxQuerySet MCourse (map_to_list (courses db)).*1)]).

Definition create_review (fw : Framework) (env : Env) (request : HttpRequest)
    (course_id : N) : M HttpResponse :=
  if negb (is_authenticated (request_user request)) then ret (redirect "login")
  else
    '(course_pk, course_obj) ← (fun db => (get_object_or_404 course_id (courses db), db));
    if is_authenticated (request_user request) && String.eqb (method request) "POST" then
      match ReviewForm_clean fw (POST request) with
      | Ok (text, g) =>
          '(student_pk, student_obj) ← Student_objects_get_user (request_user request);
          Review_save_new (uuid4 env) (mkReview course_pk student_pk text g);;
          ret (redirect "main")
      | Raise _ =>
          create_review_page request course_pk (CtxForm (Some (POST request)) None)
      end
    else create_review_page request course_pk (CtxForm None None).

Definition edit_review (fw : Framework) (request : HttpRequest) (review_id : N)
  : M HttpResponse :=
  '(pk, review_obj) ← Review_objects_get_id review_id;
  if String.eqb (method request) "POST" then
    '(_, student_obj) ← Student_objects_get_id (review_student review_obj);
    if owner_or_staff request (Student_user student_obj) then
      match ReviewForm_clean fw (POST request) with
      | Ok (text, g) =>
          Review_save pk
            (mkReview (review_course review_obj) (review_student review_obj) text g);;
          ret (redirect "courses")
      | Raise _ =>
          ret (render "edit_review.html"
                 [("form", CtxForm (Some (POST request)) (Some pk));
                  ("review", CtxInstance MReview pk)])
      end
    else ret (render "edit_review.html" [("error", CtxStr err_edit_review)])
  else
    ret (render "edit_review.html"
           [("form", CtxForm None (Some pk)); ("review", CtxInstance MReview pk)]).

Definition delete_review (request : HttpRequest) (review_id : N) : M HttpResponse :=
  '(pk, review_obj) ← (fun db => (get_object_or_404 review_id (reviews db), db));
  '(_, student_obj) ← Student_objects_get_id (review_student review_obj);
  if owner_or_staff request (Student_user student_obj) then
    Review_delete pk;;
    ret (redirect "courses")
  else ret (render "reviews.html" [("error", CtxStr err_delete_review)]).

Definition is_Student_DoesNotExist (e : exn) : bool :=
  bool_decide (e = DoesNotExist MStudent).
Definition is_CourseToStudent_DoesNotExist (e : exn) : bool :=
  bool_decide (e = DoesNotExist MCourseToStudent).

Definition enroll_course (env : Env) (request : HttpRequest) (course_id : N)
  : M HttpResponse :=
  login_required None request (
    '(course_pk, course_obj) ← Course_objects_get_id course_id;
    try_except_return (Student_objects_get_user (request_user request))
      is_Student_DoesNotExist
      (ret (render "create_student.html" [("error", CtxStr err_not_student)]))
      (fun '(student_pk, student_obj) =>
         enrolled ← check_student_in_course student_pk course_pk;
         if (enrolled : bool) then
           ret (render "courses.html" [("error", CtxStr err_already_enrolled)])
         else
           CourseToStudent_objects_create (uuid4 env)
             (mkCourseToStudent course_pk student_pk);;
           ret (redirect "courses"))).

Definition unenroll_course (request : HttpRequest) (course_id : N)
  : M HttpResponse :=
  '(course_pk, course_obj) ← Course_objects_get_id course_id;
  '(student_pk, student_obj) ← Student_objects_get_user (request_user request);
  try_except_return (CourseToStudent_objects_get student_pk course_pk)
    is_CourseToStudent_DoesNotExist
    (still ← check_student_in_course student_pk course_pk;
     ret (render "courses.html"
            [("error", CtxStr err_already_left);
             ("student_in_this_course", CtxBool still);
             ("course", CtxInstance MCourse course_pk);
             ("student", CtxInstance MStudent student_pk)]))
    (fun '(cts_pk, _) =>
       CourseToStudent_delete cts_pk;;
       ret (redirect "courses")).

(** ** REST API (views.py, serializers.py) *)

(** The instance a detail route of a view set works on. *)
Inductive target_object :=
| CourseObject (pk : N) (c : Course)
| StudentObject (pk : N) (s : Student)
| CourseToStudentObject (pk : N) (r : CourseToStudent)
| ReviewObject (pk : N) (r : Review).

(** [target_object.user]: [Course] and [Student] inherit the attribute from
    [UserMixin]; [CourseToStudent] and [Review] derive from [UUIDMixin]
    alone and have none. *)
Definition getattr_user (t : target_object) : result N :=
  match t with
  | CourseObject _ c => Ok (Course_user c)
  | StudentObject _ s => Ok (Student_user s)
  | CourseToStudentObject _ _ => Raise AttributeError
  | ReviewObject _ _ => Raise AttributeError
  end.

Module UserAdminPermission.

Definition _safe_methods : list string := ["GET"; "HEAD"; "OPTIONS"].

Definition has_permission (request : HttpRequest) : bool :=
  is_authenticated (request_user request).

Definition has_object_permission (request : HttpRequest)
    (target : target_object) : result bool :=
  if bool_decide (method request ∈ _safe_methods) then Ok true
  else if user_is_staff (request_user request) then Ok true
  else match getattr_user target with
       | Ok owner => Ok (user_eq (request_user request) owner)
       | Raise e => Raise e
       end.

End UserAdminPermission.

(** [APIView.check_permissions] and [check_object_permissions] with
    [permission_classes = [UserAdminPermission]]. *)
Definition check_permissions (request : HttpRequest) : M unit :=
  if UserAdminPermission.has_permission request then ret tt
  else raise NotAuthenticated.

Definition check_object_permissions (request : HttpRequest)
    (obj : target_object) : M unit :=
  allowed ← lift (UserAdminPermission.has_object_permission request obj);
  if (allowed : bool) then ret tt else raise PermissionDenied.

(** What a [ModelViewSet] subclass fixes: its queryset and serializer, and
    the hooks it overrides. *)
Record ViewSet := mkViewSet {
  (** the instance with key [pk] in [queryset] *)
  queryset_lookup : N -> DB -> option target_object;
  (** [serializer.is_valid] and [perform_create] *)
  perform_create : Framework -> Env -> HttpRequest -> M unit;
  (** [serializer.is_valid] and [perform_update] on an instance *)
  perform_update : Framework -> Env -> HttpRequest -> bool -> target_object -> M unit;
  (** [instance.delete()] *)
  perform_destroy : target_object -> M unit
}.

(** [GenericAPIView.get_object]. *)
Definition get_object (vs : ViewSet) (request : HttpRequest) (pk : N)
  : M target_object :=
  db ← get_db;
  match queryset_lookup vs pk db with
  | None => raise Http404
  | Some obj => check_object_permissions request obj;; ret obj
  end.

(** The actions of [ModelViewSet]. *)
Definition list_action (vs : ViewSet) (request : HttpRequest) : M HttpResponse :=
  check_permissions request;;
  ret (Response HTTP_STATUS_OK).

Definition retrieve (vs : ViewSet) (request : HttpRequest) (pk : N)
  : M HttpResponse :=
  check_permissions request;;
  get_object vs request pk;;
  ret (Response HTTP_STATUS_OK).

Definition create (vs : ViewSet) (fw : Framework) (env : Env)
    (request : HttpRequest) : M HttpResponse :=
  check_permissions request;;
  perform_create vs fw env request;;
  ret (Response HTTP_STATUS_CREATED).

Definition update (vs : ViewSet) (fw : Framework) (env : Env)
    (request : HttpRequest) (partial : bool) (pk : N) : M HttpResponse :=
  check_permissions request;;
  obj ← get_object vs request pk;
  perform_update vs fw env request partial obj;;
  ret (Response HTTP_STATUS_OK).

Definition destroy (vs : ViewSet) (request : HttpRequest) (pk : N)
  : M HttpResponse :=
  check_permissions request;;
  obj ← get_object vs request pk;
  perform_destroy vs obj;;
  ret (Response HTTP_STATUS_NO_CONTENT).

(** *** Serializers

    Every serializer declares [user = ReadOnlyField(source='user.username')]
    and [fields = '__all__']: the writable fields are the editable columns
    of the model, and a read-only field is never read from the payload. *)

(** The validators of a model field, run by the serializer field. *)
Definition serializer_validate {A} (vs : list (A -> result unit)) (v : A)
  : result A :=
  match run_validators vs v with
  | Ok _ => Ok v
  | Raise _ => Raise APIValidationError
  end.

(** A required writable field: the submitted text is converted and
    validated; a partial update keeps the value of the instance for a field
    that is not submitted. *)
Definition field_value {A} (payload : gmap string string) (name : string)
    (to_internal : string -> option A) (vs : list (A -> result unit))
    (partial : bool) (current : option A) : result A :=
  match payload !! name with
  | Some raw =>
      match to_internal raw with
      | Some v => serializer_validate vs v
      | None => Raise APIValidationError
      end
  | None =>
      match partial, current with
      | true, Some v => Ok v
      | _, _ => Raise APIValidationError
      end
  end.

Definition CourseSerializer_validate (fw : Framework)
    (payload : gmap string string) (partial : bool) (instance : option Course)
  : result (string * string) :=
  match field_value payload "title" (rest_CharField fw false) [] partial
          (instance ≫= title),
        field_value payload "description" (rest_CharField fw false) [] partial
          (instance ≫= description) with
  | Ok t, Ok d => Ok (t, d)
  | _, _ => Raise APIValidationError
  end.

Definition StudentSerializer_validate (fw : Framework) (env : Env)
    (payload : gmap string string) (partial : bool) (instance : option Student)
  : result (string * string * date) :=
  match field_value payload "first_name" (rest_CharField fw false) [] partial
          (instance ≫= first_name),
        field_value payload "last_name" (rest_CharField fw false) [] partial
          (instance ≫= last_name),
        field_value payload "date_of_receipt" (rest_DateField fw)
          (Student_date_of_receipt_validators (today env)) partial
          (date_of_receipt <$> instance) with
  | Ok f, Ok l, Ok d => Ok (f, l, d)
  | _, _, _ => Raise APIValidationError
  end.

(** A [PrimaryKeyRelatedField]: the key must name a row of the table. *)
Definition related_pk {A} (fw : Framework) (t : gmap N A) (raw : string)
  : option N :=
  match rest_UUIDField fw raw with
  | Some k => if bool_decide (is_Some (t !! k)) then Some k else None
  | None => None
  end.

(** [review_text]: optional, blank allowed, at most 100 characters. *)
Definition ReviewSerializer_review_text (fw : Framework)
    (payload : gmap string string) (current : option string)
  : result (option string) :=
  match payload !! "review_text" with
  | None => Ok current
  | Some raw =>
      match rest_CharField fw true raw with
      | Some v => if 100 <? len v then Raise APIValidationError
                  else Ok (Some v)
      | None => Raise APIValidationError
      end
  end.

(** [grade]: optional because the model field has a default; bounded by the
    validators of the model field. *)
Definition ReviewSerializer_grade (fw : Framework)
    (payload : gmap string string) (current : Z) : result Z :=
  match payload !! "grade" with
  | None => Ok current
  | Some raw =>
      match rest_IntegerField fw raw with
      | Some v => serializer_validate (validators (Review_grade fw)) v
      | None => Raise APIValidationError
      end
  end.

Definition ReviewSerializer_validate (fw : Framework) (db : DB)
    (payload : gmap string string) (partial : bool) (instance : option Review)
  : result Review :=
  match field_value payload "course" (related_pk fw (courses db)) [] partial
          (review_course <$> instance),
        field_value payload "student" (related_pk fw (students db)) [] partial
          (review_student <$> instance),
        ReviewSerializer_review_text fw payload (instance ≫= review_text),
        ReviewSerializer_grade fw payload
          (match instance with
           | Some r => grade r
           | None => default 5 (field_default (Review_grade fw))
           end) with
  | Ok c, Ok s, Ok t, Ok g => Ok (mkReview c s t g)
  | _, _, _, _ => Raise APIValidationError
  end.

(** The [UniqueTogetherValidator] a model serializer derives from
    [Meta.unique_together]. *)
Definition CourseToStudentSerializer_validate (fw : Framework) (db : DB)
    (payload : gmap string string) (partial : bool)
    (instance : option (N * CourseToStudent)) : result CourseToStudent :=
  match field_value payload "course" (related_pk fw (courses db)) [] partial
          (cts_course <$> (snd <$> instance)),
        field_value payload "student" (related_pk fw (students db)) [] partial
          (cts_student <$> (snd <$> instance)) with
  | Ok c, Ok s =>
      let others :=
        match instance with
        | Some (pk, _) => delete pk (coursetostudents db)
        | None => coursetostudents db
        end in
      if objects_exists (enrolls s c) others then Raise APIValidationError
      else Ok (mkCourseToStudent c s)
  | _, _ => Raise APIValidationError
  end.

(** *** The four view sets

    A view set only meets instances of its own queryset; the hooks answer
    [TypeError] on any other, which [get_object] never hands them. *)

Definition CourseViewSet : ViewSet := {|
  queryset_lookup pk db := CourseObject pk <$> courses db !! pk;
  (* serializer.save(user=self.request.user) *)
  perform_create fw env request :=
    '(t, d) ← lift (CourseSerializer_validate fw (data request) false None);
    owner ← lift (assign_user (request_user request));
    Course_save_new (uuid4 env) (mkCourse owner (Some t) (Some d));
  perform_update fw env request partial obj :=
    match obj with
    | CourseObject pk c =>
        '(t, d) ← lift (CourseSerializer_validate fw (data request) partial (Some c));
        Course_save pk (mkCourse (Course_user c) (Some t) (Some d))
    | _ => raise TypeError
    end;
  perform_destroy obj :=
    match obj with
    | CourseObject pk _ => Course_delete pk
    | _ => raise TypeError
    end
|}.

Definition StudentViewSet : ViewSet := {|
  queryset_lookup pk db := StudentObject pk <$> students db !! pk;
  (* serializer.save(user=self.request.user) *)
  perform_create fw env request :=
    '(f, l, d) ← lift (StudentSerializer_validate fw env (data request) false None);
    owner ← lift (assign_user (request_user request));
    Student_save_new (uuid4 env) (mkStudent owner (Some f) (Some l) d);
  perform_update fw env request partial obj :=
    match obj with
    | StudentObject pk s =>
        '(f, l, d) ← lift (StudentSerializer_validate fw env (data request) partial (Some s));
        Student_save pk (mkStudent (Student_user s) (Some f) (Some l) d)
    | _ => raise TypeError
    end;
  perform_destroy obj :=
    match obj with
    | StudentObject pk _ => Student_delete pk
    | _ => raise TypeError
    end
|}.

Definition CourseToStudentViewSet : ViewSet := {|
  queryset_lookup pk db := CourseToStudentObject pk <$> coursetostudents db !! pk;
  perform_create fw env request :=
    db ← get_db;
    r ← lift (CourseToStudentSerializer_validate fw db (data request) false None);
    CourseToStudent_objects_create (uuid4 env) r;
  perform_update fw env request partial obj :=
    match obj with
    | CourseToStudentObject pk r0 =>
        db ← get_db;
        r ← lift (CourseToStudentSerializer_validate fw db (data request) partial
                    (Some (pk, r0)));
        CourseToStudent_save pk r
    | _ => raise TypeError
    end;
  perform_destroy obj :=
    match obj with
    | CourseToStudentObject pk _ => CourseToStudent_delete pk
    | _ => raise TypeError
    end
|}.

Definition ReviewViewSet : ViewSet := {|
  queryset_lookup pk db := ReviewObject pk <$> reviews db !! pk;
  (* student = Student.objects.get(user=self.request.user)
     serializer.save(student=student) *)
  perform_create fw env request :=
    db ← get_db;
    r ← lift (ReviewSerializer_validate fw db (data request) false None);
    '(student_pk, _) ← Student_objects_get_user (request_user request);
    Review_save_new (uuid4 env)
      (mkReview (review_course r) student_pk (review_text r) (grade r));
  perform_update fw env request partial obj :=
    match obj with
    | ReviewObject pk r0 =>
        db ← get_db;
        r ← lift (ReviewSerializer_validate fw db (data request) partial (Some r0));
        Review_save pk r
    | _ => raise TypeError
    end;
  perform_destroy obj :=
    match obj with
    | ReviewObject pk _ => Review_delete pk
    | _ => raise TypeError
    end
|}.

(** The entities the REST API serves under [/api/v1/]. *)
Inductive Entity := ECourse | EStudent | ECourseToStudent | EReview.

Definition viewset_of (e : Entity) : ViewSet :=
  match e with
  | ECourse => CourseViewSet
  | EStudent => StudentViewSet
  | ECourseToStudent => CourseToStudentViewSet
  | EReview => ReviewViewSet
  end.

(** ** A concrete reading of the library conversions

    Used to run the views on sample requests: decimal text for integers and
    keys, [YYYY-MM-DD] for dates, text taken as it is, and the 32-bit
    integer column of PostgreSQL. *)

Definition digit_value (c : Ascii.ascii) : option N :=
  let n := Ascii.N_of_ascii c in
  if ((48 <=? n) && (n <=? 57))%N then Some (n - 48)%N else None.

Fixpoint parse_digits_from (acc : N) (s : string) : option N :=
  match s with
  | EmptyString => Some acc
  | String c s' =>
      match digit_value c with
      | Some d => parse_digits_from (acc * 10 + d)%N s'
      | None => None
      end
  end.

Definition parse_decimal (s : string) : option N :=
  match s with
  | EmptyString => None
  | _ => parse_digits_from 0%N s
  end.

Definition parse_integer (s : string) : option Z :=
  match s with
  | String "-"%char s' => (fun n => - Z.of_N n) <$> parse_decimal s'
  | _ => Z.of_N <$> parse_decimal s
  end.

Definition is_leap (y : Z) : bool :=
  (y mod 4 =? 0) && (negb (y mod 100 =? 0) || (y mod 400 =? 0)).

Definition days_in_month (y m : Z) : Z :=
  if m =? 2 then (if is_leap y then 29 else 28)
  else if (m =? 4) || (m =? 6) || (m =? 9) || (m =? 11) then 30 else 31.

Definition days_before_month (y m : Z) : Z :=
  fold_right Z.add 0 (map (days_in_month y) (map Z.of_nat (seq 1 (Z.to_nat (m - 1))))).

(** [date(y, m, d).toordinal()]; [None] where [date] raises. *)
Definition ymd_to_ordinal (y m d : Z) : option date :=
  if (1 <=? y) && (y <=? 9999) && (1 <=? m) && (m <=? 12)
     && (1 <=? d) && (d <=? days_in_month y m)
  then Some ((y - 1) * 365 + (y - 1) / 4 - (y - 1) / 100 + (y - 1) / 400
             + days_before_month y m + d)
  else None.

Definition parse_iso_date (s : string) : option date :=
  if bool_decide (String.length s = 10%nat)
     && bool_decide (String.get 4 s = Some "-"%char)
     && bool_decide (String.get 7 s = Some "-"%char)
  then
    y ← parse_decimal (String.substring 0 4 s);
    m ← parse_decimal (String.substring 5 2 s);
    d ← parse_decimal (String.substring 8 2 s);
    ymd_to_ordinal (Z.of_N y) (Z.of_N m) (Z.of_N d)
  else None.

Definition iso_framework : Framework := {|
  integer_field_range := (Some (-2147483648), Some 2147483647);
  strptime_Ymd := parse_iso_date;
  forms_IntegerField_to_python := parse_integer;
  forms_CharField_to_python := fun s => s;
  rest_CharField := fun allow_blank s =>
    if bool_decide (s = EmptyString) && negb allow_blank then None else Some s;
  rest_DateField := parse_iso_date;
  rest_IntegerField := parse_integer;
  rest_UUIDField := parse_decimal
|}.


(** ** The pages that only read (views.py)

    A query set in a template context is the list of the keys of its rows.
    The order of the rows ([Meta.ordering], as the database collates text)
    is not modelled: the list stands for the rows it holds. *)

(** [Model.objects.all()]. *)
Definition objects_all {A} (t : gmap N A) : list N := (map_to_list t).*1.

(** [course_obj.students.all()], through [CourseToStudent]: the [Student]
    rows joined to the enrollment rows of the course, one for each such
    row. *)
Definition Course_students_all (course_pk : N) (db : DB) : list N :=
  omap (fun kr : N * CourseToStudent =>
          if bool_decide (is_Some (students db !! cts_student kr.2))
          then Some (cts_student kr.2) else None)
    (objects_filter (fun r => bool_decide (cts_course r = course_pk))
       (coursetostudents db)).

(** [student_obj.courses.all()], through [CourseToStudent]. *)
Definition Student_courses_all (student_pk : N) (db : DB) : list N :=
  omap (fun kr : N * CourseToStudent =>
          if bool_decide (is_Some (courses db !! cts_course kr.2))
          then Some (cts_course kr.2) else None)
    (objects_filter (fun r => bool_decide (cts_student r = student_pk))
       (coursetostudents db)).

(** [Review.objects.filter(course=course_obj)]. *)
Definition Review_objects_filter_course (course_pk : N) (db : DB) : list N :=
  (objects_filter (fun r => bool_decide (review_course r = course_pk))
     (reviews db)).*1.

(** The handlers are in a module of their own: four of them are named as
    the tables are. *)
Module pages.

Definition main (request : HttpRequest) : M HttpResponse :=
  ret (render "main.html" []).

(** The context also holds the request itself, under ['request']; a
    context value has no form for it and the entry is left out. *)
Definition student (request : HttpRequest) (student_id : N) : M HttpResponse :=
  '(pk, student_obj) ← Student_objects_get_id student_id;
  ret (render "student.html" [("student", CtxInstance MStudent pk)]).

Definition course (request : HttpRequest) (course_id : N) : M HttpResponse :=
  login_required (Some "login") request (
    '(course_pk, course_obj) ← Course_objects_get_id course_id;
    try_except_return (Student_objects_get_user (request_user request))
      is_Student_DoesNotExist
      (ret (redirect "create_student"))
      (fun '(student_pk, student_obj) =>
         sitc ← check_student_in_course student_pk course_pk;
         ret (render "course.html"
                [("course", CtxInstance MCourse course_pk);
                 ("sitc", CtxBool sitc)]))).

Definition review (request : HttpRequest) (review_id : N) : M HttpResponse :=
  '(pk, review_obj) ← Review_objects_get_id review_id;
  ret (render "review.html" [("review", CtxInstance MReview pk)]).

Definition coursetostudent (request : HttpRequest) (coursetostudent_id : N)
  : M HttpResponse :=
  '(pk, coursetostudent_obj) ←
    (fun db => (objects_get_id MCourseToStudent coursetostudent_id
                  (coursetostudents db), db));
  ret (render "coursetostudent.html"
         [("coursetostudent", CtxInstance MCourseToStudent pk)]).

Definition course_students (request : HttpRequest) (course_id : N)
  : M HttpResponse :=
  '(pk, course_obj) ← (fun db => (get_object_or_404 course_id (courses db), db));
  db ← get_db;
  ret (render "course_students.html"
         [("course", CtxInstance MCourse pk);
          ("students", CtxQuerySet MStudent (Course_students_all pk db))]).

Definition student_courses (request : HttpRequest) (student_id : N)
  : M HttpResponse :=
  '(pk, students_obj) ← (fun db => (get_object_or_404 student_id (students db), db));
  db ← get_db;
  ret (render "student_courses.html"
         [("student", CtxInstance MStudent pk);
          ("courses", CtxQuerySet MCourse (Student_courses_all pk db))]).

Definition course_reviews (request : HttpRequest) (course_id : N)
  : M HttpResponse :=
  '(pk, course_obj) ← (fun db => (get_object_or_404 course_id (courses db), db));
  db ← get_db;
  ret (render "course_reviews.html"
         [("course", CtxInstance MCourse pk);
          ("reviews", CtxQuerySet MReview (Review_objects_filter_course pk db))]).

Definition students (request : HttpRequest) : M HttpResponse :=
  db ← get_db;
  ret (render "students.html"
         [("students", CtxQuerySet MStudent (objects_all (students db)))]).

Definition courses (request : HttpRequest) : M HttpResponse :=
  db ← get_db;
  ret (render "courses.html"
         [("courses", CtxQuerySet MCourse (objects_all (courses db)))]).

Definition reviews (request : HttpRequest) : M HttpResponse :=
  db ← get_db;
  ret (render "reviews.html"
         [("reviews", CtxQuerySet MReview (objects_all (reviews db)))]).

Definition coursetostudents (request : HttpRequest) : M HttpResponse :=
  db ← get_db;
  ret (render "coursestostudents.html"
         [("coursestostudents",
           CtxQuerySet MCourseToStudent (objects_all (coursetostudents db)))]).

End pages.

(** ** Accounts (views.py: UserRegistrationView, UserLoginView, log_out)

    The views call [django.contrib.auth] and [rest_framework.authtoken];
    their tables and the session of the client are a state of their own,
    which the views of the four models never write. *)

(** A row of [auth_user], reduced to what the calls below read. *)
Record UserRow := mkUserRow {
  User_username : string;
  (** the encoded password *)
  User_password : string;
  User_is_active : bool;
  User_is_staff : bool
}.

Record Accounts := mkAccounts {
  users : gmap N UserRow;
  (** [authtoken_token]: the key of the one token of a user
      ([OneToOneField]) *)
  tokens : gmap N string;
  (** the user the session of the client is logged in as *)
  session : option N
}.

Definition with_users (f : gmap N UserRow -> gmap N UserRow) (a : Accounts)
  : Accounts :=
  mkAccounts (f (users a)) (tokens a) (session a).
Definition with_tokens (f : gmap N string -> gmap N string) (a : Accounts)
  : Accounts :=
  mkAccounts (users a) (f (tokens a)) (session a).
Definition with_session (s : option N) (a : Accounts) : Accounts :=
  mkAccounts (users a) (tokens a) s.

(** What the calls take from the library and from outside: the NFKC
    normal form of a user name, the password hasher, the key the database
    gives a new user and the random key of a new token. *)
Record Auth := mkAuth {
  normalize_username : string -> string;
  make_password : string -> string;
  (** [check_password(raw, encoded)] *)
  check_password : string -> string -> bool;
  new_user_id : N;
  generate_key : string
}.

(** [not value] for what [request.POST.get] gives: [None] or a string. *)
Definition falsy (value : option string) : bool :=
  match value with
  | Some (String _ _) => false
  | _ => true
  end.

Definition has_username (name : string) (u : UserRow) : bool :=
  bool_decide (User_username u = name).

(** [User.objects.filter(username=username).first()]; [username] is unique
    in the table, so the order of the rows plays no part. *)
Definition User_objects_filter_username_first (name : string) (a : Accounts)
  : option (N * UserRow) :=
  head (objects_filter (has_username name) (users a)).

(** [User.objects.create_user(username=..., password=...)]: the name is
    normalized, the password encoded, and the row inserted; the table
    refuses a second row with the same [username] (unique). *)
Definition create_user (lib : Auth) (name raw_password : string) (a : Accounts)
  : result N * Accounts :=
  if falsy (Some name) then (Raise ValueError, a)
  else
    let username := normalize_username lib name in
    if bool_decide (is_Some (users a !! new_user_id lib)) then (Raise IntegrityError, a)
    else if objects_exists (has_username username) (users a)
    then (Raise IntegrityError, a)
    else (Ok (new_user_id lib),
          with_users
            (insert (new_user_id lib)
               (mkUserRow username (make_password lib raw_password) true false)) a).

(** [authenticate(username=..., password=...)] with the model backend: the
    user of that name, if the password checks and the user is active. *)
Definition authenticate (lib : Auth) (name raw_password : string) (a : Accounts)
  : option N :=
  match head (objects_filter (has_username name) (users a)) with
  | Some (pk, u) =>
      if check_password lib raw_password (User_password u) && User_is_active u
      then Some pk else None
  | None => None
  end.

(** [Token.objects.get_or_create(user=user)]: the token of the user, or a
    new one; the key of a token is its primary key. *)
Definition Token_objects_get_or_create (lib : Auth) (pk : N) (a : Accounts)
  : result (string * bool) * Accounts :=
  match tokens a !! pk with
  | Some key => (Ok (key, false), a)
  | None =>
      if objects_exists (fun key => bool_decide (key = generate_key lib)) (tokens a)
      then (Raise IntegrityError, a)
      else (Ok (generate_key lib, true),
            with_tokens (insert pk (generate_key lib)) a)
  end.

(** [login(request, user)] and [logout(request)]. *)
Definition login (pk : N) (a : Accounts) : Accounts := with_session (Some pk) a.
Definition logout (a : Accounts) : Accounts := with_session None a.

Definition err_credentials_required : string :=
  "Имя пользователя и пароль обязательны для заполнения!".
Definition err_passwords_differ : string := "Пароли не совпадают!".
Definition err_username_taken : string :=
  "Пользователь с таким именем уже существует!".
Definition err_user_not_found : string := "Пользователь не найден!".
Definition err_wrong_password : string := "Введен неверный пароль!".

Module UserRegistrationView.

Definition post (lib : Auth) (request : HttpRequest) (a : Accounts)
  : result HttpResponse * Accounts :=
  let username := POST request !! "username" in
  let password1 := POST request !! "password1" in
  let password2 := POST request !! "password2" in
  if falsy username || falsy password1 || falsy password2 then
    (Ok (render "register.html" [("error", CtxStr err_credentials_required)]), a)
  else if negb (bool_decide (password1 = password2)) then
    (Ok (render "register.html" [("error", CtxStr err_passwords_differ)]), a)
  else
    match User_objects_filter_username_first (default EmptyString username) a with
    | None =>
        match create_user lib (default EmptyString username)
                (default EmptyString password1) a with
        | (Ok user, a') => (Ok (redirect "main"), login user a')
        | (Raise e, a') => (Raise e, a')
        end
    | Some _ =>
        (Ok (render "register.html" [("error", CtxStr err_username_taken)]), a)
    end.

Definition get (request : HttpRequest) (a : Accounts)
  : result HttpResponse * Accounts :=
  (Ok (render "register.html" []), a).

End UserRegistrationView.

Module UserLoginView.

Definition post (lib : Auth) (request : HttpRequest) (a : Accounts)
  : result HttpResponse * Accounts :=
  let username := data request !! "username" in
  let password := data request !! "password" in
  if falsy username || falsy password then
    (Ok (render "login.html" [("error", CtxStr err_credentials_required)]), a)
  else
    match User_objects_filter_username_first (default EmptyString username) a with
    | None => (Ok (render "login.html" [("error", CtxStr err_user_not_found)]), a)
    | Some _ =>
        match authenticate lib (default EmptyString username)
                (default EmptyString password) a with
        | None =>
            (Ok (render "login.html" [("error", CtxStr err_wrong_password)]), a)
        | Some user =>
            match Token_objects_get_or_create lib user a with
            | (Ok _, a') => (Ok (redirect "main"), login user a')
            | (Raise e, a') => (Raise e, a')
            end
        end
    end.

Definition get (request : HttpRequest) (a : Accounts)
  : result HttpResponse * Accounts :=
  (Ok (render "login.html" []), a).

End UserLoginView.

Definition log_out (request : HttpRequest) (a : Accounts)
  : result HttpResponse * Accounts :=
  (Ok (redirect "main"),
   if is_authenticated (request_user request) then logout a else a).
(** ** Sample data *)

Definition alice : User := mkUser 1 "alice" false.
Definition bob : User := mkUser 2 "bob" false.
Definition admin : User := mkUser 3 "admin" true.

(** Alice owns course 10 and student 20, who is enrolled in the course and
    reviewed it; Bob owns course 11 and has no student. *)
Definition sample_db : DB := {|
  courses := {[ 10%N := mkCourse 1 (Some "Course10") (Some "course10");
                11%N := mkCourse 2 (Some "Course11") (Some "course11") ]};
  students := {[ 20%N := mkStudent 1 (Some "Student 1") (Some "Noskov") 738501 ]};
  coursetostudents := {[ 30%N := mkCourseToStudent 10 20 ]};
  reviews := {[ 40%N := mkReview 10 20 (Some "Review 1") 5 ]}
|}.

(** The day of the sample requests: 2024-05-01. *)
Definition sample_env : Env := mkEnv 739007 50.

(** A request with no form and no payload. *)
Definition plain_request (meth : string) (u : User) : HttpRequest :=
  mkRequest meth (Authenticated u) ∅ ∅.

(** Sample requests: a student form with tomorrow's date, and one with
    today's. *)
Definition student_form (day : string) : gmap string string :=
  {[ "first_name" := "Test"; "last_name" := "Student"; "date_of_receipt" := day ]}.

Definition future_student_request (u : User) : HttpRequest :=
  mkRequest "POST" (Authenticated u) (student_form "2024-05-02")
    (student_form "2024-05-02").

Definition today_student_request (u : User) : HttpRequest :=
  mkRequest "POST" (Authenticated u) (student_form "2024-05-01")
    (student_form "2024-05-01").

(** A review with grade 7 for course 10 by student 20, and the REST request
    of Alice that posts it. *)
Definition review_grade_7 : Review := mkReview 10 20 None 7.

Definition review_grade_7_request : HttpRequest :=
  mkRequest "POST" (Authenticated alice) ∅
    {[ "course" := "10"; "student" := "20"; "grade" := "7" ]}.

(** The edit form of a review, as posted. *)
Definition review_form (text g : string) : gmap string string :=
  {[ "review_text" := text; "grade" := g ]}.

Definition review_form_request (u : User) (text g : string) : HttpRequest :=
  mkRequest "POST" (Authenticated u) (review_form text g) ∅.

(** ** Reachable databases

    Every view writes through the ORM calls below, so the states of the
    database are those that a sequence of such calls builds from the empty
    one. *)

Inductive orm_call :=
| CallCourseSaveNew (pk : N) (c : Course)
| CallCourseSave (pk : N) (c : Course)
| CallCourseDelete (pk : N)
| CallStudentSaveNew (pk : N) (s : Student)
| CallStudentSave (pk : N) (s : Student)
| CallStudentDelete (pk : N)
| CallCourseToStudentCreate (pk : N) (r : CourseToStudent)
| CallCourseToStudentSave (pk : N) (r : CourseToStudent)
| CallCourseToStudentDelete (pk : N)
| CallReviewSaveNew (pk : N) (r : Review)
| CallReviewSave (pk : N) (r : Review)
| CallReviewDelete (pk : N).

Definition run_call (c : orm_call) : M unit :=
  match c with
  | CallCourseSaveNew pk c => Course_save_new pk c
  | CallCourseSave pk c => Course_save pk c
  | CallCourseDelete pk => Course_delete pk
  | CallStudentSaveNew pk s => Student_save_new pk s
  | CallStudentSave pk s => Student_save pk s
  | CallStudentDelete pk => Student_delete pk
  | CallCourseToStudentCreate pk r => CourseToStudent_objects_create pk r
  | CallCourseToStudentSave pk r => CourseToStudent_save pk r
  | CallCourseToStudentDelete pk => CourseToStudent_delete pk
  | CallReviewSaveNew pk r => Review_save_new pk r
  | CallReviewSave pk r => Review_save pk r
  | CallReviewDelete pk => Review_delete pk
  end.

Inductive reachable : DB -> Prop :=
| reachable_empty : reachable empty_db
| reachable_call db c : reachable db -> reachable (run_call c db).2.

(** A computation that stays within the reachable databases. *)
Definition preserves_reachable {A} (m : M A) : Prop :=
  forall db, reachable db -> reachable (m db).2.

(** No two enrollment rows link the same student to the same course. *)
Definition enrollment_unique (db : DB) : Prop :=
  forall i j r1 r2,
    coursetostudents db !! i = Some r1 ->
    coursetostudents db !! j = Some r2 ->
    cts_course r1 = cts_course r2 ->
    cts_student r1 = cts_student r2 ->
    i = j.

(** What C5 says of the storage layer: with no uniqueness constraint, it
    would take every enrollment row that has a fresh key and existing
    course and student, whether or not the pair is already enrolled. *)
Definition storage_without_unique_constraint : Prop :=
  forall db pk r,
    coursetostudents db !! pk = None ->
    foreign_keys_ok (cts_course r) (cts_student r) db = true ->
    (CourseToStudent_objects_create pk r db).1 = Ok tt.

(** ** Business-rule conflicts

    [conflict db request view msg]: in database [db], the request to [view]
    runs into a business rule, for which the view has the message [msg]. *)

(** The requester owns exactly one student row, [student_pk]. *)
Definition only_student_of (db : DB) (u : User) (student_pk : N) : Prop :=
  (exists s, students db !! student_pk = Some s /\ Student_user s = user_pk u)
  /\ (forall k s', students db !! k = Some s' -> Student_user s' = user_pk u ->
                   k = student_pk).

Definition enrolled (db : DB) (student_pk course_pk : N) : Prop :=
  exists k r, coursetostudents db !! k = Some r
              /\ cts_student r = student_pk /\ cts_course r = course_pk.

Inductive conflict (db : DB) (request : HttpRequest)
  : M HttpResponse -> string -> Prop :=
| conflict_already_enrolled env u course_id student_pk :
    request_user request = Authenticated u ->
    is_Some (courses db !! course_id) ->
    only_student_of db u student_pk ->
    enrolled db student_pk course_id ->
    conflict db request (enroll_course env request course_id) err_already_enrolled
| conflict_second_student fw env u student_pk s :
    request_user request = Authenticated u ->
    method request = "POST" ->
    students db !! student_pk = Some s ->
    Student_user s = user_pk u ->
    conflict db request (create_student fw env request) err_student_exists
| conflict_not_enrolled u course_id student_pk :
    request_user request = Authenticated u ->
    is_Some (courses db !! course_id) ->
    only_student_of db u student_pk ->
    ~ enrolled db student_pk course_id ->
    conflict db request (unenroll_course request course_id) err_already_left.

(** ** Page mutations

    The routes of [urls.py] that change or delete one row. *)

Inductive page_mutation :=
| EditStudent (student_id : N)
| DeleteStudent (student_id : N)
| EditCourse (course_id : N)
| DeleteCourse (course_id : N)
| EditReview (review_id : N)
| DeleteReview (review_id : N).

Definition run_page_mutation (fw : Framework) (env : Env) (request : HttpRequest)
    (m : page_mutation) : M HttpResponse :=
  match m with
  | EditStudent student_id => edit_student fw env request student_id
  | DeleteStudent student_id => delete_student request student_id
  | EditCourse course_id => edit_course request course_id
  | DeleteCourse course_id => delete_course request course_id
  | EditReview review_id => edit_review fw request review_id
  | DeleteReview review_id => delete_review request review_id
  end.

(** The owner of the row a mutation is about: [obj.user] of a course or a
    student, [review_obj.student.user] of a review. *)
Definition row_owner (db : DB) (m : page_mutation) : option N :=
  match m with
  | EditStudent pk | DeleteStudent pk => Student_user <$> students db !! pk
  | EditCourse pk | DeleteCourse pk => Course_user <$> courses db !! pk
  | EditReview pk | DeleteReview pk =>
      r ← reviews db !! pk;
      Student_user <$> students db !! review_student r
  end.

Definition is_edit (m : page_mutation) : bool :=
  match m with
  | EditStudent _ | EditCourse _ | EditReview _ => true
  | DeleteStudent _ | DeleteCourse _ | DeleteReview _ => false
  end.

(** A request attempts the mutation when it posts the edit form; a delete
    route is an attempt whatever the method. *)
Definition attempts (request : HttpRequest) (m : page_mutation) : Prop :=
  is_edit m = true -> method request = "POST".

(** The list page a successful mutation redirects to. *)
Definition success_page (m : page_mutation) : string :=
  match m with
  | EditStudent _ | DeleteStudent _ => "students"
  | EditCourse _ | DeleteCourse _ => "courses"
  | EditReview _ | DeleteReview _ => "courses"
  end.

(** The posted form can be saved: the fields are there, the date parses and
    is not in the future, the review form is valid and the course of the
    review exists. *)
Definition well_formed (fw : Framework) (env : Env) (request : HttpRequest)
    (db : DB) (m : page_mutation) : Prop :=
  match m with
  | EditStudent _ =>
      method request = "POST"
      /\ is_Some (POST request !! "first_name")
      /\ is_Some (POST request !! "last_name")
      /\ exists d, parse_date_of_receipt fw request = Ok d /\ d <= today env
  | EditCourse _ =>
      method request = "POST"
      /\ is_Some (POST request !! "title")
      /\ is_Some (POST request !! "description")
  | EditReview pk =>
      method request = "POST"
      /\ ReviewForm_is_valid fw (POST request) = true
      /\ exists r, reviews db !! pk = Some r
                   /\ is_Some (courses db !! review_course r)
  | DeleteStudent _ | DeleteCourse _ | DeleteReview _ => True
  end.

(** The mutation took place between [db] and [db']. *)
Definition applied (fw : Framework) (request : HttpRequest) (db db' : DB)
    (m : page_mutation) : Prop :=
  match m with
  | EditStudent pk =>
      exists s d,
        students db !! pk = Some s
        /\ parse_date_of_receipt fw request = Ok d
        /\ students db' !! pk
           = Some (mkStudent (Student_user s) (POST request !! "first_name")
                     (POST request !! "last_name") d)
  | DeleteStudent pk => students db' !! pk = None
  | EditCourse pk =>
      exists c,
        courses db !! pk = Some c
        /\ courses db' !! pk
           = Some (mkCourse (Course_user c) (POST request !! "title")
                     (POST request !! "description"))
  | DeleteCourse pk => courses db' !! pk = None
  | EditReview pk =>
      exists r text g,
        reviews db !! pk = Some r
        /\ ReviewForm_clean fw (POST request) = Ok (text, g)
        /\ reviews db' !! pk
           = Some (mkReview (review_course r) (review_student r) text g)
  | DeleteReview pk => reviews db' !! pk = None
  end.

Definition course_form (t d : string) : gmap string string :=
  {[ "title" := t; "description" := d ]}.

Definition with_method (meth : string) (request : HttpRequest) : HttpRequest :=
  mkRequest meth (request_user request) (POST request) (data request).

Definition with_data (d : gmap string string) (request : HttpRequest) : HttpRequest :=
  mkRequest (method request) (request_user request) (POST request) d.

(** ** REST rows *)

(** The owner stored with the course or student of key [pk]. *)
Definition stored_owner (e : Entity) (db : DB) (pk : N) : option N :=
  match e with
  | ECourse => Course_user <$> courses db !! pk
  | EStudent => Student_user <$> students db !! pk
  | ECourseToStudent | EReview => None
  end.

(** Bob posts a course and names Alice as its user. *)
Definition course_payload : gmap string string :=
  {[ "title" := "Course10"; "description" := "course10" ]}.

(** The author of review 40 puts a new text for it. *)
Definition review_update_request (u : User) : HttpRequest :=
  mkRequest "PUT" (Authenticated u) ∅
    {[ "course" := "10"; "student" := "20"; "review_text" := "Review 2";
       "grade" := "5" ]}.

Definition course_create_request : HttpRequest :=
  mkRequest "POST" (Authenticated bob) ∅ course_payload.

(** ** Serving requests

    The routes of [urls.py] and of the REST router, and the databases the
    application builds by serving requests while the clock moves on. *)

Inductive rest_action :=
| RestList
| RestRetrieve (pk : N)
| RestCreate
| RestUpdate (partial : bool) (pk : N)
| RestDestroy (pk : N).

Inductive view_call :=
| PageCreateStudent
| PageCreateCourse
| PageCreateReview (course_id : N)
| PageEnrollCourse (course_id : N)
| PageUnenrollCourse (course_id : N)
| PageMutation (m : page_mutation)
| Rest (e : Entity) (a : rest_action).

Definition serve (fw : Framework) (env : Env) (request : HttpRequest)
    (c : view_call) : M HttpResponse :=
  match c with
  | PageCreateStudent => create_student fw env request
  | PageCreateCourse => create_course env request
  | PageCreateReview course_id => create_review fw env request course_id
  | PageEnrollCourse course_id => enroll_course env request course_id
  | PageUnenrollCourse course_id => unenroll_course request course_id
  | PageMutation m => run_page_mutation fw env request m
  | Rest e RestList => list_action (viewset_of e) request
  | Rest e (RestRetrieve pk) => retrieve (viewset_of e) request pk
  | Rest e RestCreate => create (viewset_of e) fw env request
  | Rest e (RestUpdate partial pk) => update (viewset_of e) fw env request partial pk
  | Rest e (RestDestroy pk) => destroy (viewset_of e) request pk
  end.

(** [served fw day db]: [db] is what the application holds on [day] after
    serving some requests, starting empty, the clock never going back. *)
Inductive served (fw : Framework) : date -> DB -> Prop :=
| served_start day : served fw day empty_db
| served_request day env request c db :
    served fw day db ->
    day <= today env ->
    served fw (today env) (serve fw env request c db).2
| served_later day day' db :
    served fw day db -> day <= day' -> served fw day' db.

Definition student_dates_not_after (day : date) (db : DB) : Prop :=
  forall pk s, students db !! pk = Some s -> date_of_receipt s <= day.

(** A computation that adds no student row and changes none. *)
Definition students_shrink {A} (m : M A) : Prop :=
  forall db pk s, students (m db).2 !! pk = Some s -> students db !! pk = Some s.


(** ** Further sample data *)

(** The value fits the integer column of the database. *)
Definition fits_integer_column (fw : Framework) (v : Z) : Prop :=
  match (integer_field_range fw).1 with Some lo => lo <= v | None => True end
  /\ match (integer_field_range fw).2 with Some hi => v <= hi | None => True end.

(** A student with tomorrow's date of receipt, and a form that leaves the
    first name empty. *)
Definition future_student : Student :=
  mkStudent 2 (Some "Test") (Some "Student") 739008.

Definition blank_name_request (u : User) : HttpRequest :=
  mkRequest "POST" (Authenticated u)
    {[ "first_name" := EmptyString; "last_name" := "Student";
       "date_of_receipt" := "2024-05-01" ]} ∅.

(** The sample database after Alice has posted a second student of hers to
    the REST API. *)
Definition alice_two_students_db : DB :=
  (create StudentViewSet iso_framework sample_env (today_student_request alice)
     sample_db).2.

(** The sample database with a student of Bob, who has reviewed Alice's
    course 10. *)
Definition reviewed_by_bob_db : DB :=
  with_reviews (insert 41%N (mkReview 10 21 (Some "Review 2") 4))
    (with_students
       (insert 21%N (mkStudent 2 (Some "Student 2") (Some "Petrov") 738600))
       sample_db).
(** ** Further predicates on the database *)

(** The user owns no student row. *)
Definition no_student_of (db : DB) (u : User) : Prop :=
  forall k s, students db !! k = Some s -> Student_user s <> user_pk u.

(** No user owns two student rows. *)
Definition one_student_per_user (db : DB) : Prop :=
  forall k1 k2 s1 s2,
    students db !! k1 = Some s1 -> students db !! k2 = Some s2 ->
    Student_user s1 = Student_user s2 -> k1 = k2.

(** Bob as a student, posted to the REST API. *)
Definition student_payload : gmap string string :=
  {[ "first_name" := "Student 1"; "last_name" := "Noskov";
     "date_of_receipt" := "2023-12-12" ]}.

Definition student_create_request (u : User) : HttpRequest :=
  mkRequest "POST" (Authenticated u) ∅ student_payload.

(** The row a page mutation is about is not in its table. *)
Definition target_row_missing (db : DB) (m : page_mutation) : Prop :=
  match m with
  | EditStudent pk | DeleteStudent pk => students db !! pk = None
  | EditCourse pk | DeleteCourse pk => courses db !! pk = None
  | EditReview pk | DeleteReview pk => reviews db !! pk = None
  end.

(** What the lookup of the missing row raises: [objects.get] in five of
    the handlers, [get_object_or_404] in [delete_review]. *)
Definition missing_row_exn (m : page_mutation) : exn :=
  match m with
  | EditStudent _ | DeleteStudent _ => DoesNotExist MStudent
  | EditCourse _ | DeleteCourse _ => DoesNotExist MCourse
  | EditReview _ => DoesNotExist MReview
  | DeleteReview _ => Http404
  end.

(** Every enrollment and every review points to a course and a student
    that exist. *)
Definition referential_integrity (db : DB) : Prop :=
  (forall k r, coursetostudents db !! k = Some r ->
               is_Some (courses db !! cts_course r)
               /\ is_Some (students db !! cts_student r))
  /\ (forall k r, reviews db !! k = Some r ->
                  is_Some (courses db !! review_course r)
                  /\ is_Some (students db !! review_student r)).

(** The answers that report a change: the redirect of a page handler and
    the response of a REST action. *)
Definition is_success (r : result HttpResponse) : bool :=
  match r with
  | Ok (redirect _) | Ok (Response _) => true
  | _ => false
  end.

(** The page routes that show or take a form. *)
Definition is_form_page (c : view_call) : bool :=
  match c with
  | PageCreateStudent | PageCreateCourse | PageCreateReview _ => true
  | PageMutation m => is_edit m
  | _ => false
  end.


(** The sample database with a student row of Bob, and Bob's REST review
    of course 10 that names Alice's student 20 as its author. *)
Definition two_students_db : DB :=
  with_students
    (insert 21%N (mkStudent 2 (Some "Student 2") (Some "Petrov") 738600)) sample_db.

Definition review_by_other_request : HttpRequest :=
  mkRequest "POST" (Authenticated bob) ∅
    {[ "course" := "10"; "student" := "20"; "review_text" := "Review 2";
       "grade" := "4" ]}.

(** The routes of [urls.py] to the pages that only read. *)
Inductive read_call :=
| PageMain
| PageStudent (student_id : N)
| PageCourse (course_id : N)
| PageReview (review_id : N)
| PageCourseToStudent (coursetostudent_id : N)
| PageStudents
| PageCourses
| PageReviews
| PageCourseToStudents
| PageCourseStudents (course_id : N)
| PageStudentCourses (student_id : N)
| PageCourseReviews (course_id : N).

Definition serve_read (request : HttpRequest) (c : read_call) : M HttpResponse :=
  match c with
  | PageMain => pages.main request
  | PageStudent student_id => pages.student request student_id
  | PageCourse course_id => pages.course request course_id
  | PageReview review_id => pages.review request review_id
  | PageCourseToStudent coursetostudent_id =>
      pages.coursetostudent request coursetostudent_id
  | PageStudents => pages.students request
  | PageCourses => pages.courses request
  | PageReviews => pages.reviews request
  | PageCourseToStudents => pages.coursetostudents request
  | PageCourseStudents course_id => pages.course_students request course_id
  | PageStudentCourses student_id => pages.student_courses request student_id
  | PageCourseReviews course_id => pages.course_reviews request course_id
  end.

(** ** Serving account requests *)

(** The routes [register/], [login/] and [logout/] with the method of the
    request. *)
Inductive account_call :=
| RegisterPost
| RegisterGet
| LoginPost
| LoginGet
| LogOut.

Definition serve_account (lib : Auth) (request : HttpRequest) (c : account_call)
    (a : Accounts) : result HttpResponse * Accounts :=
  match c with
  | RegisterPost => UserRegistrationView.post lib request a
  | RegisterGet => UserRegistrationView.get request a
  | LoginPost => UserLoginView.post lib request a
  | LoginGet => UserLoginView.get request a
  | LogOut => log_out request a
  end.

(** No two users share a name. *)
Definition usernames_unique (a : Accounts) : Prop :=
  forall k1 k2 u1 u2,
    users a !! k1 = Some u1 -> users a !! k2 = Some u2 ->
    User_username u1 = User_username u2 -> k1 = k2.

(** No user has this name. *)
Definition username_free (name : string) (a : Accounts) : Prop :=
  forall k u, users a !! k = Some u -> User_username u <> name.

(** A library for the sample requests: passwords are kept with a prefix,
    and the normal form of the full-width spelling of Alice's name is the
    plain one, as NFKC has it. *)
Definition sample_auth : Auth := {|
  normalize_username name :=
    if String.eqb name "ａｌｉｃｅ" then "alice" else name;
  make_password raw := String.append "plain$" raw;
  check_password raw encoded := String.eqb encoded (String.append "plain$" raw);
  new_user_id := 4;
  generate_key := "key4"
|}.

(** The three sample users, Alice with a token; nobody is logged in. *)
Definition sample_accounts : Accounts := {|
  users := {[ 1%N := mkUserRow "alice" "plain$wonderland" true false;
              2%N := mkUserRow "bob" "plain$builder" true false;
              3%N := mkUserRow "admin" "plain$root" true true ]};
  tokens := {[ 1%N := "key1" ]};
  session := None
|}.

Definition register_request (name password1 password2 : string) : HttpRequest :=
  mkRequest "POST" AnonymousUser
    {[ "username" := name; "password1" := password1; "password2" := password2 ]}
    ∅.

Definition login_request (name password : string) : HttpRequest :=
  mkRequest "POST" AnonymousUser ∅
    {[ "username" := name; "password" := password ]}.

(** A review text of 84 Cyrillic characters, 157 bytes in UTF-8. *)
Definition cyrillic_review_text : string :=
  "Очень хороший курс: много практики, понятные объяснения и внимательный преподаватель".
(** * Properties *)

(** ** The monad *)

Lemma bind_ok {A B} (m : M A) (k : A -> M B) db a db' :
  m db = (Ok a, db') -> (m ≫= k) db = k a db'.
Proof. intros H. unfold mbind, M_bind, bind. by rewrite H. Qed.

Lemma bind_raise {A B} (m : M A) (k : A -> M B) db e db' :
  m db = (Raise e, db') -> (m ≫= k) db = (Raise e, db').
Proof. intros H. unfold mbind, M_bind, bind. by rewrite H. Qed.

(** ** Queries *)

Section queries.
Context {A : Type} (P : A -> bool) (t : gmap N A).

Lemma elem_of_objects_filter k r :
  (k, r) ∈ objects_filter P t <-> t !! k = Some r /\ P r = true.
Proof.
  unfold objects_filter. rewrite list_elem_of_filter, elem_of_map_to_list.
  simpl. rewrite Is_true_true. tauto.
Qed.

Lemma objects_exists_true :
  objects_exists P t = true <-> exists k r, t !! k = Some r /\ P r = true.
Proof.
  unfold objects_exists. split.
  - destruct (objects_filter P t) as [|[k r] l] eqn:E; [done|]. intros _.
    exists k, r. apply elem_of_objects_filter. rewrite E. left.
  - intros (k & r & Hk & Hr).
    assert ((k, r) ∈ objects_filter P t) as Hin by by apply elem_of_objects_filter.
    destruct (objects_filter P t); [by apply elem_of_nil in Hin | done].
Qed.

Lemma objects_exists_false :
  objects_exists P t = false <-> forall k r, t !! k = Some r -> P r = false.
Proof.
  split.
  - intros Hf k r Hk. destruct (P r) eqn:E; [|done].
    assert (objects_exists P t = true) by (apply objects_exists_true; eauto).
    congruence.
  - intros Hall. destruct (objects_exists P t) eqn:E; [|done].
    apply objects_exists_true in E as (k & r & Hk & Hr).
    rewrite (Hall k r Hk) in Hr. done.
Qed.

Lemma objects_get_Ok model k r :
  objects_get model P t = Ok (k, r) -> t !! k = Some r /\ P r = true.
Proof.
  unfold objects_get. intros H. apply elem_of_objects_filter.
  destruct (objects_filter P t) as [|x [|y l]]; simplify_eq. left.
Qed.

Lemma objects_get_none model :
  (forall k r, t !! k = Some r -> P r = false) ->
  objects_get model P t = Raise (DoesNotExist model).
Proof.
  intros Hall. unfold objects_get.
  destruct (objects_filter P t) as [|[k r] l] eqn:E; [done|].
  assert ((k, r) ∈ objects_filter P t) as Hin by (rewrite E; left).
  apply elem_of_objects_filter in Hin as [Hk Hr].
  rewrite (Hall k r Hk) in Hr. done.
Qed.

Lemma objects_get_unique model k r :
  t !! k = Some r -> P r = true ->
  (forall k' r', t !! k' = Some r' -> P r' = true -> k' = k) ->
  objects_get model P t = Ok (k, r).
Proof.
  intros Hk Hr Huniq. unfold objects_get.
  assert (NoDup (objects_filter P t)) as Hnd.
  { unfold objects_filter. apply NoDup_filter, NoDup_map_to_list. }
  assert (forall x, x ∈ objects_filter P t -> x = (k, r)) as Hall.
  { intros [k' r'] [Hk' Hr']%elem_of_objects_filter.
    pose proof (Huniq k' r' Hk' Hr') as ->. congruence. }
  assert ((k, r) ∈ objects_filter P t) as Hin by by apply elem_of_objects_filter.
  destruct (objects_filter P t) as [|x [|y l]].
  - by apply elem_of_nil in Hin.
  - rewrite (Hall x); [done | left].
  - exfalso. apply NoDup_cons in Hnd as [Hx _]. apply Hx.
    rewrite (Hall x) by left. rewrite (Hall y) by (right; left). left.
Qed.
End queries.

Ltac unfold_M :=
  unfold mbind, M_bind, bind, mret, M_ret, ret, raise, lift, get_db,
    login_required, try_except_return in *.

(** ** The date of receipt of a student *)

Lemma validate_future_date_Raise today d :
  validate_future_date today d = Raise ValidationError <-> today < d.
Proof.
  unfold validate_future_date. destruct (Z.gtb_spec d today); split; intros; try done; lia.
Qed.

Lemma validate_future_date_Ok today d :
  validate_future_date today d = Ok tt <-> d <= today.
Proof.
  unfold validate_future_date. destruct (Z.gtb_spec d today); split; intros; try done; lia.
Qed.

Lemma Student_full_clean_validates today s :
  Student_full_clean today s = Ok tt ->
  validate_future_date today (date_of_receipt s) = Ok tt.
Proof.
  unfold Student_full_clean, Student_date_of_receipt_validators. simpl.
  destruct (not_blank (first_name s)), (not_blank (last_name s)); try done.
  destruct (validate_future_date today (date_of_receipt s)) as [[]|]; done.
Qed.

Lemma Student_full_clean_future today s :
  today < date_of_receipt s -> Student_full_clean today s = Raise ValidationError.
Proof.
  intros H%validate_future_date_Raise.
  unfold Student_full_clean, Student_date_of_receipt_validators. simpl. rewrite H.
  destruct (not_blank (first_name s)), (not_blank (last_name s)); done.
Qed.

Lemma create_student_future fw env request db d :
  parse_date_of_receipt fw request = Ok d ->
  today env < d ->
  (create_student fw env request db).2 = db
  /\ (create_student fw env request db).1 <> Ok (redirect "students").
Proof.
  intros Hp Hd. unfold create_student, Student_objects_filter_user_exists.
  unfold_M. rewrite Hp.
  assert ((d >? today env) = true) as -> by lia.
  repeat case_match; simplify_eq/=; done.
Qed.

Lemma edit_student_future fw env request student_id db d :
  parse_date_of_receipt fw request = Ok d ->
  today env < d ->
  (edit_student fw env request student_id db).2 = db
  /\ (edit_student fw env request student_id db).1 <> Ok (redirect "students").
Proof.
  intros Hp Hd. unfold edit_student, Student_objects_get_id.
  unfold_M. rewrite Hp.
  assert ((d >? today env) = true) as -> by lia.
  repeat case_match; simplify_eq/=; done.
Qed.

Lemma StudentSerializer_validate_future fw env payload partial instance raw d :
  payload !! "date_of_receipt" = Some raw ->
  rest_DateField fw raw = Some d ->
  today env < d ->
  StudentSerializer_validate fw env payload partial instance = Raise APIValidationError.
Proof.
  intros Hraw Hd Hfut%validate_future_date_Raise.
  unfold StudentSerializer_validate.
  unfold field_value at 3. rewrite Hraw, Hd.
  unfold serializer_validate, Student_date_of_receipt_validators. simpl.
  rewrite Hfut. repeat case_match; done.
Qed.

Lemma rest_student_create_future fw env request db raw d :
  data request !! "date_of_receipt" = Some raw ->
  rest_DateField fw raw = Some d ->
  today env < d ->
  (create StudentViewSet fw env request db).2 = db
  /\ (create StudentViewSet fw env request db).1 <> Ok (Response HTTP_STATUS_CREATED).
Proof.
  intros Hraw Hd Hfut. unfold create, check_permissions. simpl. unfold_M.
  rewrite (StudentSerializer_validate_future _ _ _ _ _ _ _ Hraw Hd Hfut).
  destruct (UserAdminPermission.has_permission request); done.
Qed.

Lemma rest_student_update_future fw env request partial pk db raw d :
  data request !! "date_of_receipt" = Some raw ->
  rest_DateField fw raw = Some d ->
  today env < d ->
  (update StudentViewSet fw env request partial pk db).2 = db
  /\ (update StudentViewSet fw env request partial pk db).1 <> Ok (Response HTTP_STATUS_OK).
Proof.
  intros Hraw Hd Hfut.
  unfold update, get_object, check_permissions, check_object_permissions.
  simpl. unfold_M.
  destruct (UserAdminPermission.has_permission request); [|done].
  destruct (students db !! pk) as [s|]; [|done]. simpl.
  destruct (UserAdminPermission.has_object_permission request (StudentObject pk s))
    as [[]|]; try done.
  rewrite (StudentSerializer_validate_future _ _ _ _ _ _ _ Hraw Hd Hfut). done.
Qed.

Lemma create_student_saves_validated fw env request db pk s :
  students (create_student fw env request db).2 !! pk = Some s ->
  students db !! pk = Some s
  \/ validate_future_date (today env) (date_of_receipt s) = Ok tt.
Proof.
  unfold create_student, Student_objects_filter_user_exists, Student_save_new.
  unfold_M. intros H.
  repeat case_match; simplify_eq/=; auto.
  apply lookup_insert_Some in H as [[_ <-]|[_ H]]; auto.
  right. apply validate_future_date_Ok. simpl. lia.
Qed.

Lemma edit_student_saves_validated fw env request student_id db pk s :
  students (edit_student fw env request student_id db).2 !! pk = Some s ->
  students db !! pk = Some s
  \/ validate_future_date (today env) (date_of_receipt s) = Ok tt.
Proof.
  unfold edit_student, Student_objects_get_id, Student_save.
  unfold_M. intros H.
  repeat case_match; simplify_eq/=; auto.
  apply lookup_insert_Some in H as [[_ <-]|[_ H]]; auto.
  right. apply validate_future_date_Ok. simpl. lia.
Qed.

(** *** The dates of the rows the application builds *)

Lemma students_shrink_read {A} (m : M A) :
  (forall db, (m db).2 = db) -> students_shrink m.
Proof. intros H db pk s. by rewrite H. Qed.

Lemma students_shrink_bind {A B} (m : M A) (k : A -> M B) :
  students_shrink m -> (forall a, students_shrink (k a)) ->
  students_shrink (m ≫= k).
Proof.
  intros Hm Hk db pk s. specialize (Hm db pk s).
  unfold mbind, M_bind, bind. destruct (m db) as [[a|e] db']; simpl in *.
  - intros H. by apply Hm, (Hk a).
  - done.
Qed.

Lemma students_shrink_try_except_return {A B} (m : M A) catches (h : M B)
    (k : A -> M B) :
  students_shrink m -> students_shrink h -> (forall a, students_shrink (k a)) ->
  students_shrink (try_except_return m catches h k).
Proof.
  intros Hm Hh Hk db pk s. specialize (Hm db pk s).
  unfold try_except_return. destruct (m db) as [[a|e] db']; simpl in *.
  - intros H. by apply Hm, (Hk a).
  - destruct (catches e); [|done]. intros H. by apply Hm, Hh.
Qed.

Lemma students_shrink_run_call c :
  match c with
  | CallStudentSaveNew _ _ | CallStudentSave _ _ => True
  | _ => students_shrink (run_call c)
  end.
Proof.
  destruct c; try done; intros db k s0; simpl;
    unfold Course_save_new, Course_save, Course_delete, Student_delete,
      CourseToStudent_objects_create, CourseToStudent_save,
      CourseToStudent_delete, Review_save_new, Review_save, Review_delete;
    repeat case_match; simpl; try done.
  by intros [_ ?]%lookup_delete_Some.
Qed.

Create HintDb shrink.

#[local] Hint Extern 1 (students_shrink (mret _)) =>
  by apply students_shrink_read : shrink.
#[local] Hint Extern 1 (students_shrink (ret _)) =>
  by apply students_shrink_read : shrink.
#[local] Hint Extern 1 (students_shrink (raise _)) =>
  by apply students_shrink_read : shrink.
#[local] Hint Extern 1 (students_shrink (lift _)) =>
  by apply students_shrink_read : shrink.
#[local] Hint Extern 1 (students_shrink get_db) =>
  by apply students_shrink_read : shrink.
#[local] Hint Extern 2 (students_shrink (fun db => (_, db))) =>
  by apply students_shrink_read : shrink.
#[local] Hint Extern 1 (students_shrink (Student_objects_get_user ?ru)) =>
  apply students_shrink_read; intros ?; unfold Student_objects_get_user;
  by destruct (user_lookup_value ru) : shrink.
#[local] Hint Extern 1 (students_shrink (Student_objects_filter_user_exists ?ru)) =>
  apply students_shrink_read; intros ?; unfold Student_objects_filter_user_exists;
  by destruct (user_lookup_value ru) : shrink.
#[local] Hint Extern 1 (students_shrink (Course_save_new ?pk ?c)) =>
  exact (students_shrink_run_call (CallCourseSaveNew pk c)) : shrink.
#[local] Hint Extern 1 (students_shrink (Course_save ?pk ?c)) =>
  exact (students_shrink_run_call (CallCourseSave pk c)) : shrink.
#[local] Hint Extern 1 (students_shrink (Course_delete ?pk)) =>
  exact (students_shrink_run_call (CallCourseDelete pk)) : shrink.
#[local] Hint Extern 1 (students_shrink (Student_delete ?pk)) =>
  exact (students_shrink_run_call (CallStudentDelete pk)) : shrink.
#[local] Hint Extern 1 (students_shrink (CourseToStudent_objects_create ?pk ?c)) =>
  exact (students_shrink_run_call (CallCourseToStudentCreate pk c)) : shrink.
#[local] Hint Extern 1 (students_shrink (CourseToStudent_save ?pk ?c)) =>
  exact (students_shrink_run_call (CallCourseToStudentSave pk c)) : shrink.
#[local] Hint Extern 1 (students_shrink (CourseToStudent_delete ?pk)) =>
  exact (students_shrink_run_call (CallCourseToStudentDelete pk)) : shrink.
#[local] Hint Extern 1 (students_shrink (Review_save_new ?pk ?c)) =>
  exact (students_shrink_run_call (CallReviewSaveNew pk c)) : shrink.
#[local] Hint Extern 1 (students_shrink (Review_save ?pk ?c)) =>
  exact (students_shrink_run_call (CallReviewSave pk c)) : shrink.
#[local] Hint Extern 1 (students_shrink (Review_delete ?pk)) =>
  exact (students_shrink_run_call (CallReviewDelete pk)) : shrink.

Ltac shrink_step :=
  lazymatch goal with
  | |- students_shrink (_ ≫= _) => apply students_shrink_bind; [|intros ?]
  | |- students_shrink (try_except_return _ _ _ _) =>
      apply students_shrink_try_except_return; [| |intros ?]
  | |- students_shrink (if ?b then _ else _) => destruct b
  | |- students_shrink (match ?x with _ => _ end) => destruct x
  | |- students_shrink _ => solve [auto with shrink]
  end.

Ltac shrink_tac := repeat shrink_step.

(** The views that write no student row. *)
Lemma students_shrink_views fw env request c :
  match c with
  | PageCreateStudent | PageMutation (EditStudent _)
  | Rest EStudent RestCreate | Rest EStudent (RestUpdate _ _) => True
  | _ => students_shrink (serve fw env request c)
  end.
Proof.
  destruct c as [| | | | |[]|[] []]; try done; simpl;
    unfold delete_student, create_course,
      edit_course, delete_course, create_review, create_review_page, edit_review,
      delete_review, enroll_course, unenroll_course, login_required,
      Student_objects_get_id, Course_objects_get_id, Review_objects_get_id,
      CourseToStudent_objects_get, check_student_in_course,
      list_action, retrieve, create, update, destroy, get_object,
      check_permissions, check_object_permissions; simpl;
    shrink_tac.
Qed.

Lemma StudentSerializer_validate_date fw env payload partial instance f l d :
  StudentSerializer_validate fw env payload partial instance = Ok (f, l, d) ->
  d <= today env \/ (partial = true /\ date_of_receipt <$> instance = Some d).
Proof.
  unfold StudentSerializer_validate. intros H.
  destruct (field_value payload "first_name" _ _ _ _); [|done].
  destruct (field_value payload "last_name" _ _ _ _); [|done].
  destruct (field_value payload "date_of_receipt" _ _ _ _) as [d'|] eqn:E; [|done].
  simplify_eq. unfold field_value, serializer_validate,
    Student_date_of_receipt_validators in E. simpl in E.
  destruct (payload !! "date_of_receipt") as [raw|].
  - destruct (rest_DateField fw raw) as [v|]; [|done].
    destruct (validate_future_date (today env) v) as [[]|] eqn:Hv; [|done].
    simplify_eq. left. by apply validate_future_date_Ok.
  - destruct partial; [|done]. right.
    destruct (date_of_receipt <$> instance); by simplify_eq.
Qed.

Lemma rest_student_create_saves_validated fw env request db pk s :
  students (create StudentViewSet fw env request db).2 !! pk = Some s ->
  students db !! pk = Some s \/ date_of_receipt s <= today env.
Proof.
  unfold create, check_permissions. simpl. unfold Student_save_new. unfold_M.
  destruct (UserAdminPermission.has_permission request); [|by auto].
  destruct (StudentSerializer_validate fw env (data request) false None)
    as [[[f l] d]|] eqn:E; [|by auto].
  apply StudentSerializer_validate_date in E as [E|[? _]]; [|done].
  simpl. intros H. repeat case_match; simplify_eq/=; auto.
  apply lookup_insert_Some in H as [[_ <-]|[_ H]]; auto.
Qed.

Lemma rest_student_update_saves_validated fw env request partial id db pk s :
  student_dates_not_after (today env) db ->
  students (update StudentViewSet fw env request partial id db).2 !! pk = Some s ->
  students db !! pk = Some s \/ date_of_receipt s <= today env.
Proof.
  intros Hinv.
  unfold update, get_object, check_permissions, check_object_permissions.
  simpl. unfold Student_save. unfold_M.
  destruct (UserAdminPermission.has_permission request); [|by auto].
  destruct (students db !! id) as [s0|] eqn:E0; [|by auto]. simpl.
  destruct (UserAdminPermission.has_object_permission request (StudentObject id s0))
    as [[]|]; try by auto.
  destruct (StudentSerializer_validate fw env (data request) partial (Some s0))
    as [[[f l] d]|] eqn:E; [|by auto].
  assert (d <= today env) as Hd.
  { apply StudentSerializer_validate_date in E as [E|[_ E]]; [done|].
    simpl in E. simplify_eq. by apply (Hinv id s0). }
  simpl. intros H. repeat case_match; simplify_eq/=; auto.
  apply lookup_insert_Some in H as [[_ <-]|[_ H]]; auto.
Qed.

Lemma serve_student_dates fw env request c db :
  student_dates_not_after (today env) db ->
  student_dates_not_after (today env) (serve fw env request c db).2.
Proof.
  intros Hinv pk s Hs.
  assert (students db !! pk = Some s \/ date_of_receipt s <= today env) as [H|H];
    [|by apply (Hinv pk s)|done].
  pose proof (students_shrink_views fw env request c) as Hshrink.
  destruct c as [| | | | |[]|[] []]; simpl in Hs, Hshrink;
    try (left; by apply Hshrink).
  - apply create_student_saves_validated in Hs as [?|?%validate_future_date_Ok]; auto.
  - apply edit_student_saves_validated in Hs as [?|?%validate_future_date_Ok]; auto.
  - by apply rest_student_create_saves_validated in Hs.
  - by apply rest_student_update_saves_validated in Hs.
Qed.

Lemma served_student_dates fw day db :
  served fw day db -> student_dates_not_after day db.
Proof.
  induction 1 as [day|day env request c db _ IH Hle|day day' db _ IH Hle].
  - intros pk s Hs. simpl in Hs. by rewrite lookup_empty in Hs.
  - apply serve_student_dates. intros pk s Hs. specialize (IH pk s Hs). lia.
  - intros pk s Hs. specialize (IH pk s Hs). lia.
Qed.

(** C3.  A student row that passes model validation has a date of receipt
    no later than today, and a create or an update of a student with a date
    strictly in the future fails without writing: in the page handlers
    [create_student] and [edit_student], which compare the date with
    [date.today()] before [save()], and in the REST create and update, whose
    serializer runs the validators of the model field.  So in every database
    the application builds by serving requests, no student row has a date
    of receipt after the current day. *)
Theorem student_date_of_receipt_not_in_future (fw : Framework) (env : Env) (db : DB) :
  (forall s, Student_full_clean (today env) s = Ok tt ->
             date_of_receipt s <= today env)
  /\ (forall request d,
        parse_date_of_receipt fw request = Ok d -> today env < d ->
        (create_student fw env request db).2 = db
        /\ (create_student fw env request db).1 <> Ok (redirect "students"))
  /\ (forall request student_id d,
        parse_date_of_receipt fw request = Ok d -> today env < d ->
        (edit_student fw env request student_id db).2 = db
        /\ (edit_student fw env request student_id db).1 <> Ok (redirect "students"))
  /\ (forall request raw d,
        data request !! "date_of_receipt" = Some raw ->
        rest_DateField fw raw = Some d -> today env < d ->
        (create StudentViewSet fw env request db).2 = db
        /\ (create StudentViewSet fw env request db).1
           <> Ok (Response HTTP_STATUS_CREATED))
  /\ (forall request partial pk raw d,
        data request !! "date_of_receipt" = Some raw ->
        rest_DateField fw raw = Some d -> today env < d ->
        (update StudentViewSet fw env request partial pk db).2 = db
        /\ (update StudentViewSet fw env request partial pk db).1
           <> Ok (Response HTTP_STATUS_OK))
  /\ (forall day db', served fw day db' -> student_dates_not_after day db').
Proof.
  split; [|split; [|split; [|split; [|split]]]].
  - intros s Hs. by apply validate_future_date_Ok, Student_full_clean_validates.
  - intros request d. apply create_student_future.
  - intros request student_id d. apply edit_student_future.
  - intros request raw d. apply rest_student_create_future.
  - intros request partial pk raw d. apply rest_student_update_future.
  - intros day db'. apply served_student_dates.
Qed.

Lemma student_date_of_receipt_not_in_future_witness :
  date_of_receipt (mkStudent 1 (Some "Student 1") (Some "Noskov") 738501)
    <= today sample_env
  /\ (create_student iso_framework sample_env (future_student_request bob)
        sample_db).2 = sample_db
  /\ (edit_student iso_framework sample_env (future_student_request alice) 20
        sample_db).2 = sample_db
  /\ (create StudentViewSet iso_framework sample_env (future_student_request bob)
        sample_db).2 = sample_db
  /\ (update StudentViewSet iso_framework sample_env (future_student_request alice)
        false 20 sample_db).2 = sample_db
  /\ student_dates_not_after (today sample_env)
       (create_student iso_framework sample_env (today_student_request bob)
          empty_db).2.
Proof.
  destruct (student_date_of_receipt_not_in_future iso_framework sample_env sample_db)
    as (H1 & H2 & H3 & H4 & H5 & H6).
  split; [apply H1; reflexivity|].
  split; [apply (H2 (future_student_request bob) 739008); reflexivity|].
  split; [apply (H3 (future_student_request alice) 20%N 739008); reflexivity|].
  split; [apply (H4 (future_student_request bob) "2024-05-02" 739008); reflexivity|].
  split.
  { apply (H5 (future_student_request alice) false 20%N "2024-05-02" 739008);
      reflexivity. }
  apply H6.
  apply (served_request iso_framework (today sample_env) sample_env
           (today_student_request bob) PageCreateStudent empty_db).
  - apply served_start.
  - reflexivity.
Defined.

(** C4, as the code has it.  [validate_future_date d] raises
    [ValidationError] exactly when [d] is strictly after today, so today
    itself is accepted.  It is the validator of [Student.date_of_receipt]:
    model validation of a student runs it, and so does the REST serializer,
    on create and on update.  [save()] runs no validator, and the page
    handlers [create_student] and [edit_student] do not run model
    validation: they make the same comparison themselves before [save()],
    so every student row they write passes the validator. *)
Theorem validate_future_date_applied (fw : Framework) (env : Env) (db : DB) :
  (forall d, validate_future_date (today env) d = Raise ValidationError
             <-> today env < d)
  /\ (forall d, validate_future_date (today env) d = Ok tt <-> d <= today env)
  /\ validate_future_date (today env) (today env) = Ok tt
  /\ (forall s, Student_full_clean (today env) s = Ok tt ->
                validate_future_date (today env) (date_of_receipt s) = Ok tt)
  /\ (forall s, validate_future_date (today env) (date_of_receipt s)
                = Raise ValidationError ->
                Student_full_clean (today env) s = Raise ValidationError)
  /\ (forall payload partial instance raw d,
        payload !! "date_of_receipt" = Some raw ->
        rest_DateField fw raw = Some d ->
        validate_future_date (today env) d = Raise ValidationError ->
        StudentSerializer_validate fw env payload partial instance
        = Raise APIValidationError)
  /\ (forall pk s,
        Student_not_null s = true ->
        Student_save pk s db = (Ok tt, with_students (insert pk s) db))
  /\ (forall request pk s,
        students (create_student fw env request db).2 !! pk = Some s ->
        students db !! pk = Some s
        \/ validate_future_date (today env) (date_of_receipt s) = Ok tt)
  /\ (forall request student_id pk s,
        students (edit_student fw env request student_id db).2 !! pk = Some s ->
        students db !! pk = Some s
        \/ validate_future_date (today env) (date_of_receipt s) = Ok tt).
Proof.
  split; [intros d; apply validate_future_date_Raise|].
  split; [intros d; apply validate_future_date_Ok|].
  split; [apply validate_future_date_Ok; lia|].
  split; [intros s; apply Student_full_clean_validates|].
  split; [intros s Hs%validate_future_date_Raise; by apply Student_full_clean_future|].
  split.
  { intros payload partial instance raw d Hraw Hd Hfut%validate_future_date_Raise.
    by eapply StudentSerializer_validate_future. }
  split; [intros pk s Hs; unfold Student_save; by rewrite Hs|].
  split; [intros request pk s; apply create_student_saves_validated|].
  intros request student_id pk s. apply edit_student_saves_validated.
Qed.

Lemma validate_future_date_applied_witness :
  validate_future_date 739007 739008 = Raise ValidationError
  /\ validate_future_date 739007 739007 = Ok tt
  /\ validate_future_date 739007 739007 = Ok tt
  /\ Student_full_clean 739007 future_student = Raise ValidationError
  /\ StudentSerializer_validate iso_framework sample_env
       (student_form "2024-05-02") false None = Raise APIValidationError
  /\ Student_save 20 future_student sample_db
     = (Ok tt, with_students (insert 20%N future_student) sample_db)
  /\ (students sample_db !! 50%N
        = Some (mkStudent 2 (Some "Test") (Some "Student") 739007)
      \/ validate_future_date 739007 739007 = Ok tt)
  /\ (students sample_db !! 20%N
        = Some (mkStudent 1 (Some "Test") (Some "Student") 739007)
      \/ validate_future_date 739007 739007 = Ok tt).
Proof.
  destruct (validate_future_date_applied iso_framework sample_env sample_db)
    as (H1 & H2 & _ & H4 & H5 & H6 & H7 & H8 & H9).
  split; [apply H1; reflexivity|].
  split; [apply H2; discriminate|].
  split; [apply (H4 (mkStudent 2 (Some "Test") (Some "Student") 739007)); reflexivity|].
  split; [apply (H5 future_student); reflexivity|].
  split.
  { apply (H6 (student_form "2024-05-02") false None "2024-05-02" 739008);
      reflexivity. }
  split; [apply (H7 20%N future_student); reflexivity|].
  split; [apply (H8 (today_student_request bob) 50%N); reflexivity|].
  apply (H9 (today_student_request alice) 20%N 20%N); reflexivity.
Defined.

(** C4, as stated, fails on the code: the validator is not applied at the
    storage layer on every create.  [save()] stores a student whose date of
    receipt is tomorrow, which the validator and model validation refuse;
    and [create_student] never runs model validation: it stores a student
    with an empty first name, which model validation refuses as well. *)
Lemma student_saved_without_model_validation :
  validate_future_date (today sample_env) (date_of_receipt future_student)
    = Raise ValidationError
  /\ Student_full_clean (today sample_env) future_student = Raise ValidationError
  /\ Student_save_new 21 future_student sample_db
     = (Ok tt, with_students (insert 21%N future_student) sample_db)
  /\ create_student iso_framework sample_env (blank_name_request bob) sample_db
     = (Ok (redirect "students"),
        with_students
          (insert 50%N (mkStudent 2 (Some EmptyString) (Some "Student") 739007))
          sample_db)
  /\ Student_full_clean (today sample_env)
       (mkStudent 2 (Some EmptyString) (Some "Student") 739007)
     = Raise ValidationError.
Proof.
  split; [reflexivity|]. split; [reflexivity|]. split; [reflexivity|].
  split; reflexivity.
Qed.

(** ** The grade of a review *)

Lemma formfield_clean_Review_grade fw raw g :
  formfield_clean fw (Review_grade fw) raw = Ok g -> 1 <= g <= 5.
Proof.
  unfold formfield_clean. simpl. intros H.
  repeat case_match; simplify_eq; lia.
Qed.

Lemma ReviewForm_clean_grade fw post text g :
  ReviewForm_clean fw post = Ok (text, g) -> 1 <= g <= 5.
Proof.
  unfold ReviewForm_clean. intros H.
  destruct (ReviewForm_clean_review_text fw post); [|done].
  destruct (formfield_clean fw (Review_grade fw) (post !! "grade"))
    as [g'|] eqn:E; [|done].
  apply formfield_clean_Review_grade in E.
  destruct (run_validators (validators (Review_grade fw)) g'); by simplify_eq.
Qed.

Lemma ReviewForm_clean_out_of_range fw post raw g :
  post !! "grade" = Some raw ->
  forms_IntegerField_to_python fw raw = Some g ->
  g < 1 \/ 5 < g ->
  ReviewForm_clean fw post = Raise ValidationError.
Proof.
  intros Hraw Hg Hrange.
  destruct (ReviewForm_clean fw post) as [[text g']|e] eqn:E.
  - pose proof (ReviewForm_clean_grade _ _ _ _ E) as Hin.
    unfold ReviewForm_clean, formfield_clean in E. rewrite Hraw, Hg in E.
    simpl in E. repeat case_match; simplify_eq; lia.
  - unfold ReviewForm_clean, formfield_clean in E. rewrite Hraw, Hg in E.
    simpl in E. repeat case_match; simplify_eq; try done; lia.
Qed.

Lemma create_review_invalid fw env request course_id db :
  ReviewForm_clean fw (POST request) = Raise ValidationError ->
  (create_review fw env request course_id db).2 = db
  /\ (create_review fw env request course_id db).1 <> Ok (redirect "main").
Proof.
  intros Hinv. unfold create_review, create_review_page. unfold_M. rewrite Hinv.
  repeat case_match; simplify_eq/=; done.
Qed.

Lemma edit_review_invalid fw request review_id db :
  ReviewForm_clean fw (POST request) = Raise ValidationError ->
  (edit_review fw request review_id db).2 = db
  /\ (edit_review fw request review_id db).1 <> Ok (redirect "courses").
Proof.
  intros Hinv. unfold edit_review, Review_objects_get_id, Student_objects_get_id.
  unfold_M. rewrite Hinv.
  repeat case_match; simplify_eq/=; done.
Qed.

Lemma create_review_saves_checked fw env request course_id db pk r :
  reviews (create_review fw env request course_id db).2 !! pk = Some r ->
  reviews db !! pk = Some r \/ 1 <= grade r <= 5.
Proof.
  unfold create_review, create_review_page, Student_objects_get_user, Review_save_new.
  unfold_M. intros H.
  destruct (ReviewForm_clean fw (POST request)) as [[text g]|] eqn:E.
  - apply ReviewForm_clean_grade in E.
    repeat case_match; simplify_eq/=; auto.
    apply lookup_insert_Some in H as [[_ <-]|[_ H]]; auto.
  - repeat case_match; simplify_eq/=; auto.
Qed.

Lemma edit_review_saves_checked fw request review_id db pk r :
  reviews (edit_review fw request review_id db).2 !! pk = Some r ->
  reviews db !! pk = Some r \/ 1 <= grade r <= 5.
Proof.
  unfold edit_review, Review_objects_get_id, Student_objects_get_id, Review_save.
  unfold_M. intros H.
  destruct (ReviewForm_clean fw (POST request)) as [[text g]|] eqn:E.
  - apply ReviewForm_clean_grade in E.
    repeat case_match; simplify_eq/=; auto.
    apply lookup_insert_Some in H as [[_ <-]|[_ H]]; auto.
  - repeat case_match; simplify_eq/=; auto.
Qed.

(** The form path.  A grade outside 1..5 is refused by the form:
    [MinMaxIntegerField] gives the form field of [ReviewForm] its bounds, so
    the page handlers [create_review] and [edit_review] store nothing for
    such a grade, and every review row they write has its grade in [1,5]. *)
Theorem review_grade_checked_by_form (fw : Framework) (env : Env) (db : DB) :
  (forall post raw g,
      post !! "grade" = Some raw ->
      forms_IntegerField_to_python fw raw = Some g ->
      g < 1 \/ 5 < g ->
      ReviewForm_clean fw post = Raise ValidationError)
  /\ (forall request course_id raw g,
        POST request !! "grade" = Some raw ->
        forms_IntegerField_to_python fw raw = Some g ->
        g < 1 \/ 5 < g ->
        (create_review fw env request course_id db).2 = db
        /\ (create_review fw env request course_id db).1 <> Ok (redirect "main"))
  /\ (forall request review_id raw g,
        POST request !! "grade" = Some raw ->
        forms_IntegerField_to_python fw raw = Some g ->
        g < 1 \/ 5 < g ->
        (edit_review fw request review_id db).2 = db
        /\ (edit_review fw request review_id db).1 <> Ok (redirect "courses"))
  /\ (forall request course_id pk r,
        reviews (create_review fw env request course_id db).2 !! pk = Some r ->
        reviews db !! pk = Some r \/ 1 <= grade r <= 5)
  /\ (forall request review_id pk r,
        reviews (edit_review fw request review_id db).2 !! pk = Some r ->
        reviews db !! pk = Some r \/ 1 <= grade r <= 5).
Proof.
  split; [intros post raw g; apply ReviewForm_clean_out_of_range|].
  split.
  { intros request course_id raw g Hraw Hg Hr. apply create_review_invalid.
    by eapply ReviewForm_clean_out_of_range. }
  split.
  { intros request review_id raw g Hraw Hg Hr. apply edit_review_invalid.
    by eapply ReviewForm_clean_out_of_range. }
  split; [intros request course_id pk r; apply create_review_saves_checked|].
  intros request review_id pk r. apply edit_review_saves_checked.
Qed.

Lemma review_grade_checked_by_form_witness :
  ReviewForm_clean iso_framework (review_form "New review!" "7")
    = Raise ValidationError
  /\ (create_review iso_framework sample_env
        (review_form_request alice "New review!" "7") 10 sample_db).2 = sample_db
  /\ (edit_review iso_framework
        (review_form_request alice "New review!" "0") 40 sample_db).2 = sample_db
  /\ (reviews sample_db !! 50%N = Some (mkReview 10 20 (Some "Great course!") 4)
      \/ 1 <= grade (mkReview 10 20 (Some "Great course!") 4) <= 5)
  /\ (reviews sample_db !! 40%N = Some (mkReview 10 20 (Some "New review!") 4)
      \/ 1 <= grade (mkReview 10 20 (Some "New review!") 4) <= 5).
Proof.
  destruct (review_grade_checked_by_form iso_framework sample_env sample_db)
    as (H1 & H2 & H3 & H4 & H5).
  split; [apply (H1 _ "7" 7); [reflexivity | reflexivity | lia]|].
  split.
  { apply (H2 (review_form_request alice "New review!" "7") 10%N "7" 7);
      [reflexivity | reflexivity | lia]. }
  split.
  { apply (H3 (review_form_request alice "New review!" "0") 40%N "0" 0);
      [reflexivity | reflexivity | lia]. }
  split.
  { apply (H4 (review_form_request alice "Great course!" "4") 10%N 50%N).
    reflexivity. }
  apply (H5 (review_form_request alice "New review!" "4") 40%N 40%N).
  reflexivity.
Defined.

Lemma run_validators_fits_column fw v :
  fits_integer_column fw v ->
  run_validators (validators (Review_grade fw)) v = Ok tt.
Proof.
  unfold fits_integer_column. simpl. intros [Hlo Hhi].
  destruct (integer_field_range fw).1 as [lo|],
           (integer_field_range fw).2 as [hi|]; simpl;
    unfold MinValueValidator, MaxValueValidator;
    repeat case_match; try done; lia.
Qed.

(** C2 on the code.  [MinMaxIntegerField] is documented to restrict its
    values to 1..5, but it overrides [formfield] only.  Model validation of
    a review checks the grade against the range of the integer column and
    nothing else, [save()] checks nothing, and the REST serializer takes
    its bounds from the validators of the model field: a grade outside 1..5
    that fits the column passes [full_clean], is stored by [save()] and is
    accepted by the serializer, while the form of the page handlers refuses
    the same grade. *)
Theorem review_grade_out_of_range_accepted
    (fw : Framework) (db : DB) (pk : N) (r : Review)
    (payload post : gmap string string) (raw_rest raw_form : string)
    (current : Z) :
  grade r < 1 \/ 5 < grade r ->
  fits_integer_column fw (grade r) ->
  reviews db !! pk = None ->
  foreign_keys_ok (review_course r) (review_student r) db = true ->
  payload !! "grade" = Some raw_rest ->
  rest_IntegerField fw raw_rest = Some (grade r) ->
  post !! "grade" = Some raw_form ->
  forms_IntegerField_to_python fw raw_form = Some (grade r) ->
  Review_full_clean fw r = Ok tt
  /\ Review_save_new pk r db = (Ok tt, with_reviews (insert pk r) db)
  /\ reviews (Review_save_new pk r db).2 !! pk = Some r
  /\ ReviewSerializer_grade fw payload current = Ok (grade r)
  /\ ReviewForm_clean fw post = Raise ValidationError.
Proof.
  intros Hout Hfits Hfresh Hfk Hraw Hrest Hpost Hform.
  pose proof (run_validators_fits_column fw (grade r) Hfits) as Hval.
  assert (Review_save_new pk r db = (Ok tt, with_reviews (insert pk r) db))
    as Hsave.
  { unfold Review_save_new. rewrite Hfresh, Hfk.
    by rewrite bool_decide_eq_false_2 by (by intros [? ?]). }
  split; [done|]. split; [done|].
  split; [rewrite Hsave; simpl; by rewrite lookup_insert_eq|].
  split.
  - unfold ReviewSerializer_grade, serializer_validate.
    by rewrite Hraw, Hrest, Hval.
  - by eapply ReviewForm_clean_out_of_range.
Qed.

Lemma review_grade_out_of_range_accepted_witness :
  (Review_full_clean iso_framework review_grade_7 = Ok tt
   /\ Review_save_new 41 review_grade_7 sample_db
      = (Ok tt, with_reviews (insert 41%N review_grade_7) sample_db)
   /\ reviews (Review_save_new 41 review_grade_7 sample_db).2 !! 41%N
      = Some review_grade_7
   /\ ReviewSerializer_grade iso_framework (data review_grade_7_request) 5
      = Ok 7
   /\ ReviewForm_clean iso_framework (review_form "New review!" "7")
      = Raise ValidationError)
  /\ create ReviewViewSet iso_framework sample_env review_grade_7_request
       sample_db
     = (Ok (Response HTTP_STATUS_CREATED),
        with_reviews (insert 50%N review_grade_7) sample_db).
Proof.
  split; [|reflexivity].
  apply (review_grade_out_of_range_accepted iso_framework sample_db 41%N
           review_grade_7 (data review_grade_7_request)
           (review_form "New review!" "7") "7" "7" 5).
  - right. simpl. lia.
  - split; simpl; lia.
  - reflexivity.
  - reflexivity.
  - reflexivity.
  - reflexivity.
  - reflexivity.
  - reflexivity.
Defined.

(** The text of a review: a missing or empty text is cleaned to the empty
    text, and the bound of 100 is on characters, not on bytes. *)
Lemma ReviewForm_clean_no_text fw post text g :
  post !! "review_text" = None ->
  ReviewForm_clean fw post = Ok (text, g) ->
  text = Some EmptyString.
Proof.
  unfold ReviewForm_clean, ReviewForm_clean_review_text. intros ->. simpl.
  intros H. repeat case_match; by simplify_eq.
Qed.

Lemma len_counts_characters :
  len "Отличный курс" = 13 /\ String.length "Отличный курс" = 25%nat.
Proof. split; reflexivity. Qed.

Lemma edit_review_stores_empty_text :
  edit_review iso_framework (review_form_request admin EmptyString "4") 40
    sample_db
  = (Ok (redirect "courses"),
     with_reviews (insert 40%N (mkReview 10 20 (Some EmptyString) 4)) sample_db).
Proof. reflexivity. Qed.

(** ** Enrollment rows *)

Lemma unique_together_violated_false pk r db :
  unique_together_violated pk r db = false <->
  forall k r', coursetostudents db !! k = Some r' -> k <> pk ->
               cts_course r' = cts_course r -> cts_student r' = cts_student r ->
               False.
Proof.
  unfold unique_together_violated. rewrite objects_exists_false. split.
  - intros H k r' Hk Hne Hc Hs.
    specialize (H k r'). rewrite lookup_delete_ne in H by done.
    specialize (H Hk). unfold enrolls in H. rewrite Hc, Hs in H.
    by rewrite !bool_decide_eq_true_2 in H.
  - intros H k r' [Hne Hk]%lookup_delete_Some.
    unfold enrolls. destruct (decide (cts_student r' = cts_student r)) as [Hs|Hs];
      destruct (decide (cts_course r' = cts_course r)) as [Hc|Hc].
    + destruct (H k r'); done.
    + by rewrite (bool_decide_eq_false_2 _ Hc), andb_false_r.
    + by rewrite (bool_decide_eq_false_2 _ Hs).
    + by rewrite (bool_decide_eq_false_2 _ Hs).
Qed.

Lemma unique_together_violated_true pk r db k r' :
  coursetostudents db !! k = Some r' -> k <> pk ->
  cts_course r' = cts_course r -> cts_student r' = cts_student r ->
  unique_together_violated pk r db = true.
Proof.
  intros Hk Hne Hc Hs.
  destruct (unique_together_violated pk r db) eqn:E; [done|].
  exfalso. eapply unique_together_violated_false; eauto.
Qed.

Lemma enrollment_unique_insert pk r db :
  enrollment_unique db ->
  unique_together_violated pk r db = false ->
  enrollment_unique (with_coursetostudents (insert pk r) db).
Proof.
  intros Hu Hv i j r1 r2. simpl.
  rewrite !lookup_insert_Some.
  intros [[<- <-]|[Hi Hr1]] [[<- <-]|[Hj Hr2]] Hc Hs; try done.
  - exfalso. eapply unique_together_violated_false; eauto.
  - exfalso. eapply unique_together_violated_false; eauto.
  - eauto.
Qed.

Lemma enrollment_unique_subset db db' :
  enrollment_unique db ->
  (forall k r, coursetostudents db' !! k = Some r -> coursetostudents db !! k = Some r) ->
  enrollment_unique db'.
Proof. intros Hu Hsub i j r1 r2 Hi Hj. apply Hu; auto. Qed.

Lemma run_call_enrollment_unique c db :
  enrollment_unique db -> enrollment_unique (run_call c db).2.
Proof.
  intros Hu.
  destruct c; simpl;
    unfold Course_save_new, Course_save, Course_delete, Student_save_new,
      Student_save, Student_delete, CourseToStudent_objects_create,
      CourseToStudent_save, CourseToStudent_delete, Review_save_new,
      Review_save, Review_delete;
    repeat case_match; simpl; try done;
    try (by apply enrollment_unique_insert);
    (eapply enrollment_unique_subset; [exact Hu|]; simpl; intros k r0).
  - by intros [? _]%map_lookup_filter_Some.
  - by intros [? _]%map_lookup_filter_Some.
  - by intros [_ ?]%lookup_delete_Some.
Qed.

Lemma reachable_enrollment_unique db : reachable db -> enrollment_unique db.
Proof.
  induction 1 as [|db c _ IH].
  - intros i j r1 r2 Hi. simpl in Hi. by rewrite lookup_empty in Hi.
  - by apply run_call_enrollment_unique.
Qed.

Lemma duplicate_enrollment_refused db pk r k r' :
  coursetostudents db !! k = Some r' ->
  cts_course r' = cts_course r -> cts_student r' = cts_student r ->
  CourseToStudent_objects_create pk r db = (Raise IntegrityError, db).
Proof.
  intros Hk Hc Hs. unfold CourseToStudent_objects_create.
  destruct (decide (k = pk)) as [->|Hne].
  - rewrite bool_decide_eq_true_2; [done | by eexists].
  - rewrite (unique_together_violated_true pk r db k r') by done.
    repeat case_match; done.
Qed.

(** ** Views stay within the reachable databases *)

Lemma preserves_read {A} (m : M A) :
  (forall db, (m db).2 = db) -> preserves_reachable m.
Proof. intros H db Hr. by rewrite H. Qed.

Lemma preserves_ret {A} (a : A) : preserves_reachable (mret a).
Proof. by apply preserves_read. Qed.

Lemma preserves_raise {A} (e : exn) : preserves_reachable (@raise A e).
Proof. by apply preserves_read. Qed.

Lemma preserves_lift {A} (r : result A) : preserves_reachable (lift r).
Proof. by apply preserves_read. Qed.

Lemma preserves_get_db : preserves_reachable get_db.
Proof. by apply preserves_read. Qed.

Lemma preserves_bind {A B} (m : M A) (k : A -> M B) :
  preserves_reachable m -> (forall a, preserves_reachable (k a)) ->
  preserves_reachable (m ≫= k).
Proof.
  intros Hm Hk db Hr. specialize (Hm db Hr).
  unfold mbind, M_bind, bind. destruct (m db) as [[a|e] db']; simpl in *.
  - by apply Hk.
  - done.
Qed.

Lemma preserves_try_except_return {A B} (m : M A) catches (h : M B) (k : A -> M B) :
  preserves_reachable m -> preserves_reachable h ->
  (forall a, preserves_reachable (k a)) ->
  preserves_reachable (try_except_return m catches h k).
Proof.
  intros Hm Hh Hk db Hr. specialize (Hm db Hr).
  unfold try_except_return. destruct (m db) as [[a|e] db']; simpl in *.
  - by apply Hk.
  - destruct (catches e); [by apply Hh | done].
Qed.

Lemma preserves_run_call c : preserves_reachable (run_call c).
Proof. intros db Hr. by constructor. Qed.

Lemma preserves_query {B} (f : DB -> result B) :
  preserves_reachable (fun db : DB => (f db, db)).
Proof. by apply preserves_read. Qed.

Lemma preserves_Student_objects_get_user ru :
  preserves_reachable (Student_objects_get_user ru).
Proof.
  apply preserves_read. intros db. unfold Student_objects_get_user.
  by destruct (user_lookup_value ru).
Qed.

Lemma preserves_Student_objects_filter_user_exists ru :
  preserves_reachable (Student_objects_filter_user_exists ru).
Proof.
  apply preserves_read. intros db. unfold Student_objects_filter_user_exists.
  by destruct (user_lookup_value ru).
Qed.

Create HintDb preserves.

#[local] Hint Resolve preserves_ret preserves_raise preserves_lift preserves_get_db
  preserves_Student_objects_get_user preserves_Student_objects_filter_user_exists
  : preserves.
#[local] Hint Extern 1 (preserves_reachable (Course_save_new ?pk ?c)) =>
  exact (preserves_run_call (CallCourseSaveNew pk c)) : preserves.
#[local] Hint Extern 1 (preserves_reachable (Course_save ?pk ?c)) =>
  exact (preserves_run_call (CallCourseSave pk c)) : preserves.
#[local] Hint Extern 1 (preserves_reachable (Course_delete ?pk)) =>
  exact (preserves_run_call (CallCourseDelete pk)) : preserves.
#[local] Hint Extern 1 (preserves_reachable (Student_save_new ?pk ?c)) =>
  exact (preserves_run_call (CallStudentSaveNew pk c)) : preserves.
#[local] Hint Extern 1 (preserves_reachable (Student_save ?pk ?c)) =>
  exact (preserves_run_call (CallStudentSave pk c)) : preserves.
#[local] Hint Extern 1 (preserves_reachable (Student_delete ?pk)) =>
  exact (preserves_run_call (CallStudentDelete pk)) : preserves.
#[local] Hint Extern 1 (preserves_reachable (CourseToStudent_objects_create ?pk ?c)) =>
  exact (preserves_run_call (CallCourseToStudentCreate pk c)) : preserves.
#[local] Hint Extern 1 (preserves_reachable (CourseToStudent_save ?pk ?c)) =>
  exact (preserves_run_call (CallCourseToStudentSave pk c)) : preserves.
#[local] Hint Extern 1 (preserves_reachable (CourseToStudent_delete ?pk)) =>
  exact (preserves_run_call (CallCourseToStudentDelete pk)) : preserves.
#[local] Hint Extern 1 (preserves_reachable (Review_save_new ?pk ?c)) =>
  exact (preserves_run_call (CallReviewSaveNew pk c)) : preserves.
#[local] Hint Extern 1 (preserves_reachable (Review_save ?pk ?c)) =>
  exact (preserves_run_call (CallReviewSave pk c)) : preserves.
#[local] Hint Extern 1 (preserves_reachable (Review_delete ?pk)) =>
  exact (preserves_run_call (CallReviewDelete pk)) : preserves.
#[local] Hint Extern 2 (preserves_reachable (fun db => (_, db))) =>
  apply preserves_query : preserves.

Ltac preserves_step :=
  lazymatch goal with
  | |- preserves_reachable (_ ≫= _) => apply preserves_bind; [|intros ?]
  | |- preserves_reachable (try_except_return _ _ _ _) =>
      apply preserves_try_except_return; [| |intros ?]
  | |- preserves_reachable (if ?b then _ else _) => destruct b
  | |- preserves_reachable (match ?x with _ => _ end) => destruct x
  | |- preserves_reachable _ => solve [auto with preserves]
  end.

Ltac preserves_tac := repeat preserves_step.

Lemma preserves_page_handlers fw env request pk :
  preserves_reachable (create_student fw env request)
  /\ preserves_reachable (edit_student fw env request pk)
  /\ preserves_reachable (delete_student request pk)
  /\ preserves_reachable (create_course env request)
  /\ preserves_reachable (edit_course request pk)
  /\ preserves_reachable (delete_course request pk)
  /\ preserves_reachable (create_review fw env request pk)
  /\ preserves_reachable (edit_review fw request pk)
  /\ preserves_reachable (delete_review request pk)
  /\ preserves_reachable (enroll_course env request pk)
  /\ preserves_reachable (unenroll_course request pk).
Proof.
  unfold create_student, edit_student, delete_student, create_course,
    edit_course, delete_course, create_review, create_review_page, edit_review,
    delete_review, enroll_course, unenroll_course, login_required,
    Student_objects_get_id, Course_objects_get_id, Review_objects_get_id,
    CourseToStudent_objects_get, check_student_in_course.
  repeat split; preserves_tac.
Qed.

Lemma preserves_rest_actions e fw env request partial pk :
  preserves_reachable (list_action (viewset_of e) request)
  /\ preserves_reachable (retrieve (viewset_of e) request pk)
  /\ preserves_reachable (create (viewset_of e) fw env request)
  /\ preserves_reachable (update (viewset_of e) fw env request partial pk)
  /\ preserves_reachable (destroy (viewset_of e) request pk).
Proof.
  unfold list_action, retrieve, create, update, destroy, get_object,
    check_permissions, check_object_permissions.
  destruct e; simpl; repeat split; preserves_tac.
Qed.

Lemma preserves_serve fw env request c :
  preserves_reachable (serve fw env request c).
Proof.
  destruct c as [| |course_id|course_id|course_id|m|e a]; simpl.
  - apply (preserves_page_handlers fw env request 0%N).
  - apply (preserves_page_handlers fw env request 0%N).
  - apply (preserves_page_handlers fw env request course_id).
  - apply (preserves_page_handlers fw env request course_id).
  - apply (preserves_page_handlers fw env request course_id).
  - destruct m as [pk|pk|pk|pk|pk|pk]; apply (preserves_page_handlers fw env request pk).
  - destruct a as [|pk| |partial pk|pk].
    + apply (preserves_rest_actions e fw env request false 0%N).
    + apply (preserves_rest_actions e fw env request false pk).
    + apply (preserves_rest_actions e fw env request false 0%N).
    + apply (preserves_rest_actions e fw env request partial pk).
    + apply (preserves_rest_actions e fw env request false pk).
Qed.

(** What the application builds by serving requests, the ORM calls can
    build. *)
Lemma served_reachable fw day db : served fw day db -> reachable db.
Proof.
  induction 1 as [day|day env request c db _ IH Hle|day day' db _ IH Hle].
  - constructor.
  - by apply preserves_serve.
  - done.
Qed.

Lemma served_enrollment_unique fw day db :
  served fw day db -> enrollment_unique db.
Proof. intros H. by eapply reachable_enrollment_unique, served_reachable. Qed.

(** ** Business-rule conflicts *)

#[local] Arguments objects_exists : simpl never.
#[local] Arguments objects_get : simpl never.
#[local] Arguments objects_filter : simpl never.

Lemma only_student_objects_get db u student_pk :
  only_student_of db u student_pk ->
  exists s,
    objects_get MStudent (fun s0 => bool_decide (Student_user s0 = user_pk u))
      (students db) = Ok (student_pk, s).
Proof.
  intros [(s & Hs & Hu) Honly]. exists s.
  apply objects_get_unique; [done | by apply bool_decide_eq_true_2 |].
  intros k s' Hk Hu'%bool_decide_eq_true_1. eauto.
Qed.

Lemma enrolls_true student_pk course_pk r :
  enrolls student_pk course_pk r = true <->
  cts_student r = student_pk /\ cts_course r = course_pk.
Proof.
  unfold enrolls. rewrite andb_true_iff, !bool_decide_eq_true. tauto.
Qed.

Lemma enrolled_exists db student_pk course_pk :
  enrolled db student_pk course_pk ->
  objects_exists (enrolls student_pk course_pk) (coursetostudents db) = true.
Proof.
  intros (k & r & Hk & Hs & Hc). apply objects_exists_true.
  exists k, r. split; [done|]. by apply enrolls_true.
Qed.

Lemma not_enrolled_exists db student_pk course_pk :
  ~ enrolled db student_pk course_pk ->
  objects_exists (enrolls student_pk course_pk) (coursetostudents db) = false
  /\ objects_get MCourseToStudent (enrolls student_pk course_pk)
       (coursetostudents db) = Raise (DoesNotExist MCourseToStudent).
Proof.
  intros Hn.
  assert (forall k r, coursetostudents db !! k = Some r ->
                      enrolls student_pk course_pk r = false) as Hall.
  { intros k r Hk. destruct (enrolls student_pk course_pk r) eqn:E; [|done].
    apply enrolls_true in E as [Hs Hc]. destruct Hn. by exists k, r. }
  split; [by apply objects_exists_false | by apply objects_get_none].
Qed.

(** *** Enrolling twice *)

Lemma enroll_course_already_enrolled env request db u course_id student_pk :
  request_user request = Authenticated u ->
  is_Some (courses db !! course_id) ->
  only_student_of db u student_pk ->
  enrolled db student_pk course_id ->
  enroll_course env request course_id db
  = (Ok (render "courses.html" [("error", CtxStr err_already_enrolled)]), db).
Proof.
  intros Hu [c Hc] Honly Henr.
  destruct (only_student_objects_get _ _ _ Honly) as [s Hget].
  unfold enroll_course, login_required, Course_objects_get_id, objects_get_id,
    Student_objects_get_user, check_student_in_course.
  rewrite Hu. simpl. unfold_M. rewrite Hc. simpl. rewrite Hget.
  by rewrite (enrolled_exists _ _ _ Henr).
Qed.

(** *** The sample database *)

Lemma alice_only_student : only_student_of sample_db alice 20.
Proof.
  split; [by eexists|].
  intros k s' Hk _. simpl in Hk. by apply lookup_singleton_Some in Hk as [<- _].
Qed.

Lemma alice_enrolled_10 : enrolled sample_db 20 10.
Proof. by exists 30%N, (mkCourseToStudent 10 20). Qed.

Lemma alice_not_enrolled_11 : ~ enrolled sample_db 20 11.
Proof.
  intros (k & r & Hk & _ & Hc). simpl in Hk.
  apply lookup_singleton_Some in Hk as [_ <-]. done.
Qed.

(** *** Uniqueness of the enrolled pair *)

(** C5, as the code has it.  In every database that the ORM calls of the
    views can build, two enrollment rows with the same course and student
    are the same row; the storage layer itself ([unique_together] of
    [CourseToStudent.Meta]) refuses a second row for an enrolled pair, and
    the pre-check of [enroll_course] answers an enrolled student with the
    inline error before the storage has to; whatever the request,
    [enroll_course] keeps the pairs unique. *)
Theorem enrollment_pair_unique (db : DB) :
  reachable db ->
  enrollment_unique db
  /\ (forall pk r k r',
        coursetostudents db !! k = Some r' ->
        cts_course r' = cts_course r -> cts_student r' = cts_student r ->
        CourseToStudent_objects_create pk r db = (Raise IntegrityError, db))
  /\ (forall env request u course_id student_pk,
        request_user request = Authenticated u ->
        is_Some (courses db !! course_id) ->
        only_student_of db u student_pk ->
        enrolled db student_pk course_id ->
        enroll_course env request course_id db
        = (Ok (render "courses.html" [("error", CtxStr err_already_enrolled)]),
           db))
  /\ (forall env request course_id,
        reachable (enroll_course env request course_id db).2
        /\ enrollment_unique (enroll_course env request course_id db).2).
Proof.
  intros Hr. split; [by apply reachable_enrollment_unique|].
  split; [intros pk r k r'; apply duplicate_enrollment_refused|].
  split; [intros env request u course_id student_pk;
          apply enroll_course_already_enrolled|].
  intros env request course_id.
  assert (reachable (enroll_course env request course_id db).2) as Hr'.
  { by apply (preserves_page_handlers iso_framework env request course_id). }
  split; [done | by apply reachable_enrollment_unique].
Qed.

Lemma sample_db_reachable : reachable sample_db.
Proof.
  pose proof (reachable_call _ (CallReviewSaveNew 40 (mkReview 10 20 (Some "Review 1") 5))
    (reachable_call _ (CallCourseToStudentCreate 30 (mkCourseToStudent 10 20))
    (reachable_call _ (CallStudentSaveNew 20 (mkStudent 1 (Some "Student 1") (Some "Noskov") 738501))
    (reachable_call _ (CallCourseSaveNew 11 (mkCourse 2 (Some "Course11") (Some "course11")))
    (reachable_call _ (CallCourseSaveNew 10 (mkCourse 1 (Some "Course10") (Some "course10")))
       reachable_empty))))) as H.
  exact H.
Defined.

Lemma enrollment_pair_unique_witness :
  enrollment_unique sample_db
  /\ CourseToStudent_objects_create 31 (mkCourseToStudent 10 20) sample_db
     = (Raise IntegrityError, sample_db)
  /\ enroll_course sample_env (plain_request "POST" alice) 10 sample_db
     = (Ok (render "courses.html" [("error", CtxStr err_already_enrolled)]),
        sample_db).
Proof.
  destruct (enrollment_pair_unique sample_db sample_db_reachable)
    as (H1 & H2 & H3 & _).
  split; [exact H1|]. split.
  - apply (H2 31%N (mkCourseToStudent 10 20) 30%N (mkCourseToStudent 10 20));
      reflexivity.
  - apply (H3 sample_env (plain_request "POST" alice) alice 10%N 20%N).
    + reflexivity.
    + by eexists.
    + exact alice_only_student.
    + exact alice_enrolled_10.
Defined.

(** C5, as stated, fails on the code: the storage layer does have the
    uniqueness constraint.  A second row for the enrolled pair (course 10,
    student 20), with a fresh key and existing course and student, is
    refused with [IntegrityError] by [objects.create] itself. *)
Lemma storage_refuses_duplicate_enrollment :
  coursetostudents sample_db !! 31%N = None
  /\ foreign_keys_ok 10 20 sample_db = true
  /\ CourseToStudent_objects_create 31 (mkCourseToStudent 10 20) sample_db
     = (Raise IntegrityError, sample_db)
  /\ ~ storage_without_unique_constraint.
Proof.
  split; [reflexivity|]. split; [reflexivity|]. split; [reflexivity|].
  intros H. specialize (H sample_db 31%N (mkCourseToStudent 10 20)).
  discriminate H; reflexivity.
Qed.

(** *** Conflicts leave the database alone *)

(** C6.  A business-rule conflict -- enrolling an enrolled student, a
    second student for the same user, unenrolling a student who is not
    enrolled -- renders the page with an inline error and status 200, and
    leaves the database as it was. *)
Theorem conflict_renders_error_without_change
    (db : DB) (request : HttpRequest) (view : M HttpResponse) (msg : string) :
  conflict db request view msg ->
  (view db).2 = db
  /\ status_codes (view db).1 = [HTTP_STATUS_OK]
  /\ inline_error (view db).1 = Some msg.
Proof.
  intros [env u course_id student_pk Hu [c Hc] Honly Henr
         | fw env u student_pk s Hu Hm Hs Hown
         | u course_id student_pk Hu [c Hc] Honly Hnot].
  - by rewrite (enroll_course_already_enrolled env request db u course_id
                   student_pk Hu (ex_intro _ c Hc) Honly Henr).
  - unfold create_student, login_required, Student_objects_filter_user_exists.
    rewrite Hu, Hm. simpl. unfold_M.
    assert (objects_exists (fun s0 => bool_decide (Student_user s0 = user_pk u))
              (students db) = true) as ->; [|done].
    apply objects_exists_true. exists student_pk, s.
    by rewrite bool_decide_eq_true_2.
  - destruct (only_student_objects_get _ _ _ Honly) as [s Hget].
    destruct (not_enrolled_exists _ _ _ Hnot) as [_ Hgetc].
    unfold unenroll_course, Course_objects_get_id, objects_get_id,
      Student_objects_get_user, CourseToStudent_objects_get,
      check_student_in_course.
    rewrite Hu. unfold_M. rewrite Hc. simpl. rewrite Hget, Hgetc. done.
Qed.

Lemma conflict_renders_error_without_change_witness :
  ((enroll_course sample_env (plain_request "POST" alice) 10 sample_db).2
     = sample_db
   /\ status_codes (enroll_course sample_env (plain_request "POST" alice) 10
                      sample_db).1 = [HTTP_STATUS_OK]
   /\ inline_error (enroll_course sample_env (plain_request "POST" alice) 10
                      sample_db).1 = Some err_already_enrolled)
  /\ ((create_student iso_framework sample_env (today_student_request alice)
         sample_db).2 = sample_db
      /\ status_codes (create_student iso_framework sample_env
                         (today_student_request alice) sample_db).1
         = [HTTP_STATUS_OK]
      /\ inline_error (create_student iso_framework sample_env
                         (today_student_request alice) sample_db).1
         = Some err_student_exists)
  /\ ((unenroll_course (plain_request "POST" alice) 11 sample_db).2 = sample_db
      /\ status_codes (unenroll_course (plain_request "POST" alice) 11
                         sample_db).1 = [HTTP_STATUS_OK]
      /\ inline_error (unenroll_course (plain_request "POST" alice) 11
                         sample_db).1 = Some err_already_left).
Proof.
  split; [|split].
  - apply (conflict_renders_error_without_change sample_db
             (plain_request "POST" alice)
             (enroll_course sample_env (plain_request "POST" alice) 10)
             err_already_enrolled).
    apply (conflict_already_enrolled _ _ sample_env alice 10%N 20%N).
    + reflexivity.
    + by eexists.
    + exact alice_only_student.
    + exact alice_enrolled_10.
  - apply (conflict_renders_error_without_change sample_db
             (today_student_request alice)
             (create_student iso_framework sample_env (today_student_request alice))
             err_student_exists).
    apply (conflict_second_student _ _ iso_framework sample_env alice 20%N
             (mkStudent 1 (Some "Student 1") (Some "Noskov") 738501));
      reflexivity.
  - apply (conflict_renders_error_without_change sample_db
             (plain_request "POST" alice)
             (unenroll_course (plain_request "POST" alice) 11)
             err_already_left).
    apply (conflict_not_enrolled _ _ alice 11%N 20%N).
    + reflexivity.
    + by eexists.
    + exact alice_only_student.
    + exact alice_not_enrolled_11.
Defined.

(** C6, as stated, fails on the code: the REST create has given Alice a
    second student row, and her request to enroll in course 10, in which
    her first student is enrolled, ends in the unhandled
    [MultipleObjectsReturned] -- a server error, not the inline error --
    as does her request to unenroll from course 11, in which she is not
    enrolled. *)
Lemma conflict_of_user_with_two_students_raises :
  students alice_two_students_db
  = <[50%N := mkStudent 1 (Some "Test") (Some "Student") 739007]>
      (students sample_db)
  /\ enrolled alice_two_students_db 20 10
  /\ enroll_course sample_env (plain_request "POST" alice) 10
       alice_two_students_db
     = (Raise (MultipleObjectsReturned MStudent), alice_two_students_db)
  /\ unenroll_course (plain_request "POST" alice) 11 alice_two_students_db
     = (Raise (MultipleObjectsReturned MStudent), alice_two_students_db)
  /\ status_codes (Raise (MultipleObjectsReturned MStudent)) = [500]
  /\ inline_error (enroll_course sample_env (plain_request "POST" alice) 10
                     alice_two_students_db).1 = None.
Proof.
  split; [reflexivity|].
  split; [by exists 30%N, (mkCourseToStudent 10 20)|].
  split; [reflexivity|]. split; [reflexivity|]. split; reflexivity.
Qed.

(** ** Who may change a row through the pages *)

Lemma owner_or_staff_outsider request u owner :
  request_user request = Authenticated u -> is_staff u = false ->
  user_pk u <> owner -> owner_or_staff request owner = false.
Proof.
  intros Hu Hs Hne. unfold owner_or_staff. rewrite Hu. simpl.
  by rewrite Hs, bool_decide_eq_false_2.
Qed.

Lemma owner_or_staff_staff request u owner :
  request_user request = Authenticated u -> is_staff u = true ->
  owner_or_staff request owner = true.
Proof.
  intros Hu Hs. unfold owner_or_staff. rewrite Hu. simpl.
  by rewrite Hs, orb_true_r.
Qed.

Lemma row_owner_review db pk owner :
  (r ← reviews db !! pk; Student_user <$> students db !! review_student r)
    = Some owner ->
  exists r s, reviews db !! pk = Some r
              /\ students db !! review_student r = Some s
              /\ Student_user s = owner.
Proof.
  intros H. destruct (reviews db !! pk) as [r|]; [|done]. simpl in H.
  destruct (students db !! review_student r) as [s|] eqn:E; [|done].
  simpl in H. exists r, s. by simplify_eq.
Qed.

Lemma page_mutation_by_outsider fw env db request m owner u :
  row_owner db m = Some owner ->
  request_user request = Authenticated u -> is_staff u = false ->
  user_pk u <> owner ->
  (run_page_mutation fw env request m db).2 = db
  /\ (attempts request m ->
      status_codes (run_page_mutation fw env request m db).1 = [HTTP_STATUS_OK]
      /\ is_Some (inline_error (run_page_mutation fw env request m db).1)).
Proof.
  intros Hown Hu Hs Hne. unfold attempts.
  destruct m as [pk|pk|pk|pk|pk|pk]; simpl in Hown |- *.
  - destruct (students db !! pk) as [s|] eqn:E; simplify_eq/=.
    pose proof (owner_or_staff_outsider _ _ _ Hu Hs Hne) as Hno.
    unfold edit_student, Student_objects_get_id, objects_get_id. unfold_M.
    rewrite E. simpl. rewrite Hno.
    destruct (String.eqb (method request) "POST"); simpl; eauto.
  - destruct (students db !! pk) as [s|] eqn:E; simplify_eq/=.
    pose proof (owner_or_staff_outsider _ _ _ Hu Hs Hne) as Hno.
    unfold delete_student, Student_objects_get_id, objects_get_id. unfold_M.
    rewrite E. simpl. rewrite Hno. simpl; eauto.
  - destruct (courses db !! pk) as [c|] eqn:E; simplify_eq/=.
    pose proof (owner_or_staff_outsider _ _ _ Hu Hs Hne) as Hno.
    unfold edit_course, Course_objects_get_id, objects_get_id. unfold_M.
    rewrite E. simpl. rewrite Hno.
    split; [by destruct (String.eqb (method request) "POST")|].
    intros ->; [|done]. simpl. eauto.
  - destruct (courses db !! pk) as [c|] eqn:E; simplify_eq/=.
    pose proof (owner_or_staff_outsider _ _ _ Hu Hs Hne) as Hno.
    unfold delete_course, Course_objects_get_id, objects_get_id. unfold_M.
    rewrite E. simpl. rewrite Hno. simpl; eauto.
  - apply row_owner_review in Hown as (r & s & Hr & Hst & <-).
    pose proof (owner_or_staff_outsider _ _ _ Hu Hs Hne) as Hno.
    unfold edit_review, Review_objects_get_id, Student_objects_get_id,
      objects_get_id. unfold_M.
    rewrite Hr. simpl. 
    split.
    + destruct (String.eqb (method request) "POST"); [|done].
      rewrite Hst. simpl. by rewrite Hno.
    + intros ->; [|done]. simpl. rewrite Hst. simpl. rewrite Hno. simpl. eauto.
  - apply row_owner_review in Hown as (r & s & Hr & Hst & <-).
    pose proof (owner_or_staff_outsider _ _ _ Hu Hs Hne) as Hno.
    unfold delete_review, get_object_or_404, Student_objects_get_id,
      objects_get_id. unfold_M.
    rewrite Hr. simpl. rewrite Hst. simpl. rewrite Hno. simpl. eauto.
Qed.

Lemma page_mutation_by_staff fw env db request m owner u :
  row_owner db m = Some owner ->
  request_user request = Authenticated u -> is_staff u = true ->
  well_formed fw env request db m ->
  (run_page_mutation fw env request m db).1 = Ok (redirect (success_page m))
  /\ applied fw request db (run_page_mutation fw env request m db).2 m.
Proof.
  intros Hown Hu Hs Hwf.
  destruct m as [pk|pk|pk|pk|pk|pk]; simpl in Hown, Hwf |- *.
  - destruct (students db !! pk) as [s|] eqn:E; simplify_eq/=.
    destruct Hwf as (Hm & [f Hf] & [l Hl] & d & Hd & Hle).
    unfold edit_student, Student_objects_get_id, objects_get_id, Student_save,
      Student_not_null. unfold_M.
    rewrite E. simpl. rewrite Hm, (owner_or_staff_staff _ _ _ Hu Hs), Hd. simpl.
    assert ((d >? today env) = false) as -> by lia.
    rewrite Hf, Hl. simpl. split; [done|].
    exists s, d. by rewrite lookup_insert_eq.
  - destruct (students db !! pk) as [s|] eqn:E; simplify_eq/=.
    unfold delete_student, Student_objects_get_id, objects_get_id, Student_delete.
    unfold_M. rewrite E. simpl. rewrite (owner_or_staff_staff _ _ _ Hu Hs). simpl.
    split; [done | apply lookup_delete_eq].
  - destruct (courses db !! pk) as [c|] eqn:E; simplify_eq/=.
    destruct Hwf as (Hm & [t Ht] & [d Hd]).
    unfold edit_course, Course_objects_get_id, objects_get_id, Course_save,
      Course_not_null. unfold_M.
    rewrite E. simpl. rewrite Hm, (owner_or_staff_staff _ _ _ Hu Hs). simpl.
    rewrite Ht, Hd. simpl. split; [done|].
    exists c. by rewrite lookup_insert_eq.
  - destruct (courses db !! pk) as [c|] eqn:E; simplify_eq/=.
    unfold delete_course, Course_objects_get_id, objects_get_id, Course_delete.
    unfold_M. rewrite E. simpl. rewrite (owner_or_staff_staff _ _ _ Hu Hs). simpl.
    split; [done | apply lookup_delete_eq].
  - apply row_owner_review in Hown as (r & s & Hr & Hst & <-).
    destruct Hwf as (Hm & Hvalid & r' & Hr' & [c Hc]).
    assert (r' = r) as -> by congruence.
    unfold ReviewForm_is_valid in Hvalid.
    destruct (ReviewForm_clean fw (POST request)) as [[text g]|] eqn:Hclean; [|done].
    unfold edit_review, Review_objects_get_id, Student_objects_get_id,
      objects_get_id, Review_save, foreign_keys_ok. unfold_M.
    rewrite Hr. simpl. rewrite Hm. simpl. rewrite Hst. simpl.
    rewrite (owner_or_staff_staff _ _ _ Hu Hs), Hclean. simpl.
    rewrite Hc, Hst. simpl. split; [done|].
    exists r, text, g. by rewrite lookup_insert_eq.
  - apply row_owner_review in Hown as (r & s & Hr & Hst & <-).
    unfold delete_review, get_object_or_404, Student_objects_get_id,
      objects_get_id, Review_delete. unfold_M.
    rewrite Hr. simpl. rewrite Hst. simpl.
    rewrite (owner_or_staff_staff _ _ _ Hu Hs). simpl.
    split; [done | apply lookup_delete_eq].
Qed.

(** C7, as the code has it.  A page-handler mutation of a course, a student
    or a review through the edit or delete page of that row, requested by
    an authenticated user who is neither the owner of the row nor staff,
    leaves the database unchanged, and the attempt (a posted edit form, or
    a delete) is answered by the page with an inline error; the same
    mutation requested by a staff user with a form that can be saved is
    carried out, whoever owns the row. *)
Theorem page_mutation_owner_or_staff
    (fw : Framework) (env : Env) (db : DB) (m : page_mutation) (owner : N)
    (request_o request_s : HttpRequest) (outsider staff : User) :
  row_owner db m = Some owner ->
  request_user request_o = Authenticated outsider ->
  is_staff outsider = false ->
  user_pk outsider <> owner ->
  request_user request_s = Authenticated staff ->
  is_staff staff = true ->
  well_formed fw env request_s db m ->
  ((run_page_mutation fw env request_o m db).2 = db
   /\ (attempts request_o m ->
       status_codes (run_page_mutation fw env request_o m db).1 = [HTTP_STATUS_OK]
       /\ is_Some (inline_error (run_page_mutation fw env request_o m db).1)))
  /\ ((run_page_mutation fw env request_s m db).1 = Ok (redirect (success_page m))
      /\ applied fw request_s db (run_page_mutation fw env request_s m db).2 m).
Proof.
  intros Hown Ho Hos Hne Hs Hss Hwf. split.
  - by eapply page_mutation_by_outsider.
  - by eapply page_mutation_by_staff.
Qed.

Lemma page_mutation_owner_or_staff_witness :
  ((edit_course (mkRequest "POST" (Authenticated bob)
                   (course_form "New Course" "This is a new course.") ∅) 10
      sample_db).2 = sample_db
   /\ (attempts (mkRequest "POST" (Authenticated bob)
                   (course_form "New Course" "This is a new course.") ∅)
         (EditCourse 10) ->
       status_codes (edit_course (mkRequest "POST" (Authenticated bob)
                       (course_form "New Course" "This is a new course.") ∅) 10
                       sample_db).1 = [HTTP_STATUS_OK]
       /\ is_Some (inline_error (edit_course (mkRequest "POST" (Authenticated bob)
                       (course_form "New Course" "This is a new course.") ∅) 10
                       sample_db).1)))
  /\ ((edit_course (mkRequest "POST" (Authenticated admin)
                      (course_form "New Course" "This is a new course.") ∅) 10
         sample_db).1 = Ok (redirect "courses")
      /\ applied iso_framework
           (mkRequest "POST" (Authenticated admin)
              (course_form "New Course" "This is a new course.") ∅)
           sample_db
           (edit_course (mkRequest "POST" (Authenticated admin)
                           (course_form "New Course" "This is a new course.") ∅) 10
              sample_db).2
           (EditCourse 10)).
Proof.
  apply (page_mutation_owner_or_staff iso_framework sample_env sample_db
           (EditCourse 10) 1%N
           (mkRequest "POST" (Authenticated bob)
              (course_form "New Course" "This is a new course.") ∅)
           (mkRequest "POST" (Authenticated admin)
              (course_form "New Course" "This is a new course.") ∅)
           bob admin).
  - reflexivity.
  - reflexivity.
  - reflexivity.
  - discriminate.
  - reflexivity.
  - reflexivity.
  - simpl. split; [reflexivity|]. split; by eexists.
Defined.

(** C7, as stated, fails on the code: a row also changes when the row it
    points to is deleted.  Bob's student has reviewed Alice's course 10;
    Alice, who is not staff and does not own the review, deletes her
    course, and Bob's review goes with it ([on_delete=CASCADE]). *)
Lemma cascade_deletes_review_of_another_user :
  row_owner reviewed_by_bob_db (DeleteReview 41) = Some (user_pk bob)
  /\ user_pk alice <> user_pk bob
  /\ is_staff alice = false
  /\ reviews reviewed_by_bob_db !! 41%N = Some (mkReview 10 21 (Some "Review 2") 4)
  /\ (delete_course (plain_request "POST" alice) 10 reviewed_by_bob_db).1
     = Ok (redirect "courses")
  /\ reviews (delete_course (plain_request "POST" alice) 10
                reviewed_by_bob_db).2 !! 41%N = None.
Proof.
  split; [reflexivity|]. split; [discriminate|]. split; [reflexivity|].
  split; [reflexivity|]. split; reflexivity.
Qed.

(** ** The delete pages *)

Lemma delete_pages_ignore_method fw env m meth request db :
  is_edit m = false ->
  run_page_mutation fw env (with_method meth request) m db
  = run_page_mutation fw env request m db.
Proof. by destruct m. Qed.

(** C9.  [delete_student], [delete_course] and [delete_review] never read
    the request method: whatever the method, [GET] included, the request of
    the owner of the row or of a staff user deletes the row and redirects
    to a list page -- the student list for a student, the course list for a
    course and for a review. *)
Theorem delete_pages_delete_on_any_method
    (fw : Framework) (env : Env) (db : DB) (m : page_mutation) (owner : N)
    (meth : string) (request : HttpRequest) :
  is_edit m = false ->
  row_owner db m = Some owner ->
  owner_or_staff request owner = true ->
  run_page_mutation fw env (with_method meth request) m db
  = run_page_mutation fw env (with_method "GET" request) m db
  /\ (run_page_mutation fw env (with_method meth request) m db).1
     = Ok (redirect (success_page m))
  /\ applied fw (with_method meth request) db
       (run_page_mutation fw env (with_method meth request) m db).2 m.
Proof.
  intros Hdel Hown Hperm.
  split; [by rewrite !delete_pages_ignore_method|].
  rewrite delete_pages_ignore_method by done.
  destruct m as [pk|pk|pk|pk|pk|pk]; try done; simpl in Hown |- *.
  - destruct (students db !! pk) as [s|] eqn:E; simplify_eq/=.
    unfold delete_student, Student_objects_get_id, objects_get_id, Student_delete.
    unfold_M. rewrite E. simpl. rewrite Hperm. simpl.
    split; [done | apply lookup_delete_eq].
  - destruct (courses db !! pk) as [c|] eqn:E; simplify_eq/=.
    unfold delete_course, Course_objects_get_id, objects_get_id, Course_delete.
    unfold_M. rewrite E. simpl. rewrite Hperm. simpl.
    split; [done | apply lookup_delete_eq].
  - apply row_owner_review in Hown as (r & s & Hr & Hst & <-).
    unfold delete_review, get_object_or_404, Student_objects_get_id,
      objects_get_id, Review_delete. unfold_M.
    rewrite Hr. simpl. rewrite Hst. simpl. rewrite Hperm. simpl.
    split; [done | apply lookup_delete_eq].
Qed.

Lemma delete_pages_delete_on_any_method_witness :
  delete_review (plain_request "HEAD" alice) 40 sample_db
  = delete_review (plain_request "GET" alice) 40 sample_db
  /\ (delete_review (plain_request "HEAD" alice) 40 sample_db).1
     = Ok (redirect "courses")
  /\ reviews (delete_review (plain_request "HEAD" alice) 40 sample_db).2 !! 40%N
     = None.
Proof.
  apply (delete_pages_delete_on_any_method iso_framework sample_env sample_db
           (DeleteReview 40) 1%N "HEAD" (plain_request "POST" alice));
    reflexivity.
Defined.

(** ** Unenrolling without a session *)

(** C10.  [unenroll_course] has no login guard: a request without an
    authenticated user ends in an unhandled exception, a server error, and
    changes nothing.  When the course exists the exception is the
    [TypeError] of the lookup of the requester's student row; otherwise the
    lookup of the course has already raised.  [enroll_course], which has the
    guard, redirects the same request to the login page. *)
Theorem unenroll_course_unauthenticated
    (env : Env) (request : HttpRequest) (course_id : N) (db : DB) :
  is_authenticated (request_user request) = false ->
  (unenroll_course request course_id db).2 = db
  /\ server_error (unenroll_course request course_id db).1
  /\ (is_Some (courses db !! course_id) ->
      (unenroll_course request course_id db).1 = Raise TypeError)
  /\ (courses db !! course_id = None ->
      (unenroll_course request course_id db).1 = Raise (DoesNotExist MCourse))
  /\ enroll_course env request course_id db = (Ok (redirect_to_login None), db).
Proof.
  intros Hanon.
  destruct (request_user request) as [|u] eqn:Hu; [|done].
  unfold unenroll_course, enroll_course, login_required, Course_objects_get_id,
    objects_get_id, Student_objects_get_user, server_error.
  rewrite Hu. unfold_M. simpl.
  destruct (courses db !! course_id) as [c|]; simpl;
    repeat split; try done; by intros [? ?].
Qed.

Lemma unenroll_course_unauthenticated_witness :
  (unenroll_course (mkRequest "POST" AnonymousUser ∅ ∅) 10 sample_db).2 = sample_db
  /\ server_error (unenroll_course (mkRequest "POST" AnonymousUser ∅ ∅) 10 sample_db).1
  /\ (unenroll_course (mkRequest "POST" AnonymousUser ∅ ∅) 10 sample_db).1
     = Raise TypeError
  /\ enroll_course sample_env (mkRequest "POST" AnonymousUser ∅ ∅) 10 sample_db
     = (Ok (redirect_to_login None), sample_db).
Proof.
  destruct (unenroll_course_unauthenticated sample_env
              (mkRequest "POST" AnonymousUser ∅ ∅) 10%N sample_db)
    as (H1 & H2 & H3 & _ & H5); [reflexivity|].
  split; [exact H1|]. split; [exact H2|]. split; [|exact H5].
  apply H3. by eexists.
Defined.

(** ** REST create *)

Lemma CourseSerializer_validate_ignores fw payload partial instance key v :
  key <> "title" -> key <> "description" ->
  CourseSerializer_validate fw (<[key:=v]> payload) partial instance
  = CourseSerializer_validate fw payload partial instance.
Proof.
  intros H1 H2. unfold CourseSerializer_validate, field_value.
  by rewrite !lookup_insert_ne.
Qed.

Lemma StudentSerializer_validate_ignores fw env payload partial instance key v :
  key <> "first_name" -> key <> "last_name" -> key <> "date_of_receipt" ->
  StudentSerializer_validate fw env (<[key:=v]> payload) partial instance
  = StudentSerializer_validate fw env payload partial instance.
Proof.
  intros H1 H2 H3. unfold StudentSerializer_validate, field_value.
  by rewrite !lookup_insert_ne.
Qed.

Lemma rest_create_ignores_owner_field fw env db request e key v :
  e = ECourse \/ e = EStudent ->
  key = "user" \/ key = "owner" ->
  create (viewset_of e) fw env (with_data (<[key:=v]> (data request)) request) db
  = create (viewset_of e) fw env request db.
Proof.
  intros [-> | ->] Hkey; unfold create, check_permissions,
    UserAdminPermission.has_permission; simpl.
  - rewrite CourseSerializer_validate_ignores; [done | |]; by destruct Hkey as [-> | ->].
  - rewrite StudentSerializer_validate_ignores; [done | | |];
      by destruct Hkey as [-> | ->].
Qed.

Lemma rest_create_owner fw env db request e u :
  e = ECourse \/ e = EStudent ->
  request_user request = Authenticated u ->
  (create (viewset_of e) fw env request db).1 = Ok (Response HTTP_STATUS_CREATED) ->
  stored_owner e db (uuid4 env) = None
  /\ stored_owner e (create (viewset_of e) fw env request db).2 (uuid4 env)
     = Some (user_pk u).
Proof.
  intros [-> | ->] Hu; unfold create, check_permissions,
    UserAdminPermission.has_permission; simpl; rewrite Hu; simpl; unfold_M; simpl.
  - unfold Course_save_new.
    destruct (CourseSerializer_validate fw (data request) false None)
      as [[t d]|]; [|done]. simpl.
    destruct (courses db !! uuid4 env) eqn:E; simpl; [done|].
    intros _. by rewrite lookup_insert_eq.
  - unfold Student_save_new.
    destruct (StudentSerializer_validate fw env (data request) false None)
      as [[[f l] d]|]; [|done]. simpl.
    destruct (students db !! uuid4 env) eqn:E; simpl; [done|].
    intros _. by rewrite lookup_insert_eq.
Qed.

(** C8.  A REST create of a course or a student that succeeds stores a new
    row whose owner is the authenticated requester; an owner or user field
    in the payload is never read, so the same request with that field
    added or changed has the same outcome. *)
Theorem rest_create_stamps_owner
    (fw : Framework) (env : Env) (db : DB) (request : HttpRequest) (e : Entity)
    (u : User) (key v : string) :
  e = ECourse \/ e = EStudent ->
  request_user request = Authenticated u ->
  key = "user" \/ key = "owner" ->
  (create (viewset_of e) fw env request db).1 = Ok (Response HTTP_STATUS_CREATED) ->
  stored_owner e db (uuid4 env) = None
  /\ stored_owner e (create (viewset_of e) fw env request db).2 (uuid4 env)
     = Some (user_pk u)
  /\ create (viewset_of e) fw env (with_data (<[key:=v]> (data request)) request) db
     = create (viewset_of e) fw env request db.
Proof.
  intros He Hu Hkey Hok.
  destruct (rest_create_owner fw env db request e u He Hu Hok) as [H1 H2].
  split; [done|]. split; [done|]. by apply rest_create_ignores_owner_field.
Qed.

Lemma rest_create_stamps_owner_witness :
  stored_owner ECourse sample_db 50 = None
  /\ stored_owner ECourse
       (create CourseViewSet iso_framework sample_env course_create_request
          sample_db).2 50 = Some 2%N
  /\ create CourseViewSet iso_framework sample_env
       (with_data (<["user":="alice"]> course_payload) course_create_request)
       sample_db
     = create CourseViewSet iso_framework sample_env course_create_request
         sample_db.
Proof.
  apply (rest_create_stamps_owner iso_framework sample_env sample_db
           course_create_request ECourse bob "user" "alice").
  - by left.
  - reflexivity.
  - by left.
  - reflexivity.
Defined.

(** ** The REST permission *)

Lemma has_object_permission_safe request target :
  method request ∈ UserAdminPermission._safe_methods ->
  UserAdminPermission.has_object_permission request target = Ok true.
Proof.
  intros H. unfold UserAdminPermission.has_object_permission.
  by rewrite bool_decide_eq_true_2.
Qed.

(** [retrieve], the action of GET and HEAD, needs authentication only.
    (An OPTIONS request is served by the metadata handler of the REST
    framework, which the actions above do not cover.) *)
Lemma rest_read_needs_authentication_only e request pk db :
  method request = "GET" \/ method request = "HEAD" ->
  is_Some (queryset_lookup (viewset_of e) pk db) ->
  retrieve (viewset_of e) request pk db
  = if is_authenticated (request_user request)
    then (Ok (Response HTTP_STATUS_OK), db)
    else (Raise NotAuthenticated, db).
Proof.
  intros Hm [obj Hobj].
  assert (method request ∈ UserAdminPermission._safe_methods) as Hsafe.
  { unfold UserAdminPermission._safe_methods.
    destruct Hm as [-> | ->]; [left | right; left]. }
  unfold retrieve, get_object, check_permissions, check_object_permissions,
    UserAdminPermission.has_permission. unfold_M.
  destruct (is_authenticated (request_user request)); [|done].
  rewrite Hobj. by rewrite (has_object_permission_safe _ _ Hsafe).
Qed.

(** Without an authenticated user every action is refused before it looks
    at the database: 401 or 403. *)
Lemma rest_unauthenticated_rejected e fw env request partial pk db :
  is_authenticated (request_user request) = false ->
  create (viewset_of e) fw env request db = (Raise NotAuthenticated, db)
  /\ update (viewset_of e) fw env request partial pk db = (Raise NotAuthenticated, db)
  /\ destroy (viewset_of e) request pk db = (Raise NotAuthenticated, db)
  /\ retrieve (viewset_of e) request pk db = (Raise NotAuthenticated, db)
  /\ status_codes (Raise NotAuthenticated) = [401; 403].
Proof.
  intros H.
  unfold create, update, destroy, retrieve, check_permissions,
    UserAdminPermission.has_permission.
  by rewrite H.
Qed.

(** On a course or a student, an update or delete by an authenticated user
    who is neither staff nor the owner is denied with 403. *)
Lemma rest_mutation_by_outsider_denied fw env db request e pk partial u owner :
  e = ECourse \/ e = EStudent ->
  request_user request = Authenticated u -> is_staff u = false ->
  method request ∉ UserAdminPermission._safe_methods ->
  stored_owner e db pk = Some owner -> user_pk u <> owner ->
  update (viewset_of e) fw env request partial pk db = (Raise PermissionDenied, db)
  /\ destroy (viewset_of e) request pk db = (Raise PermissionDenied, db)
  /\ status_codes (Raise PermissionDenied) = [403].
Proof.
  intros He Hu Hs Hm Hown Hne.
  unfold update, destroy, get_object, check_permissions, check_object_permissions,
    UserAdminPermission.has_permission, UserAdminPermission.has_object_permission.
  rewrite Hu, (bool_decide_eq_false_2 _ Hm). simpl. rewrite Hs. unfold_M.
  destruct He as [-> | ->]; simpl in Hown |- *.
  - destruct (courses db !! pk) as [c|]; simplify_eq/=.
    by rewrite bool_decide_eq_false_2.
  - destruct (students db !! pk) as [s|]; simplify_eq/=.
    by rewrite bool_decide_eq_false_2.
Qed.

(** C1 on the code.  [has_object_permission] reads [target_object.user],
    which an enrollment and a review do not have: an update or delete of
    such a row by an authenticated user who is not staff -- the author of
    the review included -- raises [AttributeError], a server error, where
    the claim has a 403. *)
Theorem rest_mutation_without_user_attribute_raises
    (fw : Framework) (env : Env) (db : DB) (request : HttpRequest) (e : Entity)
    (pk : N) (partial : bool) :
  e = ECourseToStudent \/ e = EReview ->
  is_authenticated (request_user request) = true ->
  user_is_staff (request_user request) = false ->
  method request ∉ UserAdminPermission._safe_methods ->
  is_Some (queryset_lookup (viewset_of e) pk db) ->
  update (viewset_of e) fw env request partial pk db = (Raise AttributeError, db)
  /\ destroy (viewset_of e) request pk db = (Raise AttributeError, db)
  /\ status_codes (Raise AttributeError) = [500]
  /\ status_codes (Raise AttributeError) <> [403].
Proof.
  intros He Hauth Hs Hm [obj Hobj].
  unfold update, destroy, get_object, check_permissions, check_object_permissions,
    UserAdminPermission.has_permission, UserAdminPermission.has_object_permission.
  rewrite Hauth, (bool_decide_eq_false_2 _ Hm), Hs. unfold_M.
  destruct He as [-> | ->]; simpl in Hobj |- *.
  - destruct (coursetostudents db !! pk) as [r|]; by simplify_eq/=.
  - destruct (reviews db !! pk) as [r|]; by simplify_eq/=.
Qed.

Lemma rest_mutation_without_user_attribute_raises_witness :
  update ReviewViewSet iso_framework sample_env
    (review_update_request alice) false 40 sample_db
  = (Raise AttributeError, sample_db)
  /\ destroy ReviewViewSet (plain_request "DELETE" bob) 40 sample_db
     = (Raise AttributeError, sample_db)
  /\ destroy CourseToStudentViewSet (plain_request "DELETE" alice) 30 sample_db
     = (Raise AttributeError, sample_db)
  /\ status_codes (Raise AttributeError) = [500].
Proof.
  split; [|split; [|split]].
  - apply (rest_mutation_without_user_attribute_raises iso_framework sample_env
             sample_db (review_update_request alice) EReview 40%N false).
    + by right.
    + reflexivity.
    + reflexivity.
    + apply (bool_decide_eq_false_1
               ("PUT" ∈ UserAdminPermission._safe_methods)). reflexivity.
    + by eexists.
  - apply (rest_mutation_without_user_attribute_raises iso_framework sample_env
             sample_db (plain_request "DELETE" bob) EReview 40%N false).
    + by right.
    + reflexivity.
    + reflexivity.
    + apply (bool_decide_eq_false_1
               ("DELETE" ∈ UserAdminPermission._safe_methods)). reflexivity.
    + by eexists.
  - apply (rest_mutation_without_user_attribute_raises iso_framework sample_env
             sample_db (plain_request "DELETE" alice) ECourseToStudent 30%N false).
    + by left.
    + reflexivity.
    + reflexivity.
    + apply (bool_decide_eq_false_1
               ("DELETE" ∈ UserAdminPermission._safe_methods)). reflexivity.
    + by eexists.
  - reflexivity.
Defined.

(** * Further properties of the views *)

(** ** Enrolling and unenrolling *)

Lemma objects_get_multiple {A} model (P : A -> bool) (t : gmap N A) k1 r1 k2 r2 :
  t !! k1 = Some r1 -> P r1 = true ->
  t !! k2 = Some r2 -> P r2 = true ->
  k1 <> k2 ->
  objects_get model P t = Raise (MultipleObjectsReturned model).
Proof.
  intros H1 Hp1 H2 Hp2 Hne.
  assert ((k1, r1) ∈ objects_filter P t) as Hin1 by by apply elem_of_objects_filter.
  assert ((k2, r2) ∈ objects_filter P t) as Hin2 by by apply elem_of_objects_filter.
  unfold objects_get.
  destruct (objects_filter P t) as [|x [|y l]]; [|exfalso|done].
  - by apply elem_of_nil in Hin1.
  - apply list_elem_of_singleton in Hin1, Hin2. congruence.
Qed.

Lemma not_enrolled_not_violated db pk student_pk course_pk :
  ~ enrolled db student_pk course_pk ->
  unique_together_violated pk (mkCourseToStudent course_pk student_pk) db = false.
Proof.
  intros Hn. apply unique_together_violated_false.
  intros k r' Hk _ Hc Hs. apply Hn. by exists k, r'.
Qed.

Lemma DB_eta db :
  mkDB (courses db) (students db) (coursetostudents db) (reviews db) = db.
Proof. by destruct db. Qed.

Lemma enroll_course_adds_row
    (env : Env) (request : HttpRequest) (db : DB) (u : User)
    (course_id student_pk : N) :
  request_user request = Authenticated u ->
  is_Some (courses db !! course_id) ->
  only_student_of db u student_pk ->
  ~ enrolled db student_pk course_id ->
  coursetostudents db !! uuid4 env = None ->
  enroll_course env request course_id db
  = (Ok (redirect "courses"),
     with_coursetostudents
       (insert (uuid4 env) (mkCourseToStudent course_id student_pk)) db)
  /\ enrolled (enroll_course env request course_id db).2 student_pk course_id.
Proof.
  intros Hu [c Hc] Honly Hnot Hfresh.
  destruct (only_student_objects_get _ _ _ Honly) as [s Hget].
  destruct (not_enrolled_exists _ _ _ Hnot) as [Hchk _].
  destruct Honly as [(s' & Hs' & _) _].
  assert (enroll_course env request course_id db
          = (Ok (redirect "courses"),
             with_coursetostudents
               (insert (uuid4 env) (mkCourseToStudent course_id student_pk)) db))
    as Heq.
  { unfold enroll_course, login_required, Course_objects_get_id, objects_get_id,
      Student_objects_get_user, check_student_in_course,
      CourseToStudent_objects_create, foreign_keys_ok.
    rewrite Hu. simpl. unfold_M. rewrite Hc. simpl. rewrite Hget. simpl.
    rewrite Hchk, Hfresh. simpl. rewrite Hc, Hs'. simpl.
    by rewrite (not_enrolled_not_violated _ _ _ _ Hnot). }
  split; [done|]. rewrite Heq. simpl.
  exists (uuid4 env), (mkCourseToStudent course_id student_pk). simpl.
  by rewrite lookup_insert_eq.
Qed.


Lemma unenroll_course_row request db u course_id student_pk k r :
  request_user request = Authenticated u ->
  is_Some (courses db !! course_id) ->
  only_student_of db u student_pk ->
  coursetostudents db !! k = Some r ->
  cts_student r = student_pk -> cts_course r = course_id ->
  (forall k' r', coursetostudents db !! k' = Some r' ->
                 cts_student r' = student_pk -> cts_course r' = course_id ->
                 k' = k) ->
  unenroll_course request course_id db
  = (Ok (redirect "courses"), with_coursetostudents (delete k) db).
Proof.
  intros Hu [c Hc] Honly Hk Hs Hcr Huniq.
  destruct (only_student_objects_get _ _ _ Honly) as [s Hget].
  assert (objects_get MCourseToStudent (enrolls student_pk course_id)
            (coursetostudents db) = Ok (k, r)) as Hgetc.
  { apply objects_get_unique; [done | by apply enrolls_true |].
    intros k' r' Hk' [? ?]%enrolls_true. eauto. }
  unfold unenroll_course, Course_objects_get_id, objects_get_id,
    Student_objects_get_user, CourseToStudent_objects_get,
    CourseToStudent_delete.
  rewrite Hu. unfold_M. rewrite Hc. simpl. rewrite Hget, Hgetc. done.
Qed.

(** X1.  Enrolling: for an authenticated user with exactly one student row
    who is not yet enrolled in an existing course, [enroll_course] adds
    the one row that links the student to the course, redirects to the
    course list, and the student is then enrolled; a second request to
    enroll is answered with the inline error and adds nothing. *)
Theorem enroll_course_enrolls
    (env env' : Env) (request request' : HttpRequest) (db : DB) (u : User)
    (course_id student_pk : N) :
  request_user request = Authenticated u ->
  request_user request' = Authenticated u ->
  is_Some (courses db !! course_id) ->
  only_student_of db u student_pk ->
  ~ enrolled db student_pk course_id ->
  coursetostudents db !! uuid4 env = None ->
  enroll_course env request course_id db
  = (Ok (redirect "courses"),
     with_coursetostudents
       (insert (uuid4 env) (mkCourseToStudent course_id student_pk)) db)
  /\ enrolled (enroll_course env request course_id db).2 student_pk course_id
  /\ enroll_course env' request' course_id
       (enroll_course env request course_id db).2
     = (Ok (render "courses.html" [("error", CtxStr err_already_enrolled)]),
        (enroll_course env request course_id db).2).
Proof.
  intros Hu Hu' Hc Honly Hnot Hfresh.
  destruct (enroll_course_adds_row env request db u course_id student_pk
              Hu Hc Honly Hnot Hfresh) as [Heq Henr].
  split; [done|]. split; [done|].
  apply (enroll_course_already_enrolled env' request' _ u course_id student_pk);
    try done; by rewrite Heq.
Qed.

Lemma enroll_course_enrolls_witness :
  enroll_course sample_env (plain_request "POST" alice) 11 sample_db
  = (Ok (redirect "courses"),
     with_coursetostudents (insert 50%N (mkCourseToStudent 11 20)) sample_db)
  /\ enrolled (enroll_course sample_env (plain_request "POST" alice) 11
                 sample_db).2 20 11
  /\ enroll_course sample_env (plain_request "GET" alice) 11
       (enroll_course sample_env (plain_request "POST" alice) 11 sample_db).2
     = (Ok (render "courses.html" [("error", CtxStr err_already_enrolled)]),
        (enroll_course sample_env (plain_request "POST" alice) 11 sample_db).2).
Proof.
  apply (enroll_course_enrolls sample_env sample_env (plain_request "POST" alice)
           (plain_request "GET" alice) sample_db alice 11%N 20%N).
  - reflexivity.
  - reflexivity.
  - by eexists.
  - exact alice_only_student.
  - exact alice_not_enrolled_11.
  - reflexivity.
Defined.

(** X2.  Enrolling and then unenrolling is a round trip: after a successful
    [enroll_course], the [unenroll_course] of the same user for the same
    course redirects to the course list and gives back the database as it
    was before the enrollment. *)
Theorem enroll_then_unenroll_round_trip
    (env : Env) (request request' : HttpRequest) (db : DB) (u : User)
    (course_id student_pk : N) :
  request_user request = Authenticated u ->
  request_user request' = Authenticated u ->
  is_Some (courses db !! course_id) ->
  only_student_of db u student_pk ->
  ~ enrolled db student_pk course_id ->
  coursetostudents db !! uuid4 env = None ->
  unenroll_course request' course_id (enroll_course env request course_id db).2
  = (Ok (redirect "courses"), db).
Proof.
  intros Hu Hu' Hc Honly Hnot Hfresh.
  destruct (enroll_course_adds_row env request db u course_id student_pk
              Hu Hc Honly Hnot Hfresh) as [-> _].
  simpl.
  rewrite (unenroll_course_row request' _ u course_id student_pk (uuid4 env)
             (mkCourseToStudent course_id student_pk)); try done.
  - f_equal. unfold with_coursetostudents. simpl.
    rewrite delete_insert_id by done. apply DB_eta.
  - simpl. by rewrite lookup_insert_eq.
  - simpl. intros k' r' [[<- _]|[_ Hk']]%lookup_insert_Some Hs Hcr; [done|].
    destruct Hnot. by exists k', r'.
Qed.

Lemma enroll_then_unenroll_round_trip_witness :
  unenroll_course (plain_request "POST" alice) 11
    (enroll_course sample_env (plain_request "POST" alice) 11 sample_db).2
  = (Ok (redirect "courses"), sample_db).
Proof.
  apply (enroll_then_unenroll_round_trip sample_env (plain_request "POST" alice)
           (plain_request "POST" alice) sample_db alice 11%N 20%N).
  - reflexivity.
  - reflexivity.
  - by eexists.
  - exact alice_only_student.
  - exact alice_not_enrolled_11.
  - reflexivity.
Defined.



Lemma no_student_objects_get db u :
  no_student_of db u ->
  objects_get MStudent (fun s0 => bool_decide (Student_user s0 = user_pk u))
    (students db) = Raise (DoesNotExist MStudent).
Proof.
  intros Hno. apply objects_get_none. intros k s Hk.
  apply bool_decide_eq_false_2. by apply (Hno k s).
Qed.

(** X4.  A user without a student row: [enroll_course] catches the failed
    lookup and renders the inline error, while [unenroll_course], which
    does not catch it, ends in the unhandled [Student.DoesNotExist]; both
    leave the database unchanged. *)
Theorem enrollment_without_student
    (env : Env) (request : HttpRequest) (db : DB) (u : User) (course_id : N) :
  request_user request = Authenticated u ->
  is_Some (courses db !! course_id) ->
  no_student_of db u ->
  enroll_course env request course_id db
  = (Ok (render "create_student.html" [("error", CtxStr err_not_student)]), db)
  /\ unenroll_course request course_id db = (Raise (DoesNotExist MStudent), db)
  /\ server_error (unenroll_course request course_id db).1.
Proof.
  intros Hu [c Hc] Hno%no_student_objects_get.
  unfold enroll_course, unenroll_course, login_required, Course_objects_get_id,
    objects_get_id, Student_objects_get_user, server_error.
  rewrite Hu. simpl. unfold_M. rewrite Hc. simpl. by rewrite Hno.
Qed.

Lemma bob_no_student : no_student_of sample_db bob.
Proof.
  intros k s Hk. simpl in Hk. by apply lookup_singleton_Some in Hk as [_ <-].
Qed.

Lemma enrollment_without_student_witness :
  enroll_course sample_env (plain_request "POST" bob) 10 sample_db
  = (Ok (render "create_student.html" [("error", CtxStr err_not_student)]),
     sample_db)
  /\ unenroll_course (plain_request "POST" bob) 10 sample_db
     = (Raise (DoesNotExist MStudent), sample_db)
  /\ server_error (unenroll_course (plain_request "POST" bob) 10 sample_db).1.
Proof.
  apply (enrollment_without_student sample_env (plain_request "POST" bob)
           sample_db bob 10%N).
  - reflexivity.
  - by eexists.
  - exact bob_no_student.
Defined.

(** ** One student per user *)

Lemma two_students_objects_get db u k1 k2 s1 s2 :
  students db !! k1 = Some s1 -> Student_user s1 = user_pk u ->
  students db !! k2 = Some s2 -> Student_user s2 = user_pk u ->
  k1 <> k2 ->
  objects_get MStudent (fun s0 => bool_decide (Student_user s0 = user_pk u))
    (students db) = Raise (MultipleObjectsReturned MStudent).
Proof.
  intros H1 Hu1 H2 Hu2 Hne.
  apply (objects_get_multiple _ _ _ k1 s1 k2 s2); try done;
    by apply bool_decide_eq_true_2.
Qed.

Lemma rest_student_create_stores fw env request db u f l d :
  request_user request = Authenticated u ->
  StudentSerializer_validate fw env (data request) false None = Ok (f, l, d) ->
  students db !! uuid4 env = None ->
  create StudentViewSet fw env request db
  = (Ok (Response HTTP_STATUS_CREATED),
     with_students
       (insert (uuid4 env) (mkStudent (user_pk u) (Some f) (Some l) d)) db).
Proof.
  intros Hu Hv Hfresh.
  unfold create, check_permissions, UserAdminPermission.has_permission.
  simpl. rewrite Hu. simpl. unfold_M. rewrite Hv. simpl.
  unfold Student_save_new. simpl. by rewrite Hfresh.
Qed.

(** X5.  The REST create of a student has no one-student-per-user check: a
    user who owns a student row gets a second one, with 201.  From then on
    the lookup of "the" student of the user finds two rows, and the
    [enroll_course] and [unenroll_course] of that user end in the unhandled
    [MultipleObjectsReturned]. *)
Theorem rest_create_second_student
    (fw : Framework) (env env' : Env) (request request' : HttpRequest) (db : DB)
    (u : User) (student_pk course_id : N) (f l : string) (d : date) :
  request_user request = Authenticated u ->
  request_user request' = Authenticated u ->
  only_student_of db u student_pk ->
  is_Some (courses db !! course_id) ->
  StudentSerializer_validate fw env (data request) false None = Ok (f, l, d) ->
  students db !! uuid4 env = None ->
  create StudentViewSet fw env request db
  = (Ok (Response HTTP_STATUS_CREATED),
     with_students
       (insert (uuid4 env) (mkStudent (user_pk u) (Some f) (Some l) d)) db)
  /\ ~ one_student_per_user (create StudentViewSet fw env request db).2
  /\ enroll_course env' request' course_id
       (create StudentViewSet fw env request db).2
     = (Raise (MultipleObjectsReturned MStudent),
        (create StudentViewSet fw env request db).2)
  /\ unenroll_course request' course_id
       (create StudentViewSet fw env request db).2
     = (Raise (MultipleObjectsReturned MStudent),
        (create StudentViewSet fw env request db).2).
Proof.
  intros Hu Hu' [(s & Hs & Hsu) _] [c Hc] Hv Hfresh.
  rewrite (rest_student_create_stores fw env request db u f l d) by done.
  assert (student_pk <> uuid4 env) as Hne by congruence.
  remember (with_students
              (insert (uuid4 env) (mkStudent (user_pk u) (Some f) (Some l) d)) db)
    as db' eqn:Hdb'.
  assert (students db' !! student_pk = Some s) as Hs'.
  { rewrite Hdb'. simpl. by rewrite lookup_insert_ne. }
  assert (students db' !! uuid4 env
          = Some (mkStudent (user_pk u) (Some f) (Some l) d)) as Hnew.
  { rewrite Hdb'. simpl. by rewrite lookup_insert_eq. }
  pose proof (two_students_objects_get db' u _ _ _ _ Hs' Hsu Hnew eq_refl Hne)
    as Hget.
  split; [done|]. split.
  { intros Hone. apply Hne. apply (Hone _ _ _ _ Hs' Hnew). by rewrite Hsu. }
  assert (courses db' !! course_id = Some c) as Hc' by by rewrite Hdb'.
  clear Hdb'.
  unfold enroll_course, unenroll_course, login_required, Course_objects_get_id,
    objects_get_id, Student_objects_get_user.
  rewrite Hu'. simpl. unfold_M. rewrite Hc'. simpl. by rewrite Hget.
Qed.

Lemma rest_create_second_student_witness :
  create StudentViewSet iso_framework sample_env (student_create_request alice)
    sample_db
  = (Ok (Response HTTP_STATUS_CREATED),
     with_students
       (insert 50%N (mkStudent 1 (Some "Student 1") (Some "Noskov") 738866))
       sample_db)
  /\ ~ one_student_per_user
        (create StudentViewSet iso_framework sample_env
           (student_create_request alice) sample_db).2
  /\ enroll_course sample_env (plain_request "POST" alice) 11
       (create StudentViewSet iso_framework sample_env
          (student_create_request alice) sample_db).2
     = (Raise (MultipleObjectsReturned MStudent),
        (create StudentViewSet iso_framework sample_env
           (student_create_request alice) sample_db).2)
  /\ unenroll_course (plain_request "POST" alice) 11
       (create StudentViewSet iso_framework sample_env
          (student_create_request alice) sample_db).2
     = (Raise (MultipleObjectsReturned MStudent),
        (create StudentViewSet iso_framework sample_env
           (student_create_request alice) sample_db).2).
Proof.
  apply (rest_create_second_student iso_framework sample_env sample_env
           (student_create_request alice) (plain_request "POST" alice)
           sample_db alice 20%N 11%N "Student 1" "Noskov" 738866).
  - reflexivity.
  - reflexivity.
  - exact alice_only_student.
  - by eexists.
  - reflexivity.
  - reflexivity.
Defined.

Lemma no_student_objects_exists db u :
  no_student_of db u <->
  objects_exists (fun s0 => bool_decide (Student_user s0 = user_pk u))
    (students db) = false.
Proof.
  rewrite objects_exists_false. split.
  - intros Hno k s Hk. apply bool_decide_eq_false_2. by apply (Hno k s).
  - intros H k s Hk. specialize (H k s Hk).
    by apply bool_decide_eq_false in H.
Qed.

Lemma create_student_students fw env request db :
  students (create_student fw env request db).2 = students db
  \/ exists s',
       students (create_student fw env request db).2
       = <[uuid4 env := s']> (students db)
       /\ students db !! uuid4 env = None
       /\ forall k s, students db !! k = Some s -> Student_user s <> Student_user s'.
Proof.
  unfold create_student, login_required, Student_objects_filter_user_exists,
    Student_save_new, assign_user.
  destruct (request_user request) as [|u] eqn:Hu; simpl; [by left|].
  unfold_M. simpl.
  destruct (String.eqb (method request) "POST"); [|by left].
  destruct (objects_exists _ (students db)) eqn:Hex; [by left|].
  apply no_student_objects_exists in Hex.
  destruct (parse_date_of_receipt fw request) as [d|]; [|by left]. simpl.
  destruct (d >? today env); [by left|]. simpl.
  destruct (negb _); [by left|].
  destruct (students db !! uuid4 env) eqn:E; simpl; [by left|].
  right. eexists. split; [done|]. split; [done|]. simpl. apply Hex.
Qed.

Lemma edit_student_students fw env request student_id db :
  students (edit_student fw env request student_id db).2 = students db
  \/ exists s s',
       students db !! student_id = Some s
       /\ Student_user s' = Student_user s
       /\ students (edit_student fw env request student_id db).2
          = <[student_id := s']> (students db).
Proof.
  unfold edit_student, Student_objects_get_id, objects_get_id, Student_save.
  unfold_M.
  destruct (students db !! student_id) as [s|] eqn:E; [|by left]. simpl.
  repeat case_match; simplify_eq/=; try by left.
  right. eexists s, _. split; [done|]. split; [|done]. done.
Qed.

Lemma rest_student_update_students fw env request partial pk db :
  students (update StudentViewSet fw env request partial pk db).2 = students db
  \/ exists s s',
       students db !! pk = Some s
       /\ Student_user s' = Student_user s
       /\ students (update StudentViewSet fw env request partial pk db).2
          = <[pk := s']> (students db).
Proof.
  unfold update, get_object, check_permissions, check_object_permissions.
  simpl. unfold Student_save. unfold_M.
  destruct (UserAdminPermission.has_permission request); [|by left].
  destruct (students db !! pk) as [s|] eqn:E; [|by left]. simpl.
  destruct (UserAdminPermission.has_object_permission request (StudentObject pk s))
    as [[]|]; try by left.
  destruct (StudentSerializer_validate fw env (data request) partial (Some s))
    as [[[f l] d]|]; [|by left].
  simpl. right. eexists s, _. split; [done|]. split; [|done]. done.
Qed.

Lemma one_student_per_user_update db pk s s' :
  one_student_per_user db ->
  students db !! pk = Some s -> Student_user s' = Student_user s ->
  forall k1 k2 s1 s2,
    <[pk := s']> (students db) !! k1 = Some s1 ->
    <[pk := s']> (students db) !! k2 = Some s2 ->
    Student_user s1 = Student_user s2 -> k1 = k2.
Proof.
  intros Hone Hpk Hu k1 k2 s1 s2.
  intros [[<- <-]|[Hn1 H1]]%lookup_insert_Some
         [[<- <-]|[Hn2 H2]]%lookup_insert_Some Heq; try done.
  - apply (Hone _ _ _ _ Hpk H2). congruence.
  - apply (Hone _ _ _ _ H1 Hpk). congruence.
  - by apply (Hone _ _ _ _ H1 H2).
Qed.

(** X6.  One student per user is kept by every view but the REST create of
    a student: if no user owns two student rows before a request, none
    does after it, whatever the request, as long as it is not a REST
    create of a student. *)
Theorem views_keep_one_student_per_user
    (fw : Framework) (env : Env) (request : HttpRequest) (c : view_call) (db : DB) :
  c <> Rest EStudent RestCreate ->
  one_student_per_user db ->
  one_student_per_user (serve fw env request c db).2.
Proof.
  intros Hc Hone k1 k2 s1 s2 H1 H2 Heq.
  pose proof (students_shrink_views fw env request c) as Hshrink.
  destruct c as [| | | | |[]|[] []]; simpl in H1, H2, Hshrink; try done;
    try (apply (Hone k1 k2 s1 s2); [by apply Hshrink | by apply Hshrink | done]).
  - destruct (create_student_students fw env request db)
      as [Hs|(s' & Hs & Hfresh & Hno)]; rewrite Hs in H1, H2.
    + by apply (Hone k1 k2 s1 s2).
    + apply lookup_insert_Some in H1 as [[<- <-]|[Hn1 H1]];
        apply lookup_insert_Some in H2 as [[<- <-]|[Hn2 H2]]; try done.
      * by destruct (Hno _ _ H2).
      * by destruct (Hno _ _ H1).
      * by apply (Hone k1 k2 s1 s2).
  - destruct (edit_student_students fw env request student_id db)
      as [Hs|(s & s' & Hpk & Hu & Hs)]; rewrite Hs in H1, H2.
    + by apply (Hone k1 k2 s1 s2).
    + by apply (one_student_per_user_update db student_id s s' Hone Hpk Hu
                  k1 k2 s1 s2).
  - destruct (rest_student_update_students fw env request partial pk db)
      as [Hs|(s & s' & Hpk & Hu & Hs)]; rewrite Hs in H1, H2.
    + by apply (Hone k1 k2 s1 s2).
    + by apply (one_student_per_user_update db pk s s' Hone Hpk Hu
                  k1 k2 s1 s2).
Qed.

Lemma sample_one_student_per_user : one_student_per_user sample_db.
Proof.
  intros k1 k2 s1 s2 H1 H2 _. simpl in H1, H2.
  apply lookup_singleton_Some in H1 as [<- _].
  by apply lookup_singleton_Some in H2 as [<- _].
Qed.

Lemma views_keep_one_student_per_user_witness :
  one_student_per_user
    (create_student iso_framework sample_env (today_student_request bob)
       sample_db).2.
Proof.
  apply (views_keep_one_student_per_user iso_framework sample_env
           (today_student_request bob) PageCreateStudent sample_db).
  - discriminate.
  - exact sample_one_student_per_user.
Defined.

Lemma create_student_stores fw env request db u d :
  request_user request = Authenticated u ->
  method request = "POST" ->
  no_student_of db u ->
  parse_date_of_receipt fw request = Ok d -> d <= today env ->
  is_Some (POST request !! "first_name") ->
  is_Some (POST request !! "last_name") ->
  students db !! uuid4 env = None ->
  create_student fw env request db
  = (Ok (redirect "students"),
     with_students
       (insert (uuid4 env)
          (mkStudent (user_pk u) (POST request !! "first_name")
             (POST request !! "last_name") d)) db).
Proof.
  intros Hu Hm Hno%no_student_objects_exists Hd Hle [f Hf] [l Hl] Hfresh.
  unfold create_student, login_required, Student_objects_filter_user_exists,
    Student_save_new, Student_not_null.
  rewrite Hu, Hm. simpl. unfold_M. rewrite Hno, Hd. simpl.
  assert ((d >? today env) = false) as -> by lia.
  rewrite Hf, Hl. simpl. by rewrite Hfresh.
Qed.

Lemma create_student_second fw env request db u k s :
  request_user request = Authenticated u ->
  method request = "POST" ->
  students db !! k = Some s -> Student_user s = user_pk u ->
  create_student fw env request db
  = (Ok (render "create_student.html" [("error", CtxStr err_student_exists)]), db).
Proof.
  intros Hu Hm Hk Hs.
  unfold create_student, login_required, Student_objects_filter_user_exists.
  rewrite Hu, Hm. simpl. unfold_M.
  assert (objects_exists (fun s0 => bool_decide (Student_user s0 = user_pk u))
            (students db) = true) as ->; [|done].
  apply objects_exists_true. exists k, s. by rewrite bool_decide_eq_true_2.
Qed.

(** X7.  Creating a student: a POST to [create_student] by an authenticated
    user who owns no student row, with both names and a date that parses and
    is not after today, stores one new row owned by the requester and
    redirects to the student list.  The new row is then the only student of
    the user, and a second POST is answered with the inline error and stores
    nothing. *)
Theorem create_student_creates
    (fw : Framework) (env env' : Env) (request request' : HttpRequest) (db : DB)
    (u : User) (d : date) :
  request_user request = Authenticated u ->
  request_user request' = Authenticated u ->
  method request = "POST" -> method request' = "POST" ->
  no_student_of db u ->
  parse_date_of_receipt fw request = Ok d -> d <= today env ->
  is_Some (POST request !! "first_name") ->
  is_Some (POST request !! "last_name") ->
  students db !! uuid4 env = None ->
  create_student fw env request db
  = (Ok (redirect "students"),
     with_students
       (insert (uuid4 env)
          (mkStudent (user_pk u) (POST request !! "first_name")
             (POST request !! "last_name") d)) db)
  /\ only_student_of (create_student fw env request db).2 u (uuid4 env)
  /\ create_student fw env' request' (create_student fw env request db).2
     = (Ok (render "create_student.html" [("error", CtxStr err_student_exists)]),
        (create_student fw env request db).2).
Proof.
  intros Hu Hu' Hm Hm' Hno Hd Hle Hf Hl Hfresh.
  rewrite (create_student_stores fw env request db u d) by done.
  split; [done|]. simpl. split.
  - split.
    + eexists. simpl. by rewrite lookup_insert_eq.
    + simpl. intros k s' [[<- _]|[_ Hk]]%lookup_insert_Some Hs'; [done|].
      by destruct (Hno k s').
  - apply (create_student_second fw env' request' _ u (uuid4 env)
             (mkStudent (user_pk u) (POST request !! "first_name")
                (POST request !! "last_name") d)); try done.
    simpl. by rewrite lookup_insert_eq.
Qed.

Lemma create_student_creates_witness :
  create_student iso_framework sample_env (today_student_request bob) sample_db
  = (Ok (redirect "students"),
     with_students
       (insert 50%N (mkStudent 2 (Some "Test") (Some "Student") 739007))
       sample_db)
  /\ only_student_of
       (create_student iso_framework sample_env (today_student_request bob)
          sample_db).2 bob 50
  /\ create_student iso_framework sample_env (today_student_request bob)
       (create_student iso_framework sample_env (today_student_request bob)
          sample_db).2
     = (Ok (render "create_student.html" [("error", CtxStr err_student_exists)]),
        (create_student iso_framework sample_env (today_student_request bob)
           sample_db).2).
Proof.
  apply (create_student_creates iso_framework sample_env sample_env
           (today_student_request bob) (today_student_request bob) sample_db
           bob 739007).
  - reflexivity.
  - reflexivity.
  - reflexivity.
  - reflexivity.
  - exact bob_no_student.
  - reflexivity.
  - discriminate.
  - by eexists.
  - by eexists.
  - reflexivity.
Defined.

(** ** Creating a course *)

(** X8.  [create_course]: a request without an authenticated user is sent
    to the login page; a request that is not a POST gets the empty form; a
    POST with title and description stores a new course owned by the
    requester and redirects to the course list; a POST that lacks one of
    them reaches [save()] with a null column and ends in the unhandled
    [IntegrityError].  Only the successful POST changes the database. *)
Theorem create_course_outcomes (env : Env) (request : HttpRequest) (db : DB) :
  (is_authenticated (request_user request) = false ->
   create_course env request db
   = (Ok (redirect_to_login (Some "login")), db))
  /\ (is_authenticated (request_user request) = true ->
      method request <> "POST" ->
      create_course env request db = (Ok (render "create_course.html" []), db))
  /\ (forall u,
        request_user request = Authenticated u ->
        method request = "POST" ->
        is_Some (POST request !! "title") ->
        is_Some (POST request !! "description") ->
        courses db !! uuid4 env = None ->
        create_course env request db
        = (Ok (redirect "courses"),
           with_courses
             (insert (uuid4 env)
                (mkCourse (user_pk u) (POST request !! "title")
                   (POST request !! "description"))) db))
  /\ (is_authenticated (request_user request) = true ->
      method request = "POST" ->
      POST request !! "title" = None \/ POST request !! "description" = None ->
      create_course env request db = (Raise IntegrityError, db)).
Proof.
  unfold create_course, login_required, Course_save_new, Course_not_null,
    assign_user.
  split; [by intros ->|]. split.
  { intros -> Hm%String.eqb_neq. by rewrite Hm. }
  split.
  { intros u -> -> [t Ht] [d Hd] Hfresh. simpl. unfold_M. simpl.
    rewrite Ht, Hd. simpl. by rewrite Hfresh. }
  intros Hauth -> Hmiss. rewrite Hauth. simpl.
  destruct (request_user request) as [|u]; [done|]. unfold_M. simpl.
  destruct Hmiss as [-> | ->]; simpl; [done|].
  by rewrite andb_false_r.
Qed.

Lemma create_course_outcomes_witness :
  create_course sample_env (mkRequest "POST" AnonymousUser ∅ ∅) sample_db
  = (Ok (redirect_to_login (Some "login")), sample_db)
  /\ create_course sample_env (plain_request "GET" bob) sample_db
     = (Ok (render "create_course.html" []), sample_db)
  /\ create_course sample_env
       (mkRequest "POST" (Authenticated bob)
          (course_form "Test Course" "This is a test course.") ∅) sample_db
     = (Ok (redirect "courses"),
        with_courses
          (insert 50%N (mkCourse 2 (Some "Test Course")
                          (Some "This is a test course."))) sample_db)
  /\ create_course sample_env (plain_request "POST" bob) sample_db
     = (Raise IntegrityError, sample_db).
Proof.
  split; [|split; [|split]].
  - destruct (create_course_outcomes sample_env
                (mkRequest "POST" AnonymousUser ∅ ∅) sample_db) as (H & _).
    by apply H.
  - destruct (create_course_outcomes sample_env (plain_request "GET" bob)
                sample_db) as (_ & H & _).
    apply H; [reflexivity | discriminate].
  - destruct (create_course_outcomes sample_env
                (mkRequest "POST" (Authenticated bob)
                   (course_form "Test Course" "This is a test course.") ∅)
                sample_db) as (_ & _ & H & _).
    apply (H bob);
      [reflexivity | reflexivity | by eexists | by eexists | reflexivity].
  - destruct (create_course_outcomes sample_env (plain_request "POST" bob)
                sample_db) as (_ & _ & _ & H).
    apply H; [reflexivity | reflexivity | by left].
Defined.

(** ** Creating a review *)



(** A review text of 84 Cyrillic characters is within the bound of 100
    characters, though it takes 157 bytes: the form is valid and the review
    is stored. *)
Lemma create_review_stores_cyrillic_text :
  len cyrillic_review_text = 84
  /\ String.length cyrillic_review_text = 157%nat
  /\ create_review iso_framework sample_env
       (review_form_request alice cyrillic_review_text "5") 11 sample_db
     = (Ok (redirect "main"),
        with_reviews
          (insert 50%N (mkReview 11 20 (Some cyrillic_review_text) 5))
          sample_db).
Proof. split; [reflexivity|]. split; reflexivity. Qed.

(** ** Rows that are not there *)

(** X10.  A page mutation for a key that is not in the table: the five
    handlers that look the row up with [objects.get] end in the unhandled
    [DoesNotExist] (a server error), [delete_review], which uses
    [get_object_or_404], answers 404; the database is unchanged, whoever
    asks and whatever the method. *)
Theorem page_mutation_missing_row
    (fw : Framework) (env : Env) (request : HttpRequest) (db : DB)
    (m : page_mutation) :
  target_row_missing db m ->
  run_page_mutation fw env request m db = (Raise (missing_row_exn m), db)
  /\ status_codes (Raise (missing_row_exn m))
     = [match m with DeleteReview _ => 404 | _ => 500 end].
Proof.
  intros Hmiss.
  destruct m as [pk|pk|pk|pk|pk|pk]; simpl in Hmiss |- *;
    unfold edit_student, delete_student, edit_course, delete_course, edit_review,
      delete_review, Student_objects_get_id, Course_objects_get_id,
      Review_objects_get_id, objects_get_id, get_object_or_404;
    unfold_M; by rewrite Hmiss.
Qed.

Lemma page_mutation_missing_row_witness :
  (edit_course (plain_request "GET" alice) 12 sample_db
   = (Raise (DoesNotExist MCourse), sample_db)
   /\ status_codes (Raise (DoesNotExist MCourse)) = [500])
  /\ (delete_review (plain_request "GET" alice) 41 sample_db
      = (Raise Http404, sample_db)
      /\ status_codes (Raise Http404) = [404]).
Proof.
  split.
  - apply (page_mutation_missing_row iso_framework sample_env
             (plain_request "GET" alice) sample_db (EditCourse 12)).
    reflexivity.
  - apply (page_mutation_missing_row iso_framework sample_env
             (plain_request "GET" alice) sample_db (DeleteReview 41)).
    reflexivity.
Defined.

(** ** References between the tables *)

Lemma is_Some_insert {A} (t : gmap N A) pk x j :
  is_Some (t !! j) -> is_Some (<[pk:=x]> t !! j).
Proof. intros H. apply lookup_insert_is_Some'. by right. Qed.

Lemma foreign_keys_ok_true course_pk student_pk db :
  foreign_keys_ok course_pk student_pk db = true ->
  is_Some (courses db !! course_pk) /\ is_Some (students db !! student_pk).
Proof.
  unfold foreign_keys_ok. intros [H1 H2]%andb_true_iff.
  by apply bool_decide_eq_true_1 in H1, H2.
Qed.

Lemma run_call_referential_integrity c db :
  referential_integrity db -> referential_integrity (run_call c db).2.
Proof.
  intros [Hcts Hrev].
  destruct c; simpl;
    unfold Course_save_new, Course_save, Course_delete, Student_save_new,
      Student_save, Student_delete, CourseToStudent_objects_create,
      CourseToStudent_save, CourseToStudent_delete, Review_save_new,
      Review_save, Review_delete;
    repeat case_match; simpl; try done;
    (split; simpl; intros k0 r0 Hk0).
  (* a course is written *)
  1-4: try (destruct (Hcts k0 r0 Hk0); split; [by apply is_Some_insert | done]).
  1-4: try (destruct (Hrev k0 r0 Hk0); split; [by apply is_Some_insert | done]).
  (* a course is deleted *)
  - apply map_lookup_filter_Some in Hk0 as [Hk0 Hne]. simpl in Hne.
    destruct (Hcts k0 r0 Hk0). split; [|done]. by rewrite lookup_delete_ne.
  - apply map_lookup_filter_Some in Hk0 as [Hk0 Hne]. simpl in Hne.
    destruct (Hrev k0 r0 Hk0). split; [|done]. by rewrite lookup_delete_ne.
  (* a student is written *)
  - destruct (Hcts k0 r0 Hk0); split; [done | by apply is_Some_insert].
  - destruct (Hrev k0 r0 Hk0); split; [done | by apply is_Some_insert].
  - destruct (Hcts k0 r0 Hk0); split; [done | by apply is_Some_insert].
  - destruct (Hrev k0 r0 Hk0); split; [done | by apply is_Some_insert].
  (* a student is deleted *)
  - apply map_lookup_filter_Some in Hk0 as [Hk0 Hne]. simpl in Hne.
    destruct (Hcts k0 r0 Hk0). split; [done|]. by rewrite lookup_delete_ne.
  - apply map_lookup_filter_Some in Hk0 as [Hk0 Hne]. simpl in Hne.
    destruct (Hrev k0 r0 Hk0). split; [done|]. by rewrite lookup_delete_ne.
  (* an enrollment is written *)
  - apply lookup_insert_Some in Hk0 as [[_ <-]|[_ Hk0]]; [|by eauto].
    apply foreign_keys_ok_true. by destruct (foreign_keys_ok _ _ db).
  - by eauto.
  - apply lookup_insert_Some in Hk0 as [[_ <-]|[_ Hk0]]; [|by eauto].
    apply foreign_keys_ok_true. by destruct (foreign_keys_ok _ _ db).
  - by eauto.
  (* an enrollment is deleted *)
  - apply lookup_delete_Some in Hk0 as [_ Hk0]. by eauto.
  - by eauto.
  (* a review is written *)
  - by eauto.
  - apply lookup_insert_Some in Hk0 as [[_ <-]|[_ Hk0]]; [|by eauto].
    apply foreign_keys_ok_true. by destruct (foreign_keys_ok _ _ db).
  - by eauto.
  - apply lookup_insert_Some in Hk0 as [[_ <-]|[_ Hk0]]; [|by eauto].
    apply foreign_keys_ok_true. by destruct (foreign_keys_ok _ _ db).
  (* a review is deleted *)
  - by eauto.
  - apply lookup_delete_Some in Hk0 as [_ Hk0]. by eauto.
Qed.

(** X11.  Referential integrity: in every database the ORM calls of the
    views can build, each enrollment and each review points to a course and
    to a student that exist, so the owner of a review -- the user of its
    student, which [edit_review] and [delete_review] read -- is always
    there. *)
Theorem reachable_referential_integrity (db : DB) :
  reachable db ->
  referential_integrity db
  /\ (forall pk, is_Some (reviews db !! pk) ->
                 is_Some (row_owner db (DeleteReview pk))).
Proof.
  intros Hr.
  assert (referential_integrity db) as Hri.
  { induction Hr as [|db c _ IH].
    - split; intros k r Hk; simpl in Hk; by rewrite lookup_empty in Hk.
    - by apply run_call_referential_integrity. }
  split; [done|]. intros pk [r Hr']. simpl. rewrite Hr'. simpl.
  destruct Hri as [_ Hrev]. destruct (Hrev pk r Hr') as [_ [s Hs]].
  rewrite Hs. by eexists.
Qed.

Lemma reachable_referential_integrity_witness :
  referential_integrity sample_db
  /\ (forall pk, is_Some (reviews sample_db !! pk) ->
                 is_Some (row_owner sample_db (DeleteReview pk))).
Proof. exact (reachable_referential_integrity sample_db sample_db_reachable). Defined.

(** ** Deleting a course or a student *)

Lemma delete_course_permitted request db course_id c :
  courses db !! course_id = Some c ->
  owner_or_staff request (Course_user c) = true ->
  delete_course request course_id db
  = (Ok (redirect "courses"), (Course_delete course_id db).2).
Proof.
  intros Hc Hperm.
  unfold delete_course, Course_objects_get_id, objects_get_id. unfold_M.
  rewrite Hc. simpl. by rewrite Hperm.
Qed.

Lemma delete_student_permitted request db student_id s :
  students db !! student_id = Some s ->
  owner_or_staff request (Student_user s) = true ->
  delete_student request student_id db
  = (Ok (redirect "students"), (Student_delete student_id db).2).
Proof.
  intros Hs Hperm.
  unfold delete_student, Student_objects_get_id, objects_get_id. unfold_M.
  rewrite Hs. simpl. by rewrite Hperm.
Qed.

(** X12.  Deleting cascades, and no further: the [delete_course] of the
    owner or of a staff user removes the course, the enrollments in it and
    the reviews of it -- those of other users' students included -- and
    leaves every other course, every student and every other enrollment and
    review as they were; [delete_student] does the same for a student. *)
Theorem delete_cascades_exactly (request : HttpRequest) (db : DB) (pk : N) :
  (forall c,
      courses db !! pk = Some c ->
      owner_or_staff request (Course_user c) = true ->
      courses (delete_course request pk db).2 = delete pk (courses db)
      /\ students (delete_course request pk db).2 = students db
      /\ (forall k r,
            coursetostudents (delete_course request pk db).2 !! k = Some r
            <-> coursetostudents db !! k = Some r /\ cts_course r <> pk)
      /\ (forall k r,
            reviews (delete_course request pk db).2 !! k = Some r
            <-> reviews db !! k = Some r /\ review_course r <> pk))
  /\ (forall s,
        students db !! pk = Some s ->
        owner_or_staff request (Student_user s) = true ->
        students (delete_student request pk db).2 = delete pk (students db)
        /\ courses (delete_student request pk db).2 = courses db
        /\ (forall k r,
              coursetostudents (delete_student request pk db).2 !! k = Some r
              <-> coursetostudents db !! k = Some r /\ cts_student r <> pk)
        /\ (forall k r,
              reviews (delete_student request pk db).2 !! k = Some r
              <-> reviews db !! k = Some r /\ review_student r <> pk)).
Proof.
  split.
  - intros c Hc Hperm. rewrite (delete_course_permitted _ _ _ _ Hc Hperm). simpl.
    split; [done|]. split; [done|].
    split; intros k r; rewrite map_lookup_filter_Some; simpl; tauto.
  - intros s Hs Hperm. rewrite (delete_student_permitted _ _ _ _ Hs Hperm). simpl.
    split; [done|]. split; [done|].
    split; intros k r; rewrite map_lookup_filter_Some; simpl; tauto.
Qed.

Lemma delete_cascades_exactly_witness :
  courses (delete_course (plain_request "GET" admin) 10 sample_db).2
  = delete 10%N (courses sample_db)
  /\ students (delete_course (plain_request "GET" admin) 10 sample_db).2
     = students sample_db
  /\ (forall k r,
        coursetostudents (delete_course (plain_request "GET" admin) 10
                            sample_db).2 !! k = Some r
        <-> coursetostudents sample_db !! k = Some r /\ cts_course r <> 10%N)
  /\ (forall k r,
        reviews (delete_course (plain_request "GET" admin) 10 sample_db).2 !! k
        = Some r
        <-> reviews sample_db !! k = Some r /\ review_course r <> 10%N).
Proof.
  destruct (delete_cascades_exactly (plain_request "GET" admin) sample_db 10%N)
    as [H _].
  apply (H (mkCourse 1 (Some "Course10") (Some "course10"))); reflexivity.
Defined.

(** ** The owner's own rows *)

Lemma page_mutation_permitted fw env db request m owner :
  row_owner db m = Some owner ->
  owner_or_staff request owner = true ->
  well_formed fw env request db m ->
  (run_page_mutation fw env request m db).1 = Ok (redirect (success_page m))
  /\ applied fw request db (run_page_mutation fw env request m db).2 m.
Proof.
  intros Hown Hperm Hwf.
  destruct m as [pk|pk|pk|pk|pk|pk]; simpl in Hown, Hwf |- *.
  - destruct (students db !! pk) as [s|] eqn:E; simplify_eq/=.
    destruct Hwf as (Hm & [f Hf] & [l Hl] & d & Hd & Hle).
    unfold edit_student, Student_objects_get_id, objects_get_id, Student_save,
      Student_not_null. unfold_M.
    rewrite E. simpl. rewrite Hm, Hperm, Hd. simpl.
    assert ((d >? today env) = false) as -> by lia.
    rewrite Hf, Hl. simpl. split; [done|].
    exists s, d. by rewrite lookup_insert_eq.
  - destruct (students db !! pk) as [s|] eqn:E; simplify_eq/=.
    unfold delete_student, Student_objects_get_id, objects_get_id, Student_delete.
    unfold_M. rewrite E. simpl. rewrite Hperm. simpl.
    split; [done | apply lookup_delete_eq].
  - destruct (courses db !! pk) as [c|] eqn:E; simplify_eq/=.
    destruct Hwf as (Hm & [t Ht] & [d Hd]).
    unfold edit_course, Course_objects_get_id, objects_get_id, Course_save,
      Course_not_null. unfold_M.
    rewrite E. simpl. rewrite Hm, Hperm. simpl.
    rewrite Ht, Hd. simpl. split; [done|].
    exists c. by rewrite lookup_insert_eq.
  - destruct (courses db !! pk) as [c|] eqn:E; simplify_eq/=.
    unfold delete_course, Course_objects_get_id, objects_get_id, Course_delete.
    unfold_M. rewrite E. simpl. rewrite Hperm. simpl.
    split; [done | apply lookup_delete_eq].
  - apply row_owner_review in Hown as (r & s & Hr & Hst & <-).
    destruct Hwf as (Hm & Hvalid & r' & Hr' & [c Hc]).
    assert (r' = r) as -> by congruence.
    unfold ReviewForm_is_valid in Hvalid.
    destruct (ReviewForm_clean fw (POST request)) as [[text g]|] eqn:Hclean; [|done].
    unfold edit_review, Review_objects_get_id, Student_objects_get_id,
      objects_get_id, Review_save, foreign_keys_ok. unfold_M.
    rewrite Hr. simpl. rewrite Hm. simpl. rewrite Hst. simpl.
    rewrite Hperm, Hclean. simpl.
    rewrite Hc, Hst. simpl. split; [done|].
    exists r, text, g. by rewrite lookup_insert_eq.
  - apply row_owner_review in Hown as (r & s & Hr & Hst & <-).
    unfold delete_review, get_object_or_404, Student_objects_get_id,
      objects_get_id, Review_delete. unfold_M.
    rewrite Hr. simpl. rewrite Hst. simpl. rewrite Hperm. simpl.
    split; [done | apply lookup_delete_eq].
Qed.

(** X13.  The owner's own rows: an edit of a course, a student or a review
    posted by the owner of the row, who need not be staff, with a form that
    can be saved, is carried out and redirects to the list page; the edit
    keeps the key and the owner of the row (and, for a review, its course
    and student) and replaces the other fields by those of the form. *)
Theorem page_edit_by_owner
    (fw : Framework) (env : Env) (db : DB) (m : page_mutation)
    (request : HttpRequest) (u : User) :
  is_edit m = true ->
  row_owner db m = Some (user_pk u) ->
  request_user request = Authenticated u ->
  well_formed fw env request db m ->
  (run_page_mutation fw env request m db).1 = Ok (redirect (success_page m))
  /\ applied fw request db (run_page_mutation fw env request m db).2 m
  /\ row_owner (run_page_mutation fw env request m db).2 m = Some (user_pk u).
Proof.
  intros Hedit Hown Hu Hwf.
  assert (owner_or_staff request (user_pk u) = true) as Hperm.
  { unfold owner_or_staff. rewrite Hu. simpl. by rewrite bool_decide_eq_true_2. }
  destruct (page_mutation_permitted fw env db request m _ Hown Hperm Hwf)
    as [Hresp Happ].
  split; [done|]. split; [done|].
  destruct m as [pk|pk|pk|pk|pk|pk]; try done; simpl in Happ, Hown |- *.
  - destruct Happ as (s & d & Hs & _ & ->). rewrite Hs in Hown.
    simpl in Hown |- *. congruence.
  - destruct Happ as (c & Hc & ->). rewrite Hc in Hown.
    simpl in Hown |- *. congruence.
  - destruct Happ as (r & text & g & Hr & _ & Hr'). rewrite Hr'. simpl.
    rewrite Hr in Hown. simpl in Hown.
    assert (students (edit_review fw request pk db).2 = students db) as ->; [|done].
    unfold edit_review, Review_objects_get_id, Student_objects_get_id,
      objects_get_id, Review_save. unfold_M.
    repeat case_match; simplify_eq/=; done.
Qed.

Lemma page_edit_by_owner_witness :
  (edit_review iso_framework (review_form_request alice "New review!" "4") 40
     sample_db).1 = Ok (redirect "courses")
  /\ applied iso_framework (review_form_request alice "New review!" "4")
       sample_db
       (edit_review iso_framework (review_form_request alice "New review!" "4")
          40 sample_db).2 (EditReview 40)
  /\ row_owner
       (edit_review iso_framework (review_form_request alice "New review!" "4")
          40 sample_db).2 (EditReview 40) = Some 1%N.
Proof.
  apply (page_edit_by_owner iso_framework sample_env sample_db (EditReview 40)
           (review_form_request alice "New review!" "4") alice).
  - reflexivity.
  - reflexivity.
  - reflexivity.
  - simpl. split; [reflexivity|]. split; [reflexivity|].
    eexists. split; [reflexivity|]. by eexists.
Defined.

(** ** Requests that write nothing *)

Ltac unfold_views :=
  unfold create_student, edit_student, delete_student, create_course,
    edit_course, delete_course, create_review, create_review_page, edit_review,
    delete_review, enroll_course, unenroll_course, login_required,
    Student_objects_get_id, Course_objects_get_id, Review_objects_get_id,
    CourseToStudent_objects_get, check_student_in_course,
    Student_objects_get_user, Student_objects_filter_user_exists,
    objects_get_id, get_object_or_404,
    list_action, retrieve, create, update, destroy, get_object,
    check_permissions, check_object_permissions,
    Course_save_new, Course_save, Course_delete, Student_save_new,
    Student_save, Student_delete, CourseToStudent_objects_create,
    CourseToStudent_save, CourseToStudent_delete, Review_save_new,
    Review_save, Review_delete, try_except_return in *.

Lemma page_failure_writes_nothing fw env request c db :
  (forall e a, c <> Rest e a) ->
  is_success (serve fw env request c db).1 = false ->
  (serve fw env request c db).2 = db.
Proof.
  intros Hpage.
  destruct c as [| | | | |[]|e a]; [..|by destruct (Hpage e a)]; simpl;
    unfold_views; unfold_M; simpl;
    repeat case_match; simplify_eq/=; done.
Qed.

Lemma rest_failure_writes_nothing fw env request e a db :
  is_success (serve fw env request (Rest e a) db).1 = false ->
  (serve fw env request (Rest e a) db).2 = db.
Proof.
  destruct e, a; simpl; unfold_views; simpl; unfold_views; unfold_M; simpl;
    repeat case_match; simplify_eq/=; done.
Qed.

(** X14.  A request that fails leaves nothing behind: whatever the view --
    a page handler or a REST action -- the database changes only when the
    answer is the redirect of a page handler or the response of a REST
    action; a page rendered with an error, a redirect to the login page and
    every exception come with the database as it was. *)
Theorem failed_requests_write_nothing
    (fw : Framework) (env : Env) (request : HttpRequest) (c : view_call) (db : DB) :
  is_success (serve fw env request c db).1 = false ->
  (serve fw env request c db).2 = db.
Proof.
  destruct c as [| | | | |m|e a].
  7: apply rest_failure_writes_nothing.
  all: by apply page_failure_writes_nothing.
Qed.

Lemma failed_requests_write_nothing_witness :
  (create ReviewViewSet iso_framework sample_env
     (mkRequest "POST" (Authenticated bob) ∅
        {[ "course" := "10"; "student" := "20"; "grade" := "5" ]})
     sample_db).2 = sample_db.
Proof.
  apply (failed_requests_write_nothing iso_framework sample_env
           (mkRequest "POST" (Authenticated bob) ∅
              {[ "course" := "10"; "student" := "20"; "grade" := "5" ]})
           (Rest EReview RestCreate) sample_db).
  reflexivity.
Defined.

(** X15.  The pages with a form write on POST only: a request with any
    other method to [create_student], [create_course], [create_review],
    [edit_student], [edit_course] or [edit_review] leaves the database
    unchanged, whoever sends it. *)
Theorem form_pages_write_on_post_only
    (fw : Framework) (env : Env) (request : HttpRequest) (c : view_call) (db : DB) :
  is_form_page c = true ->
  method request <> "POST" ->
  (serve fw env request c db).2 = db.
Proof.
  intros Hform Hm%String.eqb_neq.
  destruct c as [| | | | |[]|e a]; try done; simpl;
    unfold_views; unfold_M; simpl; rewrite ?Hm, ?andb_false_r;
    repeat case_match; simplify_eq/=; done.
Qed.

Lemma form_pages_write_on_post_only_witness :
  (edit_course (mkRequest "GET" (Authenticated alice)
                  (course_form "New Course" "This is a new course.") ∅) 10
     sample_db).2 = sample_db.
Proof.
  apply (form_pages_write_on_post_only iso_framework sample_env
           (mkRequest "GET" (Authenticated alice)
              (course_form "New Course" "This is a new course.") ∅)
           (PageMutation (EditCourse 10)) sample_db).
  - reflexivity.
  - discriminate.
Defined.

(** ** What a request can do to the courses and the students *)

Lemma fresh_key {A} (t : gmap N A) pk :
  bool_decide (is_Some (t !! pk)) = false -> t !! pk = None.
Proof. intros H%bool_decide_eq_false. by apply eq_None_not_Some. Qed.

Ltac solve_table_change :=
  first
    [ by left
    | right; right; by eexists
    | right; left; eexists _, _; split; [reflexivity|];
      first [ left; by apply fresh_key
            | right; eexists; split; [eassumption|]; reflexivity ] ].

Lemma serve_courses_change fw env request c db :
  courses (serve fw env request c db).2 = courses db
  \/ (exists pk row',
        courses (serve fw env request c db).2 = <[pk:=row']> (courses db)
        /\ (courses db !! pk = None
            \/ exists row, courses db !! pk = Some row
                           /\ Course_user row' = Course_user row))
  \/ (exists pk, courses (serve fw env request c db).2 = delete pk (courses db)).
Proof.
  destruct c as [| | | | |[]|[] []]; simpl;
    unfold_views; simpl; unfold_views; unfold_M; simpl;
    repeat case_match; simplify_eq/=;
    repeat match goal with
           | H : _ <$> _ = Some _ |- _ => apply fmap_Some in H as (? & ? & ?)
           end;
    simplify_eq/=; solve_table_change.
Qed.

Lemma serve_students_change fw env request c db :
  students (serve fw env request c db).2 = students db
  \/ (exists pk row',
        students (serve fw env request c db).2 = <[pk:=row']> (students db)
        /\ (students db !! pk = None
            \/ exists row, students db !! pk = Some row
                           /\ Student_user row' = Student_user row))
  \/ (exists pk, students (serve fw env request c db).2 = delete pk (students db)).
Proof.
  destruct c as [| | | | |[]|[] []]; simpl;
    unfold_views; simpl; unfold_views; unfold_M; simpl;
    repeat case_match; simplify_eq/=;
    repeat match goal with
           | H : _ <$> _ = Some _ |- _ => apply fmap_Some in H as (? & ? & ?)
           end;
    simplify_eq/=; solve_table_change.
Qed.


(** X16.  What one request can do to the courses and to the students: it
    changes at most one course row and at most one student row, and it
    never changes the owner of a row that is already there -- no page
    handler and no REST action, for a staff user either. *)
Theorem request_changes_one_row_and_no_owner
    (fw : Framework) (env : Env) (request : HttpRequest) (c : view_call) (db : DB) :
  (exists pk, forall k, k <> pk ->
                courses (serve fw env request c db).2 !! k = courses db !! k)
  /\ (forall k row row',
        courses db !! k = Some row ->
        courses (serve fw env request c db).2 !! k = Some row' ->
        Course_user row' = Course_user row)
  /\ (exists pk, forall k, k <> pk ->
                   students (serve fw env request c db).2 !! k = students db !! k)
  /\ (forall k row row',
        students db !! k = Some row ->
        students (serve fw env request c db).2 !! k = Some row' ->
        Student_user row' = Student_user row).
Proof.
  split; [|split; [|split]].
  - destruct (serve_courses_change fw env request c db)
      as [->|[(pk & row' & -> & _)|(pk & ->)]].
    + by exists 0%N.
    + exists pk. intros k Hk. by rewrite lookup_insert_ne.
    + exists pk. intros k Hk. by rewrite lookup_delete_ne.
  - intros k row row' Hk.
    destruct (serve_courses_change fw env request c db)
      as [->|[(pk & r' & -> & Hpk)|(pk & ->)]].
    + congruence.
    + intros [[<- <-]|[_ Hk']]%lookup_insert_Some; [|congruence].
      destruct Hpk as [Hnone|(r0 & Hr0 & Hu)]; congruence.
    + intros [_ Hk']%lookup_delete_Some. congruence.
  - destruct (serve_students_change fw env request c db)
      as [->|[(pk & row' & -> & _)|(pk & ->)]].
    + by exists 0%N.
    + exists pk. intros k Hk. by rewrite lookup_insert_ne.
    + exists pk. intros k Hk. by rewrite lookup_delete_ne.
  - intros k row row' Hk.
    destruct (serve_students_change fw env request c db)
      as [->|[(pk & r' & -> & Hpk)|(pk & ->)]].
    + congruence.
    + intros [[<- <-]|[_ Hk']]%lookup_insert_Some; [|congruence].
      destruct Hpk as [Hnone|(r0 & Hr0 & Hu)]; congruence.
    + intros [_ Hk']%lookup_delete_Some. congruence.
Qed.

Lemma request_changes_one_row_and_no_owner_witness :
  Course_user (mkCourse 1 (Some "New Course") (Some "This is a new course."))
  = Course_user (mkCourse 1 (Some "Course10") (Some "course10")).
Proof.
  destruct (request_changes_one_row_and_no_owner iso_framework sample_env
              (mkRequest "POST" (Authenticated admin)
                 (course_form "New Course" "This is a new course.") ∅)
              (PageMutation (EditCourse 10)) sample_db) as (_ & H & _).
  apply (H 10%N); reflexivity.
Defined.

(** ** REST update, destroy and lookup *)

Lemma has_object_permission_owner_or_staff request u target owner :
  request_user request = Authenticated u ->
  getattr_user target = Ok owner ->
  is_staff u = true \/ user_pk u = owner ->
  UserAdminPermission.has_object_permission request target = Ok true.
Proof.
  intros Hu Hown Hperm. unfold UserAdminPermission.has_object_permission.
  rewrite Hu, Hown. simpl.
  destruct (bool_decide _); [done|].
  destruct Hperm as [-> | ->]; [done|].
  destruct (is_staff u); [done|]. by rewrite bool_decide_eq_true_2.
Qed.

(** X17.  REST update of a course or a student by its owner or by a staff
    user: the validated fields of the payload replace those of the row, the
    answer is 200, and the key and the owner of the row stay. *)
Theorem rest_update_by_owner_or_staff
    (fw : Framework) (env : Env) (request : HttpRequest) (partial : bool)
    (pk : N) (db : DB) (u : User) :
  request_user request = Authenticated u ->
  (forall c t d,
      courses db !! pk = Some c ->
      is_staff u = true \/ user_pk u = Course_user c ->
      CourseSerializer_validate fw (data request) partial (Some c) = Ok (t, d) ->
      update CourseViewSet fw env request partial pk db
      = (Ok (Response HTTP_STATUS_OK),
         with_courses (insert pk (mkCourse (Course_user c) (Some t) (Some d))) db))
  /\ (forall s f l d,
        students db !! pk = Some s ->
        is_staff u = true \/ user_pk u = Student_user s ->
        StudentSerializer_validate fw env (data request) partial (Some s)
        = Ok (f, l, d) ->
        update StudentViewSet fw env request partial pk db
        = (Ok (Response HTTP_STATUS_OK),
           with_students
             (insert pk (mkStudent (Student_user s) (Some f) (Some l) d)) db)).
Proof.
  intros Hu. split.
  - intros c t d Hc Hperm Hv.
    unfold update, get_object, check_permissions, check_object_permissions,
      UserAdminPermission.has_permission. simpl. rewrite Hu. simpl. unfold_M.
    rewrite Hc. simpl.
    rewrite (has_object_permission_owner_or_staff request u _ (Course_user c));
      try done.
    simpl. rewrite Hv. done.
  - intros s f l d Hs Hperm Hv.
    unfold update, get_object, check_permissions, check_object_permissions,
      UserAdminPermission.has_permission. simpl. rewrite Hu. simpl. unfold_M.
    rewrite Hs. simpl.
    rewrite (has_object_permission_owner_or_staff request u _ (Student_user s));
      try done.
    simpl. rewrite Hv. done.
Qed.

Lemma rest_update_by_owner_or_staff_witness :
  update CourseViewSet iso_framework sample_env
    (mkRequest "PUT" (Authenticated alice) ∅ course_payload) false 10 sample_db
  = (Ok (Response HTTP_STATUS_OK),
     with_courses
       (insert 10%N (mkCourse 1 (Some "Course10") (Some "course10"))) sample_db).
Proof.
  destruct (rest_update_by_owner_or_staff iso_framework sample_env
              (mkRequest "PUT" (Authenticated alice) ∅ course_payload) false
              10%N sample_db alice eq_refl) as [H _].
  apply (H (mkCourse 1 (Some "Course10") (Some "course10")));
    [reflexivity | by right | reflexivity].
Defined.

(** X18.  REST destroy: a staff user deletes a row of any of the four
    entities, the owner deletes their own course or student; the answer is
    204 and the key is gone from the table. *)
Theorem rest_destroy_by_owner_or_staff
    (request : HttpRequest) (e : Entity) (pk : N) (db : DB) (u : User)
    (target : target_object) :
  request_user request = Authenticated u ->
  queryset_lookup (viewset_of e) pk db = Some target ->
  is_staff u = true \/ getattr_user target = Ok (user_pk u) ->
  (destroy (viewset_of e) request pk db).1 = Ok (Response HTTP_STATUS_NO_CONTENT)
  /\ queryset_lookup (viewset_of e) pk (destroy (viewset_of e) request pk db).2
     = None.
Proof.
  intros Hu Hobj Hperm.
  assert (UserAdminPermission.has_object_permission request target = Ok true)
    as Hok.
  { destruct Hperm as [Hs|Hown].
    - unfold UserAdminPermission.has_object_permission. rewrite Hu. simpl.
      rewrite Hs. by destruct (bool_decide _).
    - apply (has_object_permission_owner_or_staff request u _ (user_pk u));
        auto. }
  unfold destroy, get_object, check_permissions, check_object_permissions,
    UserAdminPermission.has_permission. rewrite Hu. simpl. unfold_M.
  rewrite Hobj, Hok. simpl.
  destruct e; simpl in Hobj |- *;
    apply fmap_Some in Hobj as (row & Hrow & ->); simpl;
    by rewrite lookup_delete_eq.
Qed.

Lemma rest_destroy_by_owner_or_staff_witness :
  (destroy ReviewViewSet (plain_request "DELETE" admin) 40 sample_db).1
  = Ok (Response HTTP_STATUS_NO_CONTENT)
  /\ queryset_lookup ReviewViewSet 40
       (destroy ReviewViewSet (plain_request "DELETE" admin) 40 sample_db).2
     = None.
Proof.
  apply (rest_destroy_by_owner_or_staff (plain_request "DELETE" admin) EReview
           40%N sample_db admin (ReviewObject 40 (mkReview 10 20 (Some "Review 1") 5))).
  - reflexivity.
  - reflexivity.
  - by left.
Defined.

(** X19.  REST lookup of a key that is not there: for an authenticated
    user, retrieve, update and destroy answer 404 for every entity, before
    any permission on the object is asked, and change nothing. *)
Theorem rest_missing_row_404
    (fw : Framework) (env : Env) (request : HttpRequest) (e : Entity)
    (partial : bool) (pk : N) (db : DB) :
  is_authenticated (request_user request) = true ->
  queryset_lookup (viewset_of e) pk db = None ->
  retrieve (viewset_of e) request pk db = (Raise Http404, db)
  /\ update (viewset_of e) fw env request partial pk db = (Raise Http404, db)
  /\ destroy (viewset_of e) request pk db = (Raise Http404, db)
  /\ status_codes (Raise Http404) = [404].
Proof.
  intros Hauth Hnone.
  unfold retrieve, update, destroy, get_object, check_permissions,
    UserAdminPermission.has_permission. rewrite Hauth. unfold_M.
  by rewrite Hnone.
Qed.

Lemma rest_missing_row_404_witness :
  retrieve ReviewViewSet (plain_request "GET" bob) 41 sample_db
  = (Raise Http404, sample_db)
  /\ update ReviewViewSet iso_framework sample_env (plain_request "GET" bob)
       false 41 sample_db = (Raise Http404, sample_db)
  /\ destroy ReviewViewSet (plain_request "GET" bob) 41 sample_db
     = (Raise Http404, sample_db)
  /\ status_codes (Raise Http404) = [404].
Proof.
  apply (rest_missing_row_404 iso_framework sample_env (plain_request "GET" bob)
           EReview false 41%N sample_db); reflexivity.
Defined.

(** ** REST create of a review *)

Lemma related_pk_Some {A} fw (t : gmap N A) raw k :
  related_pk fw t raw = Some k -> is_Some (t !! k).
Proof.
  unfold related_pk. destruct (rest_UUIDField fw raw); [|done].
  destruct (bool_decide _) eqn:E; [|done].
  intros [= <-]. by apply bool_decide_eq_true in E.
Qed.

Lemma ReviewSerializer_validate_course fw db payload r :
  ReviewSerializer_validate fw db payload false None = Ok r ->
  is_Some (courses db !! review_course r).
Proof.
  unfold ReviewSerializer_validate, field_value, serializer_validate. intros H.
  destruct (payload !! "course") as [raw|]; [|done].
  destruct (related_pk fw (courses db) raw) as [c|] eqn:E; [|done].
  apply related_pk_Some in E. simpl in H.
  repeat case_match; by simplify_eq/=.
Qed.

(** X20.  REST create of a review.  The payload must name a course and a
    student that exist, yet the student it names is not the one stored: the
    review is saved for the student row of the requester, with status 201;
    a requester without a student row ends in the unhandled
    [Student.DoesNotExist], status 500, and nothing is stored. *)
Theorem rest_review_create_stamps_student
    (fw : Framework) (env : Env) (request : HttpRequest) (db : DB) (u : User)
    (r : Review) :
  request_user request = Authenticated u ->
  ReviewSerializer_validate fw db (data request) false None = Ok r ->
  reviews db !! uuid4 env = None ->
  (forall student_pk,
      only_student_of db u student_pk ->
      create ReviewViewSet fw env request db
      = (Ok (Response HTTP_STATUS_CREATED),
         with_reviews
           (insert (uuid4 env)
              (mkReview (review_course r) student_pk (review_text r) (grade r)))
           db))
  /\ (no_student_of db u ->
      create ReviewViewSet fw env request db = (Raise (DoesNotExist MStudent), db)
      /\ server_error (Raise (DoesNotExist MStudent))).
Proof.
  intros Hu Hv Hfresh. split.
  - intros student_pk Honly.
    destruct (only_student_objects_get db u student_pk Honly) as [s Hget].
    destruct Honly as [(s0 & Hs0 & _) _].
    pose proof (ReviewSerializer_validate_course _ _ _ _ Hv) as Hc.
    unfold create, check_permissions, UserAdminPermission.has_permission.
    rewrite Hu. simpl. unfold Student_objects_get_user, Review_save_new.
    unfold_M. rewrite Hv, Hu. simpl. rewrite Hget. simpl.
    rewrite Hfresh. rewrite bool_decide_eq_false_2 by (by intros [? ?]).
    unfold foreign_keys_ok. simpl.
    rewrite !bool_decide_eq_true_2 by (done || by eexists). done.
  - intros Hno. split; [|done].
    unfold create, check_permissions, UserAdminPermission.has_permission.
    rewrite Hu. simpl. unfold Student_objects_get_user.
    unfold_M. rewrite Hv, Hu. simpl.
    by rewrite (no_student_objects_get db u Hno).
Qed.

Lemma bob_only_student_21 : only_student_of two_students_db bob 21.
Proof.
  split.
  - eexists. split; reflexivity.
  - intros k s' Hk Hu. unfold two_students_db in Hk. simpl in Hk.
    apply lookup_insert_Some in Hk as [[<- <-]|[_ Hk]]; [done|].
    apply lookup_singleton_Some in Hk as [<- <-]. done.
Qed.

Lemma rest_review_create_stamps_student_witness :
  create ReviewViewSet iso_framework sample_env review_by_other_request
    two_students_db
  = (Ok (Response HTTP_STATUS_CREATED),
     with_reviews (insert 50%N (mkReview 10 21 (Some "Review 2") 4))
       two_students_db).
Proof.
  destruct (rest_review_create_stamps_student iso_framework sample_env
              review_by_other_request two_students_db bob
              (mkReview 10 20 (Some "Review 2") 4)
              eq_refl eq_refl eq_refl) as [H _].
  apply (H 21%N bob_only_student_21).
Defined.

(** ** The pages that only read *)

Ltac unfold_pages :=
  unfold pages.main, pages.student, pages.course, pages.review,
    pages.coursetostudent, pages.course_students, pages.student_courses,
    pages.course_reviews, pages.students, pages.courses, pages.reviews,
    pages.coursetostudents, login_required, try_except_return,
    Student_objects_get_id, Course_objects_get_id, Review_objects_get_id,
    Student_objects_get_user, check_student_in_course, objects_get_id,
    get_object_or_404 in *.

(** X21.  The twelve pages that show data write nothing: whatever the
    request and whatever the answer -- a page, a redirect or an exception --
    the database is left as it was. *)
Theorem read_pages_write_nothing
    (request : HttpRequest) (c : read_call) (db : DB) :
  (serve_read request c db).2 = db.
Proof.
  destruct c; simpl; unfold_pages; unfold_M; simpl;
    repeat case_match; simplify_eq/=; done.
Qed.

(** X22.  A key that names no row.  The pages of one row ([student],
    [course] for a logged-in user, [review], [coursetostudent]) read it with
    [objects.get] and end in the unhandled [DoesNotExist], status 500; the
    pages of the related rows ([course_students], [student_courses],
    [course_reviews]) read it with [get_object_or_404] and answer 404. *)
Theorem read_pages_missing_row (request : HttpRequest) (k : N) (db : DB) :
  is_authenticated (request_user request) = true ->
  (students db !! k = None ->
   pages.student request k db = (Raise (DoesNotExist MStudent), db)
   /\ pages.student_courses request k db = (Raise Http404, db))
  /\ (courses db !! k = None ->
      pages.course request k db = (Raise (DoesNotExist MCourse), db)
      /\ pages.course_students request k db = (Raise Http404, db)
      /\ pages.course_reviews request k db = (Raise Http404, db))
  /\ (reviews db !! k = None ->
      pages.review request k db = (Raise (DoesNotExist MReview), db))
  /\ (coursetostudents db !! k = None ->
      pages.coursetostudent request k db
      = (Raise (DoesNotExist MCourseToStudent), db))
  /\ status_codes (Raise Http404) = [404]
  /\ (forall m, status_codes (Raise (DoesNotExist m)) = [500]).
Proof.
  intros Hauth.
  split; [|split; [|split; [|split; [|done]]]]; intros Hk;
    unfold_pages; unfold_M; simpl; rewrite ?Hauth, ?Hk; done.
Qed.

Lemma read_pages_missing_row_witness :
  pages.course (plain_request "GET" bob) 12 sample_db
  = (Raise (DoesNotExist MCourse), sample_db)
  /\ pages.course_students (plain_request "GET" bob) 12 sample_db
     = (Raise Http404, sample_db)
  /\ pages.course_reviews (plain_request "GET" bob) 12 sample_db
     = (Raise Http404, sample_db).
Proof.
  destruct (read_pages_missing_row (plain_request "GET" bob) 12%N sample_db
              eq_refl) as (_ & H & _).
  apply H. reflexivity.
Defined.

(** X23.  The course page.  A visitor who is not logged in is sent to the
    login page, whether or not the course exists.  For a logged-in user
    and an existing course: without a student row the answer is a redirect
    to [create_student]; with exactly one, the page is rendered and its
    [sitc] flag tells whether that student is enrolled in the course. *)
Theorem course_page_outcomes (request : HttpRequest) (db : DB) (course_id : N) :
  (request_user request = AnonymousUser ->
   pages.course request course_id db
   = (Ok (redirect_to_login (Some "login")), db))
  /\ (forall u,
        request_user request = Authenticated u ->
        is_Some (courses db !! course_id) ->
        (no_student_of db u ->
         pages.course request course_id db = (Ok (redirect "create_student"), db))
        /\ (forall student_pk,
              only_student_of db u student_pk ->
              exists sitc : bool,
                pages.course request course_id db
                = (Ok (render "course.html"
                         [("course", CtxInstance MCourse course_id);
                          ("sitc", CtxBool sitc)]), db)
                /\ (sitc = true <-> enrolled db student_pk course_id))).
Proof.
  split.
  - intros Hu. unfold pages.course, login_required. by rewrite Hu.
  - intros u Hu [c Hc]. split.
    + intros Hno. unfold_pages. rewrite Hu. unfold_M. simpl. rewrite Hc. simpl.
      by rewrite (no_student_objects_get db u Hno).
    + intros student_pk Honly.
      destruct (only_student_objects_get db u student_pk Honly) as [s Hget].
      exists (objects_exists (enrolls student_pk course_id) (coursetostudents db)).
      split.
      * unfold_pages. rewrite Hu. unfold_M. simpl. rewrite Hc. simpl.
        by rewrite Hget.
      * rewrite objects_exists_true. split.
        -- intros (k & r & Hk & [? ?]%enrolls_true). by exists k, r.
        -- intros (k & r & Hk & ? & ?). exists k, r. split; [done|].
           by apply enrolls_true.
Qed.

Lemma course_page_outcomes_witness :
  pages.course (plain_request "GET" bob) 10 sample_db
  = (Ok (redirect "create_student"), sample_db).
Proof.
  destruct (course_page_outcomes (plain_request "GET" bob) sample_db 10%N)
    as [_ H].
  destruct (H bob eq_refl) as [H1 _].
  - by eexists.
  - apply H1. apply bob_no_student.
Defined.

(** ** The two sides of an enrollment *)

Lemma elem_of_Course_students_all db course_pk student_pk :
  student_pk ∈ Course_students_all course_pk db
  <-> enrolled db student_pk course_pk /\ is_Some (students db !! student_pk).
Proof.
  unfold Course_students_all. rewrite list_elem_of_omap. split.
  - intros ([k r] & [Hk Hc%bool_decide_eq_true]%elem_of_objects_filter & Hf).
    simpl in Hf. destruct (bool_decide _) eqn:E; [|done].
    apply bool_decide_eq_true in E. simplify_eq. split; [|done].
    by exists k, r.
  - intros [(k & r & Hk & Hs & Hc) Hsome]. exists (k, r). split.
    + apply elem_of_objects_filter. split; [done|].
      by apply bool_decide_eq_true_2.
    + simpl. rewrite Hs. by rewrite bool_decide_eq_true_2.
Qed.

Lemma elem_of_Student_courses_all db course_pk student_pk :
  course_pk ∈ Student_courses_all student_pk db
  <-> enrolled db student_pk course_pk /\ is_Some (courses db !! course_pk).
Proof.
  unfold Student_courses_all. rewrite list_elem_of_omap. split.
  - intros ([k r] & [Hk Hc%bool_decide_eq_true]%elem_of_objects_filter & Hf).
    simpl in Hf. destruct (bool_decide _) eqn:E; [|done].
    apply bool_decide_eq_true in E. simplify_eq. split; [|done].
    by exists k, r.
  - intros [(k & r & Hk & Hs & Hc) Hsome]. exists (k, r). split.
    + apply elem_of_objects_filter. split; [done|].
      by apply bool_decide_eq_true_2.
    + simpl. rewrite Hc. by rewrite bool_decide_eq_true_2.
Qed.

(** X24.  The two pages of the many-to-many relation agree: for a course
    and a student that exist, [course_students] lists the student exactly
    when [student_courses] lists the course, which is exactly when an
    enrollment row links the two. *)
Theorem course_students_student_courses_agree
    (request : HttpRequest) (db : DB) (course_id student_id : N) :
  is_Some (courses db !! course_id) ->
  is_Some (students db !! student_id) ->
  exists ss cs,
    pages.course_students request course_id db
    = (Ok (render "course_students.html"
             [("course", CtxInstance MCourse course_id);
              ("students", CtxQuerySet MStudent ss)]), db)
    /\ pages.student_courses request student_id db
       = (Ok (render "student_courses.html"
                [("student", CtxInstance MStudent student_id);
                 ("courses", CtxQuerySet MCourse cs)]), db)
    /\ (student_id ∈ ss <-> course_id ∈ cs)
    /\ (student_id ∈ ss <-> enrolled db student_id course_id).
Proof.
  intros [c Hc] [s Hs].
  exists (Course_students_all course_id db), (Student_courses_all student_id db).
  split; [|split; [|split]].
  - unfold_pages. unfold_M. simpl. by rewrite Hc.
  - unfold_pages. unfold_M. simpl. by rewrite Hs.
  - rewrite elem_of_Course_students_all, elem_of_Student_courses_all.
    split; intros [? _]; split; done.
  - rewrite elem_of_Course_students_all. split; [by intros [? _]|].
    intros ?. split; done.
Qed.

Lemma course_students_student_courses_agree_witness :
  exists ss cs,
    pages.course_students (plain_request "GET" bob) 10 sample_db
    = (Ok (render "course_students.html"
             [("course", CtxInstance MCourse 10);
              ("students", CtxQuerySet MStudent ss)]), sample_db)
    /\ pages.student_courses (plain_request "GET" bob) 20 sample_db
       = (Ok (render "student_courses.html"
                [("student", CtxInstance MStudent 20);
                 ("courses", CtxQuerySet MCourse cs)]), sample_db)
    /\ (20%N ∈ ss <-> 10%N ∈ cs)
    /\ (20%N ∈ ss <-> enrolled sample_db 20 10).
Proof.
  apply (course_students_student_courses_agree (plain_request "GET" bob)
           sample_db 10%N 20%N).
  - by eexists.
  - by eexists.
Defined.

Lemma NoDup_objects_filter {A} (P : A -> bool) (t : gmap N A) :
  NoDup (objects_filter P t).
Proof. unfold objects_filter. apply NoDup_filter, NoDup_map_to_list. Qed.

Lemma NoDup_omap_inj {A B} (f : A -> option B) (l : list A) :
  NoDup l ->
  (forall x y z, x ∈ l -> y ∈ l -> f x = Some z -> f y = Some z -> x = y) ->
  NoDup (omap f l).
Proof.
  induction 1 as [|x l Hx Hnd IH]; intros Hinj; simpl; [constructor|].
  destruct (f x) as [z|] eqn:E.
  - constructor.
    + intros (y & Hy & Hfy)%list_elem_of_omap.
      assert (x = y) as -> by (eapply Hinj; [left | by right | done | done]).
      done.
    + apply IH. intros ??? ? ?. apply Hinj; by right.
  - apply IH. intros ??? ? ?. apply Hinj; by right.
Qed.

(** X25.  [unique_together] shows on the pages of the relation: in a
    database where no pair of course and student is enrolled twice -- such
    as every database the views build -- [course_students] lists no student
    twice and [student_courses] no course twice. *)
Theorem relation_pages_list_once (db : DB) (course_id student_id : N) :
  enrollment_unique db ->
  NoDup (Course_students_all course_id db)
  /\ NoDup (Student_courses_all student_id db).
Proof.
  intros Huniq. split.
  - apply NoDup_omap_inj; [apply NoDup_objects_filter|].
    intros [k1 r1] [k2 r2] z
      [H1 Hc1%bool_decide_eq_true]%elem_of_objects_filter
      [H2 Hc2%bool_decide_eq_true]%elem_of_objects_filter Hf1 Hf2.
    simpl in *. repeat case_match; simplify_eq.
    assert (k1 = k2) by (eapply Huniq; [done|done|congruence|congruence]).
    congruence.
  - apply NoDup_omap_inj; [apply NoDup_objects_filter|].
    intros [k1 r1] [k2 r2] z
      [H1 Hc1%bool_decide_eq_true]%elem_of_objects_filter
      [H2 Hc2%bool_decide_eq_true]%elem_of_objects_filter Hf1 Hf2.
    simpl in *. repeat case_match; simplify_eq.
    assert (k1 = k2) by (eapply Huniq; [done|done|congruence|congruence]).
    congruence.
Qed.

Lemma relation_pages_list_once_witness :
  NoDup (Course_students_all 10 sample_db)
  /\ NoDup (Student_courses_all 20 sample_db).
Proof.
  apply (relation_pages_list_once sample_db 10%N 20%N).
  apply reachable_enrollment_unique, sample_db_reachable.
Defined.

(** X26.  Enrolling shows on the pages: after [enroll_course] has enrolled
    the one student of the requester in a course, the course page of the
    same user has its [sitc] flag set and [course_students] lists the
    student. *)
Theorem enroll_course_shows_on_pages
    (env : Env) (request : HttpRequest) (db : DB) (u : User)
    (course_id student_pk : N) :
  request_user request = Authenticated u ->
  is_Some (courses db !! course_id) ->
  only_student_of db u student_pk ->
  ~ enrolled db student_pk course_id ->
  coursetostudents db !! uuid4 env = None ->
  let db' := (enroll_course env request course_id db).2 in
  pages.course request course_id db'
  = (Ok (render "course.html"
           [("course", CtxInstance MCourse course_id); ("sitc", CtxBool true)]),
     db')
  /\ student_pk ∈ Course_students_all course_id db'.
Proof.
  intros Hu Hc Honly Hnot Hfresh db'.
  destruct (enroll_course_adds_row env request db u course_id student_pk)
    as [Heq Henr]; try done.
  fold db' in Henr.
  assert (courses db' = courses db /\ students db' = students db) as [Hcs Hss].
  { unfold db'. by rewrite Heq. }
  assert (only_student_of db' u student_pk) as Honly'.
  { unfold only_student_of. by rewrite Hss. }
  split.
  - destruct (only_student_objects_get db' u student_pk Honly') as [s Hget].
    destruct Hc as [c Hc]. unfold_pages. rewrite Hu. unfold_M. simpl.
    rewrite Hcs, Hc. simpl. rewrite Hget. simpl.
    by rewrite (enrolled_exists _ _ _ Henr).
  - apply elem_of_Course_students_all. split; [done|].
    rewrite Hss. by destruct Honly as [(s & -> & _) _].
Qed.

Lemma enroll_course_shows_on_pages_witness :
  pages.course (plain_request "POST" alice) 11
    (enroll_course sample_env (plain_request "POST" alice) 11 sample_db).2
  = (Ok (render "course.html"
           [("course", CtxInstance MCourse 11); ("sitc", CtxBool true)]),
     (enroll_course sample_env (plain_request "POST" alice) 11 sample_db).2)
  /\ 20%N ∈ Course_students_all 11
       (enroll_course sample_env (plain_request "POST" alice) 11 sample_db).2.
Proof.
  apply (enroll_course_shows_on_pages sample_env (plain_request "POST" alice)
           sample_db alice 11%N 20%N).
  - reflexivity.
  - by eexists.
  - apply alice_only_student.
  - apply alice_not_enrolled_11.
  - reflexivity.
Defined.

(** ** Accounts *)

Lemma objects_filter_nil {A} (P : A -> bool) (t : gmap N A) :
  (forall k r, t !! k = Some r -> P r = false) -> objects_filter P t = [].
Proof.
  intros Hall. destruct (objects_filter P t) as [|[k r] l] eqn:E; [done|].
  assert ((k, r) ∈ objects_filter P t) as Hin by (rewrite E; left).
  apply elem_of_objects_filter in Hin as [Hk Hr].
  rewrite (Hall k r Hk) in Hr. done.
Qed.

Lemma objects_filter_head {A} (P : A -> bool) (t : gmap N A) k r :
  head (objects_filter P t) = Some (k, r) -> t !! k = Some r /\ P r = true.
Proof.
  intros H. apply elem_of_objects_filter.
  destruct (objects_filter P t) as [|x l]; [done|].
  simpl in H. simplify_eq. left.
Qed.


Lemma username_free_first name a :
  username_free name a -> User_objects_filter_username_first name a = None.
Proof.
  intros Hfree. unfold User_objects_filter_username_first.
  rewrite objects_filter_nil; [done|].
  intros k u Hk. apply bool_decide_eq_false_2. by apply (Hfree k u).
Qed.

Lemma falsy_false v :
  falsy v = false -> exists c s, v = Some (String c s).
Proof. destruct v as [[|c s]|]; try done. by exists c, s. Qed.

(** X27.  An account request that is refused writes nothing: unless the
    answer is the redirect to the main page, the users, the tokens and the
    session are as they were -- for a registration with a missing field,
    two different passwords or a taken name, for a login with an unknown
    name or a wrong password, and for a request that ends in an exception.
    In particular a failed login does not log the client out. *)
Theorem account_refusals_write_nothing
    (lib : Auth) (request : HttpRequest) (c : account_call) (a : Accounts) :
  (serve_account lib request c a).1 <> Ok (redirect "main") ->
  (serve_account lib request c a).2 = a.
Proof.
  destruct c; simpl;
    unfold UserRegistrationView.post, UserRegistrationView.get,
      UserLoginView.post, UserLoginView.get, log_out, create_user,
      Token_objects_get_or_create;
    intros H; repeat case_match; simplify_eq/=; done.
Qed.

Lemma account_refusals_write_nothing_witness :
  (serve_account sample_auth (login_request "alice" "looking-glass") LoginPost
     (login 2 sample_accounts)).2
  = login 2 sample_accounts.
Proof.
  apply (account_refusals_write_nothing sample_auth
           (login_request "alice" "looking-glass") LoginPost
           (login 2 sample_accounts)).
  vm_compute. discriminate.
Defined.

Lemma create_user_usernames_unique lib name raw_password a :
  usernames_unique a -> usernames_unique (create_user lib name raw_password a).2.
Proof.
  intros Huniq. unfold create_user.
  destruct (falsy (Some name)); [done|].
  destruct (bool_decide (is_Some _)) eqn:Hfresh; [done|].
  apply fresh_key in Hfresh.
  destruct (objects_exists _ _) eqn:Hex; [done|].
  pose proof (proj1 (objects_exists_false _ _) Hex) as Hfree.
  intros k1 k2 u1 u2. simpl.
  intros [[<- <-]|[Hne1 H1]]%lookup_insert_Some
         [[<- <-]|[Hne2 H2]]%lookup_insert_Some Heq; simpl in *.
  - done.
  - apply Hfree in H2. apply bool_decide_eq_false in H2. by destruct H2.
  - apply Hfree in H1. apply bool_decide_eq_false in H1. by destruct H1.
  - by apply (Huniq k1 k2 u1 u2).
Qed.

(** X28.  User names stay unique: whatever the account request --
    registration, login or logout, accepted or refused -- if no two users
    shared a name before it, none do after it.  Registration relies on the
    unique column for this where the normal form of the submitted name
    differs from the name the view looked up. *)
Theorem usernames_stay_unique
    (lib : Auth) (request : HttpRequest) (c : account_call) (a : Accounts) :
  usernames_unique a ->
  usernames_unique (serve_account lib request c a).2.
Proof.
  intros Huniq. destruct c; simpl.
  - unfold UserRegistrationView.post.
    repeat case_match; simplify_eq/=; try done;
      match goal with
      | H : create_user ?l ?n ?p ?a = _ |- _ =>
          pose proof (create_user_usernames_unique l n p a Huniq) as Hc;
          rewrite H in Hc
      end; done.
  - done.
  - unfold UserLoginView.post, Token_objects_get_or_create.
    repeat case_match; simplify_eq/=; done.
  - done.
  - unfold log_out. by destruct (is_authenticated _).
Qed.

Lemma sample_usernames_unique : usernames_unique sample_accounts.
Proof.
  intros k1 k2 u1 u2 H1 H2 Heq. simpl in H1, H2.
  repeat (apply lookup_insert_Some in H1 as [[<- <-]|[_ H1]];
          [|try apply lookup_singleton_Some in H1 as [<- <-]]);
  repeat (apply lookup_insert_Some in H2 as [[<- <-]|[_ H2]];
          [|try apply lookup_singleton_Some in H2 as [<- <-]]);
  try done.
Qed.

Lemma usernames_stay_unique_witness :
  usernames_unique
    (serve_account sample_auth (register_request "carol" "pw" "pw") RegisterPost
       sample_accounts).2.
Proof.
  apply (usernames_stay_unique sample_auth (register_request "carol" "pw" "pw")
           RegisterPost sample_accounts).
  apply sample_usernames_unique.
Defined.






(** X30.  A name whose normal form is taken.  The registration looks the
    submitted name up as it is, but [create_user] stores its normal form:
    when the name is free and its normal form is the name of a user, the
    view goes on to create the user, the unique column refuses the row, and
    the request ends in the unhandled [IntegrityError], status 500, instead
    of the inline error; nothing is written and nobody is logged in. *)
Theorem registration_normal_form_taken
    (lib : Auth) (request : HttpRequest) (a : Accounts)
    (name : string) (c : ascii) (s : string) (k : N) (u : UserRow) :
  POST request !! "username" = Some name ->
  POST request !! "password1" = Some (String c s) ->
  POST request !! "password2" = Some (String c s) ->
  falsy (Some name) = false ->
  username_free name a ->
  users a !! k = Some u ->
  User_username u = normalize_username lib name ->
  UserRegistrationView.post lib request a = (Raise IntegrityError, a)
  /\ server_error (Raise IntegrityError)
  /\ inline_error (UserRegistrationView.post lib request a).1 = None.
Proof.
  intros Hn H1 H2 Hname Hfree Hk Hu.
  assert (UserRegistrationView.post lib request a = (Raise IntegrityError, a))
    as Heq.
  { assert (objects_exists (has_username (normalize_username lib name))
              (users a) = true) as Hex.
    { apply objects_exists_true. exists k, u. split; [done|].
      by apply bool_decide_eq_true_2. }
    pose proof (username_free_first name a Hfree) as Hfirst.
    destruct name as [|c0 s0]; [done|]. clear Hname.
    unfold UserRegistrationView.post, create_user.
    rewrite Hn, H1, H2. simpl.
    rewrite bool_decide_eq_true_2 by done. simpl.
    rewrite Hfirst.
    destruct (bool_decide (is_Some _)); [done|].
    by rewrite Hex. }
  rewrite Heq. done.
Qed.

Lemma fullwidth_alice_free : username_free "ａｌｉｃｅ" sample_accounts.
Proof.
  intros k u Hk. simpl in Hk.
  repeat (apply lookup_insert_Some in Hk as [[<- <-]|[_ Hk]]; [done|]);
    by apply lookup_singleton_Some in Hk as [<- <-].
Qed.

Lemma registration_normal_form_taken_witness :
  UserRegistrationView.post sample_auth (register_request "ａｌｉｃｅ" "pw" "pw")
    sample_accounts
  = (Raise IntegrityError, sample_accounts).
Proof.
  destruct (registration_normal_form_taken sample_auth
              (register_request "ａｌｉｃｅ" "pw" "pw") sample_accounts
              "ａｌｉｃｅ" "p"%char "w" 1%N
              (mkUserRow "alice" "plain$wonderland" true false)
              eq_refl eq_refl eq_refl eq_refl fullwidth_alice_free
              eq_refl eq_refl)
    as (H & _).
  exact H.
Defined.
